(** * Recipe recommender backend: a shallow embedding and its properties

    The repository holds two Flask entry points over one MySQL schema:
    - [app.py], the monolithic application with inline SQL, and
    - [app_improved.py], the modular application built on [models.py],
      [services.py] and [config.py].

    Both are embedded below as pure functions over an explicit database
    value.  Everything that lives outside the repository (werkzeug, PyJWT,
    the json module, the completion API, the clock, the MySQL server) enters
    through the [runtime] record and the per-request [env] record.

    Conventions for the MySQL side: a table is the list of its rows in
    insertion order; a SELECT returns the matching rows in that order, so
    [fetchone()] gives the first match; [=] on a VARCHAR or TEXT column is
    equality of strings; column widths are not modelled; the constraints
    declared by [init_database] in [app.py] (UNIQUE email, NOT NULL name,
    foreign keys) make the offending INSERT fail; a transaction that ends
    without [commit()] leaves the database as it was. *)

From Stdlib Require Import String Ascii List ZArith NArith Bool Lia.
From Stdlib Require Import Sorted Permutation DecimalString.
Import ListNotations.

Set Warnings "-register-all".

Local Open Scope string_scope.
Local Open Scope Z_scope.

(* ===================================================================== *)
(** ** Python strings

    A Python [str] is modelled by [string]; one [ascii] is one character
    (a code point below 256). *)
(* ===================================================================== *)

Module Py.

Definition code (c : ascii) : N := N_of_ascii c.

Definition in_range (lo hi : N) (c : ascii) : bool :=
  (N.leb lo (code c) && N.leb (code c) hi)%bool.

(** [str.isspace] on one character: TAB..CR, FS..US, space, NEL, NBSP. *)
Definition is_space (c : ascii) : bool :=
  (in_range 9 13 c || in_range 28 32 c
   || N.eqb (code c) 133 || N.eqb (code c) 160)%bool.

(** Characters that [str.lower] changes: A-Z and the Latin-1 capitals. *)
Definition is_upper (c : ascii) : bool :=
  (in_range 65 90 c || in_range 192 214 c || in_range 216 222 c)%bool.

Definition lower_char (c : ascii) : ascii :=
  if is_upper c then ascii_of_N (code c + 32) else c.

(** [s.lower()] *)
Fixpoint lower (s : string) : string :=
  match s with
  | EmptyString => EmptyString
  | String c s' => String (lower_char c) (lower s')
  end.

(** [s.lstrip()] *)
Fixpoint lstrip (s : string) : string :=
  match s with
  | EmptyString => EmptyString
  | String c s' => if is_space c then lstrip s' else s
  end.

(** [s.rstrip()] *)
Fixpoint rstrip (s : string) : string :=
  match s with
  | EmptyString => EmptyString
  | String c s' =>
      match rstrip s' with
      | EmptyString => if is_space c then EmptyString else String c EmptyString
      | r => String c r
      end
  end.

(** [s.strip()] *)
Definition strip (s : string) : string := rstrip (lstrip s).

(** Truthiness of a [str]: [not s] holds exactly for the empty string. *)
Definition truthy (s : string) : bool :=
  match s with EmptyString => false | _ => true end.

(** [s.startswith(p)] *)
Definition startswith (p s : string) : bool := String.prefix p s.

(** [s[n:]] *)
Fixpoint drop (n : nat) (s : string) : string :=
  match n, s with
  | O, _ => s
  | S _, EmptyString => EmptyString
  | S n', String _ s' => drop n' s'
  end.

(** [s[a:-b]] for literal [a], [b > 0]: the characters from index [a] up
    to, not including, index [len(s) - b]; empty when the bounds cross. *)
Definition slice (a b : nat) (s : string) : string :=
  substring a (String.length s - b - a) s.

(** [s.split(sep)] for a one-character separator: never an empty list. *)
Fixpoint split (sep : ascii) (s : string) : list string :=
  match s with
  | EmptyString => [EmptyString]
  | String c s' =>
      match split sep s' with
      | [] => [EmptyString]
      | w :: ws =>
          if Ascii.eqb c sep then EmptyString :: w :: ws
          else String c w :: ws
      end
  end.

(** [sep.join(l)] *)
Definition join (sep : string) (l : list string) : string :=
  String.concat sep l.

(** [needle in hay] on strings. *)
Fixpoint contains (needle hay : string) : bool :=
  if String.prefix needle hay then true
  else match hay with
       | EmptyString => false
       | String _ hay' => contains needle hay'
       end.

(** The characters of a string, as one-character strings (iteration
    over a [str]). *)
Fixpoint chars (s : string) : list string :=
  match s with
  | EmptyString => []
  | String c s' => String c EmptyString :: chars s'
  end.

(** [str(n)] for an [int]. *)
Definition str_of_int (n : Z) : string :=
  NilZero.string_of_int (Z.to_int n).

End Py.

(* ===================================================================== *)
(** ** Regular expressions, as far as [re.match] is used by [register] *)
(* ===================================================================== *)

Module Re.

Inductive regex : Type :=
| Void
| Eps
| Class (p : ascii -> bool)
| Seq (r1 r2 : regex)
| Alt (r1 r2 : regex)
| Star (r : regex).

Fixpoint nullable (r : regex) : bool :=
  match r with
  | Void => false
  | Eps => true
  | Class _ => false
  | Seq r1 r2 => nullable r1 && nullable r2
  | Alt r1 r2 => nullable r1 || nullable r2
  | Star _ => true
  end.

Fixpoint deriv (c : ascii) (r : regex) : regex :=
  match r with
  | Void => Void
  | Eps => Void
  | Class p => if p c then Eps else Void
  | Seq r1 r2 =>
      if nullable r1 then Alt (Seq (deriv c r1) r2) (deriv c r2)
      else Seq (deriv c r1) r2
  | Alt r1 r2 => Alt (deriv c r1) (deriv c r2)
  | Star r1 => Seq (deriv c r1) (Star r1)
  end.

Fixpoint fullmatch (r : regex) (s : string) : bool :=
  match s with
  | EmptyString => nullable r
  | String c s' => fullmatch (deriv c r) s'
  end.

Definition Plus (r : regex) : regex := Seq r (Star r).
Definition Chr (c : ascii) : regex := Class (Ascii.eqb c).

(** [re.match('^' r '$', s)]: [$] also matches just before a final
    newline. *)
Definition match_anchored (r : regex) (s : string) : bool :=
  fullmatch (Seq r (Alt Eps (Chr "010"%char))) s.

Definition alpha (c : ascii) : bool :=
  (Py.in_range 97 122 c || Py.in_range 65 90 c)%bool.
Definition digit (c : ascii) : bool := Py.in_range 48 57 c.
Definition one_of (cs : string) (c : ascii) : bool :=
  existsb (Ascii.eqb c) (list_ascii_of_string cs).

End Re.

(* ===================================================================== *)
(** ** JSON values, Python exceptions *)
(* ===================================================================== *)

Inductive json : Type :=
| JNull
| JBool (b : bool)
| JInt (n : Z)
| JFloat (repr : string)
| JStr (s : string)
| JArr (items : list json)
| JObj (fields : list (string * json)).

Inductive exn : Type :=
| JSONDecodeError
| ValueError (msg : string)
| TypeError
| KeyError (key : string)
| AttributeError
| NameError (name : string)
| ApiError (msg : string).

(** Outcome of evaluating a Python expression. *)
Inductive result (A : Type) : Type :=
| Ok (a : A)
| Raise (e : exn).
Arguments Ok {A} a.
Arguments Raise {A} e.

Definition bind {A B : Type} (m : result A) (k : A -> result B) : result B :=
  match m with
  | Ok a => k a
  | Raise e => Raise e
  end.

Notation "x <- m ;; k" := (bind m (fun x => k))
  (at level 61, m at next level, right associativity).

(** [str(e)] for a [mysql.connector.Error]; the text is the driver's. *)
Definition mysql_error : string := "mysql.connector.Error".

(** [str(e)] *)
Definition str_of_exn (e : exn) : string :=
  match e with
  | JSONDecodeError => "Expecting value"
  | ValueError msg => msg
  | TypeError => "unsupported operand"
  | KeyError k => "'" ++ k ++ "'"
  | AttributeError => "'NoneType' object has no attribute"
  | NameError n => "name '" ++ n ++ "' is not defined"
  | ApiError msg => msg
  end.

Module PyJson.

Fixpoint assoc (k : string) (fs : list (string * json)) : option json :=
  match fs with
  | [] => None
  | (k', v) :: fs' => if String.eqb k' k then Some v else assoc k fs'
  end.

Definition is_str (k : string) (v : json) : bool :=
  match v with JStr s => String.eqb s k | _ => false end.

(** [k in v] for a string [k]: key of a dict, element of a list,
    substring of a string; a [TypeError] on anything else. *)
Definition py_in (k : string) (v : json) : result bool :=
  match v with
  | JObj fs => Ok (match assoc k fs with Some _ => true | None => false end)
  | JArr l => Ok (existsb (is_str k) l)
  | JStr s => Ok (Py.contains k s)
  | _ => Raise TypeError
  end.

(** [all(k in v for k in ks)]: stops at the first false test. *)
Fixpoint all_in (ks : list string) (v : json) : result bool :=
  match ks with
  | [] => Ok true
  | k :: ks' =>
      b <- py_in k v ;;
      if b then all_in ks' v else Ok false
  end.

(** [v[k]] for a string [k]. *)
Definition getitem (v : json) (k : string) : result json :=
  match v with
  | JObj fs =>
      match assoc k fs with
      | Some x => Ok x
      | None => Raise (KeyError k)
      end
  | _ => Raise TypeError
  end.

Fixpoint strings_of (l : list json) : result (list string) :=
  match l with
  | [] => Ok []
  | JStr s :: l' => ss <- strings_of l' ;; Ok (s :: ss)
  | _ :: _ => Raise TypeError
  end.

(** [sep.join(v)]: [v] must iterate over strings. *)
Definition join (sep : string) (v : json) : result string :=
  match v with
  | JArr l => ss <- strings_of l ;; Ok (Py.join sep ss)
  | JStr s => Ok (Py.join sep (Py.chars s))
  | JObj fs => Ok (Py.join sep (map fst fs))
  | _ => Raise TypeError
  end.

End PyJson.

(* ===================================================================== *)
(** ** Collaborators outside the repository *)
(* ===================================================================== *)

(** The claims of a token: [user_id] and [exp] (seconds since the epoch);
    [None] is an absent claim. *)
Record jwt_payload : Type := mkPayload {
  p_user_id : option Z;
  p_exp : option Z
}.

Inductive algorithm : Type := HS256 | HS384 | HS512.

(** What [jwt.decode] does: the payload, [ExpiredSignatureError], or some
    other [InvalidTokenError]. *)
Inductive jwt_result : Type :=
| JwtOk (p : jwt_payload)
| JwtExpired
| JwtInvalid.

(** The library functions the handlers call.  [generate_password_hash]
    takes the salt it draws as a second argument; [jwt_decode] takes the
    current time as last argument. *)
Record runtime : Type := mkRuntime {
  generate_password_hash : string -> string -> string;
  check_password_hash : string -> string -> bool;
  jwt_encode : jwt_payload -> string -> algorithm -> string;
  jwt_decode : string -> string -> list algorithm -> Z -> jwt_result;
  json_loads : string -> option json
}.


(** What [openai.ChatCompletion.create(...)] followed by
    [.choices[0].message.content] does: raise, or give the text. *)
Inductive api_outcome : Type :=
| ApiRaises (msg : string)
| ApiReturns (content : string).

(** What one request sees of the world: the clock (seconds), whether the
    MySQL server accepts connections, the salt drawn for a new password
    hash, and the outcome of the completion call. *)
Record env : Type := mkEnv {
  now : Z;
  db_up : bool;
  salt : string;
  completion : api_outcome
}.

Definition seconds_per_day : Z := 86400.

(* ===================================================================== *)
(** ** The database: five tables with AUTO_INCREMENT keys *)
(* ===================================================================== *)

Record user_row : Type := mkUser {
  u_id : Z; u_name : string; u_email : string; u_password_hash : string;
  u_created_at : Z
}.

Record ingredient_row : Type := mkIngredient {
  i_id : Z; i_user_id : Z; i_ingredient : string; i_added_at : Z
}.

Record recipe_row : Type := mkRecipe {
  r_id : Z; r_name : string; r_description : option string;
  r_ingredients : option string; r_instructions : option string;
  r_cook_time : option string; r_difficulty : option string;
  r_created_at : Z
}.

Record favorite_row : Type := mkFavorite {
  f_id : Z; f_user_id : Z; f_recipe_id : Z; f_created_at : Z
}.

Record history_row : Type := mkHistory {
  h_id : Z; h_user_id : Z; h_ingredients : string; h_recipes_found : Z;
  h_search_time : Z
}.

(** Rows are kept in insertion order; [next_*] is the AUTO_INCREMENT
    counter of the table. *)
Record database : Type := mkDb {
  users : list user_row;
  user_ingredients : list ingredient_row;
  recipes : list recipe_row;
  user_favorites : list favorite_row;
  search_history : list history_row;
  next_user_id : Z;
  next_ingredient_id : Z;
  next_recipe_id : Z;
  next_favorite_id : Z;
  next_history_id : Z
}.

Definition empty_db : database :=
  mkDb [] [] [] [] [] 1 1 1 1 1.

(** A cursor after [execute]: the result set, [lastrowid], [rowcount]. *)
Record cursor (R : Type) : Type := mkCursor {
  rows : list R;
  lastrowid : Z;
  rowcount : Z
}.
Arguments mkCursor {R} rows lastrowid rowcount.
Arguments rows {R} c.
Arguments lastrowid {R} c.
Arguments rowcount {R} c.

(** [cursor.fetchone()] *)
Definition fetchone {R : Type} (c : cursor R) : option R := hd_error (rows c).
(** [cursor.fetchall()] *)
Definition fetchall {R : Type} (c : cursor R) : list R := rows c.

(** A statement either fails with a [mysql.connector.Error] ([None]) or
    leaves a cursor and the database as changed inside the transaction. *)
Definition statement (R : Type) : Type := database -> option (cursor R * database).

Module Sql.

Definition selected {R : Type} (rs : list R) : statement R :=
  fun d => Some (mkCursor rs 0 (Z.of_nat (length rs)), d).

Definition inserted (id : Z) (d' : database) : option (cursor unit * database) :=
  Some (mkCursor [] id 1, d').

Definition user_exists (uid : Z) (d : database) : bool :=
  existsb (fun u => u_id u =? uid) (users d).

Definition recipe_exists (rid : Z) (d : database) : bool :=
  existsb (fun r => r_id r =? rid) (recipes d).

(** [SELECT id, name, email, password_hash FROM users WHERE email = %s]
    (also used for [SELECT id FROM users WHERE email = %s]). *)
Definition select_user_by_email (email : string) : statement user_row :=
  fun d => selected (filter (fun u => String.eqb (u_email u) email) (users d)) d.

(** [INSERT INTO users (name, email, password_hash) VALUES (...)];
    [email] is UNIQUE. *)
Definition insert_user (name email password_hash : string) (t : Z)
  : statement unit :=
  fun d =>
    if existsb (fun u => String.eqb (u_email u) email) (users d) then None
    else
      let id := next_user_id d in
      inserted id
        (mkDb (users d ++ [mkUser id name email password_hash t])
              (user_ingredients d) (recipes d) (user_favorites d)
              (search_history d)
              (id + 1) (next_ingredient_id d) (next_recipe_id d)
              (next_favorite_id d) (next_history_id d)).

Definition ingredient_matches (uid : Z) (ingredient : string)
           (i : ingredient_row) : bool :=
  ((i_user_id i =? uid) && String.eqb (i_ingredient i) ingredient)%bool.

(** [SELECT id FROM user_ingredients WHERE user_id = %s AND ingredient = %s] *)
Definition select_ingredient_id (uid : Z) (ingredient : string)
  : statement Z :=
  fun d => selected
             (map i_id (filter (ingredient_matches uid ingredient)
                               (user_ingredients d))) d.

(** [INSERT INTO user_ingredients (user_id, ingredient) VALUES (...)];
    [user_id] references [users(id)]. *)
Definition insert_ingredient (uid : Z) (ingredient : string) (t : Z)
  : statement unit :=
  fun d =>
    if user_exists uid d then
      let id := next_ingredient_id d in
      inserted id
        (mkDb (users d)
              (user_ingredients d ++ [mkIngredient id uid ingredient t])
              (recipes d) (user_favorites d) (search_history d)
              (next_user_id d) (id + 1) (next_recipe_id d)
              (next_favorite_id d) (next_history_id d))
    else None.

(** [DELETE FROM user_ingredients WHERE user_id = %s AND ingredient = %s];
    [rowcount] is the number of rows removed, and [lastrowid] stays 0, as a
    DELETE generates no AUTO_INCREMENT value. *)
Definition delete_ingredient (uid : Z) (ingredient : string)
  : statement unit :=
  fun d =>
    let hit := ingredient_matches uid ingredient in
    Some (mkCursor [] 0
            (Z.of_nat (length (filter hit (user_ingredients d)))),
          mkDb (users d)
               (filter (fun i => negb (hit i)) (user_ingredients d))
               (recipes d) (user_favorites d) (search_history d)
               (next_user_id d) (next_ingredient_id d) (next_recipe_id d)
               (next_favorite_id d) (next_history_id d)).

(** [SELECT id FROM recipes WHERE name = %s] *)
Definition select_recipe_id_by_name (name : string) : statement Z :=
  fun d => selected
             (map r_id (filter (fun r => String.eqb (r_name r) name)
                               (recipes d))) d.

(** How the connector binds a Python value to a text parameter: [None]
    when the value cannot be converted (the statement fails), [Some None]
    for NULL. *)
Definition text_param (v : json) : option (option string) :=
  match v with
  | JNull => Some None
  | JBool b => Some (Some (if b then "1" else "0"))
  | JInt n => Some (Some (Py.str_of_int n))
  | JFloat repr => Some (Some repr)
  | JStr s => Some (Some s)
  | JArr _ => None
  | JObj _ => None
  end.

(** [INSERT INTO recipes (name, description, ingredients, instructions,
     cook_time, difficulty) VALUES (...)]; [name] is NOT NULL, so the
    statement fails on a NULL name. *)
Definition insert_recipe
           (name description ingredients instructions cook_time
                 difficulty : json) (t : Z) : statement unit :=
  fun d =>
    match text_param name, text_param description, text_param ingredients,
          text_param instructions, text_param cook_time,
          text_param difficulty with
    | Some (Some name), Some description, Some ingredients,
      Some instructions, Some cook_time, Some difficulty =>
        let id := next_recipe_id d in
        inserted id
          (mkDb (users d) (user_ingredients d)
                (recipes d ++ [mkRecipe id name description ingredients
                                        instructions cook_time difficulty t])
                (user_favorites d) (search_history d)
                (next_user_id d) (next_ingredient_id d) (id + 1)
                (next_favorite_id d) (next_history_id d))
    | _, _, _, _, _, _ => None
    end.

Definition favorite_matches (uid rid : Z) (f : favorite_row) : bool :=
  ((f_user_id f =? uid) && (f_recipe_id f =? rid))%bool.

(** [SELECT id FROM user_favorites WHERE user_id = %s AND recipe_id = %s] *)
Definition select_favorite_id (uid rid : Z) : statement Z :=
  fun d => selected
             (map f_id (filter (favorite_matches uid rid) (user_favorites d)))
             d.

(** [INSERT INTO user_favorites (user_id, recipe_id) VALUES (...)];
    both columns are foreign keys. *)
Definition insert_favorite (uid rid : Z) (t : Z) : statement unit :=
  fun d =>
    if (user_exists uid d && recipe_exists rid d)%bool then
      let id := next_favorite_id d in
      inserted id
        (mkDb (users d) (user_ingredients d) (recipes d)
              (user_favorites d ++ [mkFavorite id uid rid t])
              (search_history d)
              (next_user_id d) (next_ingredient_id d) (next_recipe_id d)
              (id + 1) (next_history_id d))
    else None.

(** [INSERT INTO search_history (user_id, ingredients, recipes_found)
     VALUES (...)]; [user_id] references [users(id)]. *)
Definition insert_history (uid : Z) (ingredients : string) (found : Z)
           (t : Z) : statement unit :=
  fun d =>
    if user_exists uid d then
      let id := next_history_id d in
      inserted id
        (mkDb (users d) (user_ingredients d) (recipes d) (user_favorites d)
              (search_history d ++ [mkHistory id uid ingredients found t])
              (next_user_id d) (next_ingredient_id d) (next_recipe_id d)
              (next_favorite_id d) (id + 1))
    else None.

(** [ORDER BY search_time DESC]: insertion into a list kept in
    non-increasing order of [search_time]. *)
Fixpoint insert_desc (r : history_row) (l : list history_row)
  : list history_row :=
  match l with
  | [] => [r]
  | x :: l' =>
      if h_search_time x <=? h_search_time r then r :: l
      else x :: insert_desc r l'
  end.

Definition order_by_search_time_desc (l : list history_row)
  : list history_row :=
  fold_right insert_desc [] l.

(** [SELECT ingredients, recipes_found, search_time FROM search_history
     WHERE user_id = %s ORDER BY search_time DESC LIMIT %s] *)
Definition select_history (uid : Z) (limit : Z) : statement history_row :=
  fun d => selected
             (firstn (Z.to_nat limit)
                     (order_by_search_time_desc
                        (filter (fun h => h_user_id h =? uid)
                                (search_history d)))) d.

(** [ORDER BY key DESC] for any table: insertion into a list kept in
    non-increasing order of [key]. *)
Fixpoint insert_by_desc {A : Type} (key : A -> Z) (r : A) (l : list A)
  : list A :=
  match l with
  | [] => [r]
  | x :: l' =>
      if key x <=? key r then r :: l else x :: insert_by_desc key r l'
  end.

Definition order_by_desc {A : Type} (key : A -> Z) (l : list A) : list A :=
  fold_right (insert_by_desc key) [] l.

(** [SELECT id, name, email, created_at FROM users WHERE id = %s] *)
Definition select_user_by_id (uid : Z) : statement user_row :=
  fun d => selected (filter (fun u => u_id u =? uid) (users d)) d.

(** [SELECT ingredient FROM user_ingredients WHERE user_id = %s
     ORDER BY added_at DESC] *)
Definition select_ingredients (uid : Z) : statement string :=
  fun d => selected
             (map i_ingredient
                  (order_by_desc i_added_at
                     (filter (fun i => i_user_id i =? uid)
                             (user_ingredients d)))) d.

(** [SELECT r.id, r.name, r.description, r.cook_time, r.difficulty
     FROM recipes r JOIN user_favorites uf ON r.id = uf.recipe_id
     WHERE uf.user_id = %s ORDER BY uf.created_at DESC]: one row for every
    pair of a favorite of the user and a recipe with the favorite's
    [recipe_id]. *)
Definition select_favorites (uid : Z) : statement recipe_row :=
  fun d => selected
             (flat_map
                (fun uf => filter (fun r => r_id r =? f_recipe_id uf)
                                  (recipes d))
                (order_by_desc f_created_at
                   (filter (fun uf => f_user_id uf =? uid)
                           (user_favorites d)))) d.

End Sql.


(* ===================================================================== *)
(** ** Requests and responses *)
(* ===================================================================== *)

(** JSON request bodies; [None] in a field is an absent key. *)
Record register_body : Type := mkRegisterBody {
  rb_name : option string; rb_email : option string;
  rb_password : option string
}.

Record login_body : Type := mkLoginBody {
  lb_email : option string; lb_password : option string
}.

Record search_body : Type := mkSearchBody { sb_ingredients : option string }.

Record ingredient_body : Type := mkIngredientBody {
  ib_ingredient : option string
}.

Record recipe_data : Type := mkRecipeData {
  rd_name : option string; rd_description : option string;
  rd_ingredients : option (list string);
  rd_instructions : option (list string);
  rd_cook_time : option string; rd_difficulty : option string
}.

Record favorite_body : Type := mkFavoriteBody { fb_recipe : option recipe_data }.

(** Truthiness of the [recipe] dict: false exactly for the empty dict. *)
Definition recipe_data_truthy (r : recipe_data) : bool :=
  match rd_name r, rd_description r, rd_ingredients r, rd_instructions r,
        rd_cook_time r, rd_difficulty r with
  | None, None, None, None, None, None => false
  | _, _, _, _, _, _ => true
  end.

(** [d.get(k, default)] on an optional field. *)
Definition get {A : Type} (field : option A) (default : A) : A :=
  match field with Some a => a | None => default end.

(** Truthiness of [d.get(k)] for a string field. *)
Definition field_truthy (field : option string) : bool :=
  match field with Some s => Py.truthy s | None => false end.

Record history_entry : Type := mkEntry {
  he_ingredients : string; he_recipes_found : Z; he_search_time : Z
}.

Inductive body : Type :=
| BError (msg : string)
| BMessage (msg : string)
| BAuth (msg token : string) (id : Z) (name email : string)
| BRecipes (recipes : list json) (total : Z) (ingredients_used : string)
| BIngredientAdded (msg ingredient : string)
| BHistory (history : list history_entry).

Record response : Type := mkResp { status : Z; payload : body }.

(** Flask's handler for an exception no route catches. *)
Definition internal_error : response :=
  mkResp 500 (BError "Internal server error").

Definition entry_of_row (h : history_row) : history_entry :=
  mkEntry (h_ingredients h) (h_recipes_found h) (h_search_time h).

(** Python truthiness of an [int] or [None]. *)
Definition id_truthy (x : option Z) : bool :=
  match x with Some n => negb (n =? 0) | None => false end.

(** The bodies of the read-only routes that the handlers above do not
    cover. *)
Record favorite_view : Type := mkFavoriteView {
  fv_id : Z; fv_name : string; fv_description : option string;
  fv_cook_time : option string; fv_difficulty : option string
}.

Inductive view : Type :=
| VError (msg : string)
| VIngredients (ingredients : list string)
| VFavorites (favorites : list favorite_view)
| VProfile (id : Z) (name email : string) (created_at : Z)
| VStats (total_ingredients total_favorites total_searches : Z)
         (recent_ingredients : list string) (last_search : option history_row).

Record reply : Type := mkReply { reply_status : Z; reply_body : view }.

(** The dict built from one row of the favorites join. *)
Definition favorite_of_row (r : recipe_row) : favorite_view :=
  mkFavoriteView (r_id r) (r_name r) (r_description r) (r_cook_time r)
                 (r_difficulty r).

(** [len(l) if l else 0] for [l] a list or [None]. *)
Definition len_or_zero {A : Type} (l : option (list A)) : Z :=
  match l with
  | Some (x :: l') => Z.of_nat (length (x :: l'))
  | _ => 0
  end.

(* ===================================================================== *)
(** ** config.py *)
(* ===================================================================== *)

Module Config.

(** The two environment variables the handlers depend on; the second one
    after [int(...)]. *)
Record environ : Type := mkEnviron {
  env_SECRET_KEY : option string;
  env_JWT_EXPIRATION_DAYS : option Z
}.

Definition SECRET_KEY (os : environ) : string :=
  match env_SECRET_KEY os with
  | Some s => if Py.truthy s then s else "dev-secret-key-change-in-production"
  | None => "dev-secret-key-change-in-production"
  end.

Definition JWT_EXPIRATION_DAYS (os : environ) : Z :=
  get (env_JWT_EXPIRATION_DAYS os) 7.

End Config.

(* ===================================================================== *)
(** ** models.py *)
(* ===================================================================== *)

Module Models.

Module Database.

(** [execute_query(query, params)]: connect, execute, commit, give
    [cursor.lastrowid]; [None] when the connection or the statement
    fails. *)
Definition execute_query {R : Type} (e : env) (query : statement R)
           (d : database) : option Z * database :=
  if db_up e then
    match query d with
    | Some (cur, d') => (Some (lastrowid cur), d')
    | None => (None, d)
    end
  else (None, d).

(** [execute_query(query, params, fetch='one')] *)
Definition execute_query_one {R : Type} (e : env) (query : statement R)
           (d : database) : option R * database :=
  if db_up e then
    match query d with
    | Some (cur, d') => (fetchone cur, d')
    | None => (None, d)
    end
  else (None, d).

(** [execute_query(query, params, fetch='all')] *)
Definition execute_query_all {R : Type} (e : env) (query : statement R)
           (d : database) : option (list R) * database :=
  if db_up e then
    match query d with
    | Some (cur, d') => (Some (fetchall cur), d')
    | None => (None, d)
    end
  else (None, d).

End Database.

Module User.

Definition create_user (e : env) (name email password_hash : string)
           (d : database) : option Z * database :=
  Database.execute_query e (Sql.insert_user name email password_hash (now e)) d.

Definition get_user_by_email (e : env) (email : string) (d : database)
  : option user_row * database :=
  Database.execute_query_one e (Sql.select_user_by_email email) d.

Definition email_exists (e : env) (email : string) (d : database)
  : bool * database :=
  let '(result, d') :=
    Database.execute_query_one e (Sql.select_user_by_email email) d in
  (match result with Some _ => true | None => false end, d').

Definition get_user_by_id (e : env) (user_id : Z) (d : database)
  : option user_row * database :=
  Database.execute_query_one e (Sql.select_user_by_id user_id) d.

End User.

Module Ingredient.

Definition add_ingredient (e : env) (user_id : Z) (ingredient : string)
           (d : database) : option Z * database :=
  Database.execute_query e
    (Sql.insert_ingredient user_id (Py.lower ingredient) (now e)) d.

Definition remove_ingredient (e : env) (user_id : Z) (ingredient : string)
           (d : database) : option Z * database :=
  Database.execute_query e
    (Sql.delete_ingredient user_id (Py.lower ingredient)) d.

Definition ingredient_exists (e : env) (user_id : Z) (ingredient : string)
           (d : database) : bool * database :=
  let '(result, d') :=
    Database.execute_query_one e
      (Sql.select_ingredient_id user_id (Py.lower ingredient)) d in
  (match result with Some _ => true | None => false end, d').

Definition get_user_ingredients (e : env) (user_id : Z) (d : database)
  : list string * database :=
  let '(results, d') :=
    Database.execute_query_all e (Sql.select_ingredients user_id) d in
  (match results with
   | Some (row :: rest) => row :: rest
   | _ => []
   end, d').

End Ingredient.

Module Recipe.

Definition create_recipe (e : env)
           (name description ingredients instructions cook_time
                 difficulty : json) (d : database) : option Z * database :=
  Database.execute_query e
    (Sql.insert_recipe name description ingredients instructions cook_time
                       difficulty (now e)) d.

Definition get_recipe_by_name (e : env) (name : string) (d : database)
  : option Z * database :=
  Database.execute_query_one e (Sql.select_recipe_id_by_name name) d.

End Recipe.

Module Favorite.

Definition add_favorite (e : env) (user_id recipe_id : Z) (d : database)
  : option Z * database :=
  Database.execute_query e (Sql.insert_favorite user_id recipe_id (now e)) d.

Definition is_favorite (e : env) (user_id recipe_id : Z) (d : database)
  : bool * database :=
  let '(result, d') :=
    Database.execute_query_one e (Sql.select_favorite_id user_id recipe_id) d in
  (match result with Some _ => true | None => false end, d').

Definition get_user_favorites (e : env) (user_id : Z) (d : database)
  : option (list recipe_row) * database :=
  Database.execute_query_all e (Sql.select_favorites user_id) d.

End Favorite.

Module SearchHistory.

Definition add_search (e : env) (user_id : Z) (ingredients : string)
           (recipes_found : Z) (d : database) : option Z * database :=
  Database.execute_query e
    (Sql.insert_history user_id ingredients recipes_found (now e)) d.

Definition get_user_history (e : env) (user_id : Z) (limit : Z)
           (d : database) : option (list history_row) * database :=
  Database.execute_query_all e (Sql.select_history user_id limit) d.

End SearchHistory.

End Models.


(* ===================================================================== *)
(** ** services.py *)
(* ===================================================================== *)

Module RecipeService.

Section WithRuntime.
Variable R : runtime.

Definition required_fields : list string :=
  ["name"; "description"; "ingredients"; "instructions"; "cook_time";
   "difficulty"].

(** [[ing.strip() for ing in ingredients.split(',')[:n]]] *)
Definition first_tokens (n : nat) (ingredients : string) : list json :=
  map (fun ing => JStr (Py.strip ing)) (firstn n (Py.split "," ingredients)).

(** [ingredients.split(',')[0].strip()] *)
Definition first_token (ingredients : string) : string :=
  Py.strip (hd EmptyString (Py.split "," ingredients)).

Definition get_fallback_recipes (ingredients : string) : list json :=
  [ JObj [ ("name", JStr ("Simple " ++ first_token ingredients ++ " Dish"));
           ("description",
            JStr "A quick and easy recipe using your available ingredients");
           ("ingredients", JArr (first_tokens 5 ingredients));
           ("instructions",
            JArr [ JStr "Prepare all ingredients";
                   JStr "Heat oil in a pan";
                   JStr "Cook main ingredients until done";
                   JStr "Season to taste";
                   JStr "Serve hot" ]);
           ("cook_time", JStr "20 min");
           ("difficulty", JStr "Easy") ];
    JObj [ ("name", JStr ("Healthy " ++ first_token ingredients ++ " Bowl"));
           ("description",
            JStr "A nutritious bowl combining fresh ingredients");
           ("ingredients", JArr (first_tokens 4 ingredients));
           ("instructions",
            JArr [ JStr "Prepare vegetables";
                   JStr "Cook protein if needed";
                   JStr "Arrange in a bowl";
                   JStr "Add dressing";
                   JStr "Enjoy fresh" ]);
           ("cook_time", JStr "15 min");
           ("difficulty", JStr "Easy") ];
    JObj [ ("name", JStr ("Classic " ++ first_token ingredients ++ " Recipe"));
           ("description", JStr "A traditional preparation method");
           ("ingredients", JArr (first_tokens 6 ingredients));
           ("instructions",
            JArr [ JStr "Preheat cooking surface";
                   JStr "Season ingredients";
                   JStr "Cook according to preference";
                   JStr "Let rest briefly";
                   JStr "Serve and enjoy" ]);
           ("cook_time", JStr "25 min");
           ("difficulty", JStr "Medium") ] ].

(** The markdown fence clean-up before [json.loads]. *)
Definition strip_fences (recipes_text : string) : string :=
  if Py.startswith "```json" recipes_text then Py.slice 7 3 recipes_text
  else if Py.startswith "```" recipes_text then Py.slice 3 3 recipes_text
  else recipes_text.

(** The validation loop over the parsed list. *)
Fixpoint check_recipes (recipes : list json) : result unit :=
  match recipes with
  | [] => Ok tt
  | recipe :: rest =>
      complete <- PyJson.all_in required_fields recipe ;;
      if complete then check_recipes rest
      else Raise (ValueError "Recipe missing required fields")
  end.

(** The [try] block of [generate_recipes]. *)
Definition generate_recipes_try (outcome : api_outcome) : result (list json) :=
  match outcome with
  | ApiRaises msg => Raise (ApiError msg)
  | ApiReturns content =>
      let recipes_text := strip_fences (Py.strip content) in
      match json_loads R recipes_text with
      | None => Raise JSONDecodeError
      | Some (JArr recipes) =>
          _ <- check_recipes recipes ;;
          Ok recipes
      | Some _ => Raise (ValueError "Response is not a list")
      end
  end.

Definition generate_recipes (e : env) (ingredients : string) : list json :=
  match generate_recipes_try (completion e) with
  | Ok recipes => recipes
  | Raise JSONDecodeError => get_fallback_recipes ingredients
  | Raise _ => get_fallback_recipes ingredients
  end.

End WithRuntime.

End RecipeService.

(* ===================================================================== *)
(** ** app.py *)
(* ===================================================================== *)

Module App.

Section WithRuntime.
Variable R : runtime.

Definition SECRET_KEY : string := "your-secret-key-change-this".

(** The handler [f], already applied to the rest of its arguments and to
    the database, behind the [token_required] decorator. *)
Definition token_required (e : env) (authorization : option string)
           (d : database) (f : Z -> response * database)
  : response * database :=
  match authorization with
  | None => (mkResp 401 (BMessage "Token is missing"), d)
  | Some token =>
      if negb (Py.truthy token) then
        (mkResp 401 (BMessage "Token is missing"), d)
      else
        let token :=
          if Py.startswith "Bearer " token then Py.drop 7 token else token in
        match jwt_decode R token SECRET_KEY [HS256] (now e) with
        | JwtOk data =>
            match p_user_id data with
            | Some current_user_id => f current_user_id
            | None => (mkResp 401 (BMessage "Token is invalid"), d)
            end
        | JwtExpired => (mkResp 401 (BMessage "Token is invalid"), d)
        | JwtInvalid => (mkResp 401 (BMessage "Token is invalid"), d)
        end
  end.

(** [r'^[a-zA-Z0-9._%+-]+@[a-zA-Z0-9.-]+\.[a-zA-Z]{2,}$'] without its
    anchors. *)
Definition email_pattern : Re.regex :=
  let local := fun c => (Re.alpha c || Re.digit c || Re.one_of "._%+-" c)%bool in
  let host := fun c => (Re.alpha c || Re.digit c || Re.one_of ".-" c)%bool in
  Re.Seq (Re.Plus (Re.Class local))
    (Re.Seq (Re.Chr "@")
       (Re.Seq (Re.Plus (Re.Class host))
          (Re.Seq (Re.Chr ".")
             (Re.Seq (Re.Class Re.alpha)
                (Re.Seq (Re.Class Re.alpha) (Re.Star (Re.Class Re.alpha))))))).

Definition issue_token (e : env) (user_id : Z) : string :=
  jwt_encode R
    (mkPayload (Some user_id) (Some (now e + 7 * seconds_per_day)))
    SECRET_KEY HS256.

Definition register (e : env) (data : option register_body) (d : database)
  : response * database :=
  match data with
  | None => (mkResp 400 (BError "Name, email and password are required"), d)
  | Some data =>
      if (negb (field_truthy (rb_name data))
          || negb (field_truthy (rb_email data))
          || negb (field_truthy (rb_password data)))%bool then
        (mkResp 400 (BError "Name, email and password are required"), d)
      else
        let name := get (rb_name data) "" in
        let email := get (rb_email data) "" in
        let password := get (rb_password data) "" in
        if negb (Re.match_anchored email_pattern email) then
          (mkResp 400 (BError "Invalid email format"), d)
        else if (Z.of_nat (String.length password) <? 6) then
          (mkResp 400
             (BError "Password must be at least 6 characters long"), d)
        else if negb (db_up e) then
          (mkResp 500 (BError "Database connection failed"), d)
        else
          match Sql.select_user_by_email email d with
          | None =>
              (mkResp 500 (BError ("Registration failed: " ++ mysql_error)), d)
          | Some (cur, d1) =>
              match fetchone cur with
              | Some _ => (mkResp 409 (BError "Email already registered"), d)
              | None =>
                  let password_hash :=
                    generate_password_hash R password (salt e) in
                  match Sql.insert_user name email password_hash (now e) d1
                  with
                  | None =>
                      (mkResp 500 (BError ("Registration failed: " ++ mysql_error)), d)
                  | Some (cur2, d2) =>
                      let user_id := lastrowid cur2 in
                      let token := issue_token e user_id in
                      (mkResp 201
                         (BAuth "User registered successfully" token user_id
                                name email), d2)
                  end
              end
          end
  end.

Definition login (e : env) (data : option login_body) (d : database)
  : response * database :=
  match data with
  | None => (mkResp 400 (BError "Email and password are required"), d)
  | Some data =>
      if (negb (field_truthy (lb_email data))
          || negb (field_truthy (lb_password data)))%bool then
        (mkResp 400 (BError "Email and password are required"), d)
      else
        let email := get (lb_email data) "" in
        let password := get (lb_password data) "" in
        if negb (db_up e) then
          (mkResp 500 (BError "Database connection failed"), d)
        else
          match Sql.select_user_by_email email d with
          | None =>
              (mkResp 500 (BError ("Login failed: " ++ mysql_error)), d)
          | Some (cur, _) =>
              match fetchone cur with
              | None => (mkResp 401 (BError "Invalid email or password"), d)
              | Some user =>
                  if negb (check_password_hash R (u_password_hash user)
                                               password) then
                    (mkResp 401 (BError "Invalid email or password"), d)
                  else
                    let token := issue_token e (u_id user) in
                    (mkResp 200
                       (BAuth "Login successful" token (u_id user)
                              (u_name user) (u_email user)), d)
              end
          end
  end.

Definition sample_recipes : list json :=
  [ JObj [ ("id", JInt 1);
           ("name", JStr "Chicken Tomato Curry");
           ("description",
            JStr "A delicious and simple curry with tender chicken and fresh tomatoes");
           ("ingredients",
            JArr [ JStr "chicken"; JStr "tomatoes"; JStr "onions";
                   JStr "garlic"; JStr "spices" ]);
           ("instructions",
            JArr [ JStr "Heat oil in pan"; JStr "Add onions and garlic";
                   JStr "Add chicken and cook";
                   JStr "Add tomatoes and spices";
                   JStr "Simmer for 20 minutes" ]);
           ("cook_time", JStr "30 min");
           ("difficulty", JStr "Easy") ];
    JObj [ ("id", JInt 2);
           ("name", JStr "Tomato Chicken Stir Fry");
           ("description",
            JStr "Quick and healthy stir fry with fresh vegetables");
           ("ingredients",
            JArr [ JStr "chicken"; JStr "tomatoes"; JStr "bell peppers";
                   JStr "soy sauce" ]);
           ("instructions",
            JArr [ JStr "Cut chicken into strips"; JStr "Heat wok";
                   JStr "Stir fry chicken"; JStr "Add vegetables";
                   JStr "Season and serve" ]);
           ("cook_time", JStr "20 min");
           ("difficulty", JStr "Easy") ];
    JObj [ ("id", JInt 3);
           ("name", JStr "Mediterranean Chicken Bowl");
           ("description",
            JStr "Fresh bowl with grilled chicken and Mediterranean flavors");
           ("ingredients",
            JArr [ JStr "chicken"; JStr "tomatoes"; JStr "cucumber";
                   JStr "olive oil"; JStr "herbs" ]);
           ("instructions",
            JArr [ JStr "Grill chicken"; JStr "Chop vegetables";
                   JStr "Mix dressing"; JStr "Assemble bowl";
                   JStr "Serve fresh" ]);
           ("cook_time", JStr "25 min");
           ("difficulty", JStr "Medium") ] ].

(** The completion call is made and its text read, but the text is never
    used: the handler answers with [sample_recipes]. *)
Definition search_recipes (e : env) (current_user_id : Z)
           (data : option search_body) (d : database)
  : response * database :=
  match data with
  | None => (internal_error, d)
  | Some data =>
      let ingredients := get (sb_ingredients data) "" in
      if negb (Py.truthy ingredients) then
        (mkResp 400 (BError "Ingredients are required"), d)
      else
        match completion e with
        | ApiRaises msg =>
            (mkResp 500 (BError ("Recipe search failed: " ++ msg)), d)
        | ApiReturns recipes_text =>
            if negb (db_up e) then
              (mkResp 500
                 (BError ("Recipe search failed: "
                            ++ str_of_exn AttributeError)), d)
            else
              match Sql.insert_history current_user_id ingredients 3 (now e) d
              with
              | None =>
                  (mkResp 500
                     (BError ("Recipe search failed: " ++ mysql_error)), d)
              | Some (_, d1) =>
                  (mkResp 200
                     (BRecipes sample_recipes
                               (Z.of_nat (length sample_recipes))
                               ingredients), d1)
              end
        end
  end.

Definition add_ingredient (e : env) (current_user_id : Z)
           (data : option ingredient_body) (d : database)
  : response * database :=
  match data with
  | None => (internal_error, d)
  | Some data =>
      let ingredient := Py.lower (Py.strip (get (ib_ingredient data) "")) in
      if negb (Py.truthy ingredient) then
        (mkResp 400 (BError "Ingredient name is required"), d)
      else if negb (db_up e) then
        (mkResp 500 (BError "Database connection failed"), d)
      else
        match Sql.select_ingredient_id current_user_id ingredient d with
        | None =>
            (mkResp 500 (BError ("Failed to add ingredient: " ++ mysql_error)), d)
        | Some (cur, d1) =>
            match fetchone cur with
            | Some _ => (mkResp 409 (BError "Ingredient already added"), d)
            | None =>
                match Sql.insert_ingredient current_user_id ingredient
                                            (now e) d1 with
                | None =>
                    (mkResp 500 (BError ("Failed to add ingredient: " ++ mysql_error)), d)
                | Some (_, d2) =>
                    (mkResp 201
                       (BIngredientAdded "Ingredient added successfully"
                                         ingredient), d2)
                end
            end
        end
  end.

Definition remove_ingredient (e : env) (current_user_id : Z)
           (ingredient : string) (d : database) : response * database :=
  if negb (db_up e) then
    (mkResp 500 (BError "Database connection failed"), d)
  else
    match Sql.delete_ingredient current_user_id (Py.lower ingredient) d with
    | None =>
        (mkResp 500 (BError ("Failed to remove ingredient: " ++ mysql_error)), d)
    | Some (cur, d1) =>
        if rowcount cur =? 0 then
          (mkResp 404 (BError "Ingredient not found"), d1)
        else (mkResp 200 (BMessage "Ingredient removed successfully"), d1)
    end.

Definition add_favorite (e : env) (current_user_id : Z)
           (data : option favorite_body) (d : database)
  : response * database :=
  match data with
  | None => (internal_error, d)
  | Some data =>
      let recipe_data :=
        get (fb_recipe data) (mkRecipeData None None None None None None) in
      if negb (recipe_data_truthy recipe_data) then
        (mkResp 400 (BError "Recipe data is required"), d)
      else if negb (db_up e) then
        (mkResp 500 (BError "Database connection failed"), d)
      else
        match rd_name recipe_data with
        | None => (internal_error, d)
        | Some name =>
            match Sql.select_recipe_id_by_name name d with
            | None =>
                (mkResp 500 (BError ("Failed to add favorite: " ++ mysql_error)), d)
            | Some (cur, d1) =>
                let inserted :=
                  match fetchone cur with
                  | Some recipe_id => Some (recipe_id, d1)
                  | None =>
                      match
                        Sql.insert_recipe
                          (JStr name)
                          (JStr (get (rd_description recipe_data) ""))
                          (JStr (Py.join ", "
                                   (get (rd_ingredients recipe_data) [])))
                          (JStr (Py.join (String "010" EmptyString)
                                   (get (rd_instructions recipe_data) [])))
                          (JStr (get (rd_cook_time recipe_data) ""))
                          (JStr (get (rd_difficulty recipe_data) "Medium"))
                          (now e) d1
                      with
                      | Some (cur2, d2) => Some (lastrowid cur2, d2)
                      | None => None
                      end
                  end in
                match inserted with
                | None =>
                    (mkResp 500 (BError ("Failed to add favorite: " ++ mysql_error)), d)
                | Some (recipe_id, d2) =>
                    match Sql.select_favorite_id current_user_id recipe_id d2
                    with
                    | None =>
                        (mkResp 500
                           (BError ("Failed to add favorite: " ++ mysql_error)), d)
                    | Some (cur3, d3) =>
                        match fetchone cur3 with
                        | Some _ =>
                            (mkResp 409
                               (BError "Recipe already in favorites"), d)
                        | None =>
                            match Sql.insert_favorite current_user_id
                                                      recipe_id (now e) d3
                            with
                            | None =>
                                (mkResp 500
                             (BError ("Failed to add favorite: " ++ mysql_error)), d)
                            | Some (_, d4) =>
                                (mkResp 201
                                   (BMessage "Recipe added to favorites"), d4)
                            end
                        end
                    end
                end
            end
        end
  end.

Definition get_search_history (e : env) (current_user_id : Z) (d : database)
  : response * database :=
  if negb (db_up e) then
    (mkResp 500 (BError "Database connection failed"), d)
  else
    match Sql.select_history current_user_id 20 d with
    | None =>
        (mkResp 500 (BError ("Failed to fetch history: " ++ mysql_error)), d)
    | Some (cur, _) =>
        (mkResp 200 (BHistory (map entry_of_row (fetchall cur))), d)
    end.

Definition get_user_ingredients (e : env) (current_user_id : Z)
           (d : database) : reply * database :=
  if negb (db_up e) then
    (mkReply 500 (VError "Database connection failed"), d)
  else
    match Sql.select_ingredients current_user_id d with
    | None =>
        (mkReply 500 (VError ("Failed to fetch ingredients: " ++ mysql_error)),
         d)
    | Some (cur, _) => (mkReply 200 (VIngredients (fetchall cur)), d)
    end.

Definition get_favorites (e : env) (current_user_id : Z) (d : database)
  : reply * database :=
  if negb (db_up e) then
    (mkReply 500 (VError "Database connection failed"), d)
  else
    match Sql.select_favorites current_user_id d with
    | None =>
        (mkReply 500 (VError ("Failed to fetch favorites: " ++ mysql_error)),
         d)
    | Some (cur, _) =>
        (mkReply 200 (VFavorites (map favorite_of_row (fetchall cur))), d)
    end.

Definition get_profile (e : env) (current_user_id : Z) (d : database)
  : reply * database :=
  if negb (db_up e) then
    (mkReply 500 (VError "Database connection failed"), d)
  else
    match Sql.select_user_by_id current_user_id d with
    | None =>
        (mkReply 500 (VError ("Failed to fetch profile: " ++ mysql_error)), d)
    | Some (cur, _) =>
        match fetchone cur with
        | None => (mkReply 404 (VError "User not found"), d)
        | Some user =>
            (mkReply 200
               (VProfile (u_id user) (u_name user) (u_email user)
                         (u_created_at user)), d)
        end
    end.

End WithRuntime.

End App.

(* ===================================================================== *)
(** ** app_improved.py *)
(* ===================================================================== *)

Module AppImproved.

Section WithRuntime.
Variable R : runtime.
Variable os : Config.environ.

(** [except Exception as e: return jsonify({'error': f'...{str(e)}'}), 500]
    around a handler body; what the body did to the database before it
    raised stays done, as every model call commits on its own. *)
Definition except_exception (prefix : string)
           (outcome : result response * database) : response * database :=
  match outcome with
  | (Ok resp, d) => (resp, d)
  | (Raise ex, d) => (mkResp 500 (BError (prefix ++ str_of_exn ex)), d)
  end.

Definition token_required (e : env) (authorization : option string)
           (d : database) (f : Z -> response * database)
  : response * database :=
  match authorization with
  | None => (mkResp 401 (BError "Authentication token is missing"), d)
  | Some token =>
      if negb (Py.truthy token) then
        (mkResp 401 (BError "Authentication token is missing"), d)
      else
        let token :=
          if Py.startswith "Bearer " token then Py.drop 7 token else token in
        match jwt_decode R token (Config.SECRET_KEY os) [HS256] (now e) with
        | JwtOk data =>
            match p_user_id data with
            | Some current_user_id => f current_user_id
            | None => (internal_error, d)
            end
        | JwtExpired => (mkResp 401 (BError "Token has expired"), d)
        | JwtInvalid => (mkResp 401 (BError "Token is invalid"), d)
        end
  end.

(** The module calls [validate_email] but neither defines nor imports the
    name, so evaluating the call raises [NameError]. *)
Definition validate_email (email : string) : result bool :=
  Raise (NameError "validate_email").

Definition validate_password (password : string) : bool :=
  6 <=? Z.of_nat (String.length password).

Definition issue_token (e : env) (user_id : Z) : string :=
  jwt_encode R
    (mkPayload (Some user_id)
       (Some (now e + Config.JWT_EXPIRATION_DAYS os * seconds_per_day)))
    (Config.SECRET_KEY os) HS256.

Definition register_try (e : env) (data : option register_body)
           (d : database) : result response * database :=
  match data with
  | None =>
      (Ok (mkResp 400 (BError "Name, email and password are required")), d)
  | Some data =>
      match rb_name data, rb_email data, rb_password data with
      | Some name, Some email, Some password =>
          match validate_email email with
          | Raise ex => (Raise ex, d)
          | Ok valid =>
              if negb valid then
                (Ok (mkResp 400 (BError "Invalid email format")), d)
              else if negb (validate_password password) then
                (Ok (mkResp 400
                       (BError "Password must be at least 6 characters long")),
                 d)
              else
                let '(taken, d1) := Models.User.email_exists e email d in
                if taken then
                  (Ok (mkResp 409 (BError "Email already registered")), d1)
                else
                  let password_hash :=
                    generate_password_hash R password (salt e) in
                  let '(user_id, d2) :=
                    Models.User.create_user e name email password_hash d1 in
                  if negb (id_truthy user_id) then
                    (Ok (mkResp 500 (BError "Failed to create user")), d2)
                  else
                    let user_id := get user_id 0 in
                    let token := issue_token e user_id in
                    (Ok (mkResp 201
                           (BAuth "User registered successfully" token
                                  user_id name email)), d2)
          end
      | _, _, _ =>
          (Ok (mkResp 400 (BError "Name, email and password are required")),
           d)
      end
  end.

Definition register (e : env) (data : option register_body) (d : database)
  : response * database :=
  except_exception "Registration failed: " (register_try e data d).

Definition login_try (e : env) (data : option login_body) (d : database)
  : result response * database :=
  match data with
  | None => (Ok (mkResp 400 (BError "Email and password are required")), d)
  | Some data =>
      match lb_email data, lb_password data with
      | Some email, Some password =>
          let '(user, d1) := Models.User.get_user_by_email e email d in
          match user with
          | None => (Ok (mkResp 401 (BError "Invalid email or password")), d1)
          | Some user =>
              if negb (check_password_hash R (u_password_hash user) password)
              then (Ok (mkResp 401 (BError "Invalid email or password")), d1)
              else
                let token := issue_token e (u_id user) in
                (Ok (mkResp 200
                       (BAuth "Login successful" token (u_id user)
                              (u_name user) (u_email user))), d1)
          end
      | _, _ =>
          (Ok (mkResp 400 (BError "Email and password are required")), d)
      end
  end.

Definition login (e : env) (data : option login_body) (d : database)
  : response * database :=
  except_exception "Login failed: " (login_try e data d).

(** The arguments of one [recipe_model.create_recipe(...)] call of the
    search loop, evaluated left to right. *)
Definition recipe_arguments (recipe_data : json)
  : result (json * json * json * json * json * json) :=
  name <- PyJson.getitem recipe_data "name" ;;
  description <- PyJson.getitem recipe_data "description" ;;
  ingredients <- PyJson.getitem recipe_data "ingredients" ;;
  ingredients <- PyJson.join ", " ingredients ;;
  instructions <- PyJson.getitem recipe_data "instructions" ;;
  instructions <- PyJson.join (String "010" EmptyString) instructions ;;
  cook_time <- PyJson.getitem recipe_data "cook_time" ;;
  difficulty <- PyJson.getitem recipe_data "difficulty" ;;
  Ok (name, description, JStr ingredients, JStr instructions, cook_time,
      difficulty).

(** [for recipe_data in recipes: recipe_model.create_recipe(...)] *)
Fixpoint store_recipes (e : env) (recipes : list json) (d : database)
  : result unit * database :=
  match recipes with
  | [] => (Ok tt, d)
  | recipe_data :: rest =>
      match recipe_arguments recipe_data with
      | Raise ex => (Raise ex, d)
      | Ok (name, description, ingredients, instructions, cook_time,
            difficulty) =>
          let '(_, d1) :=
            Models.Recipe.create_recipe e name description ingredients
                                        instructions cook_time difficulty d in
          store_recipes e rest d1
      end
  end.

Definition search_recipes_try (e : env) (current_user_id : Z)
           (data : option search_body) (d : database)
  : result response * database :=
  match data with
  | None => (Raise AttributeError, d)
  | Some data =>
      let ingredients := Py.strip (get (sb_ingredients data) "") in
      if negb (Py.truthy ingredients) then
        (Ok (mkResp 400 (BError "Ingredients are required")), d)
      else
        let recipes := RecipeService.generate_recipes R e ingredients in
        let '(_, d1) :=
          Models.SearchHistory.add_search e current_user_id ingredients
            (Z.of_nat (length recipes)) d in
        match store_recipes e recipes d1 with
        | (Raise ex, d2) => (Raise ex, d2)
        | (Ok _, d2) =>
            (Ok (mkResp 200
                   (BRecipes recipes (Z.of_nat (length recipes)) ingredients)),
             d2)
        end
  end.

Definition search_recipes (e : env) (current_user_id : Z)
           (data : option search_body) (d : database)
  : response * database :=
  except_exception "Recipe search failed: "
                   (search_recipes_try e current_user_id data d).

Definition add_ingredient_try (e : env) (current_user_id : Z)
           (data : option ingredient_body) (d : database)
  : result response * database :=
  match data with
  | None => (Raise AttributeError, d)
  | Some data =>
      let ingredient := Py.strip (get (ib_ingredient data) "") in
      if negb (Py.truthy ingredient) then
        (Ok (mkResp 400 (BError "Ingredient name is required")), d)
      else
        let '(present, d1) :=
          Models.Ingredient.ingredient_exists e current_user_id ingredient d in
        if present then
          (Ok (mkResp 409 (BError "Ingredient already added")), d1)
        else
          let '(added, d2) :=
            Models.Ingredient.add_ingredient e current_user_id ingredient d1 in
          if id_truthy added then
            (Ok (mkResp 201
                   (BIngredientAdded "Ingredient added successfully"
                                     (Py.lower ingredient))), d2)
          else (Ok (mkResp 500 (BError "Failed to add ingredient")), d2)
  end.

Definition add_ingredient (e : env) (current_user_id : Z)
           (data : option ingredient_body) (d : database)
  : response * database :=
  except_exception "Failed to add ingredient: "
                   (add_ingredient_try e current_user_id data d).

Definition remove_ingredient_try (e : env) (current_user_id : Z)
           (ingredient : string) (d : database)
  : result response * database :=
  let '(removed, d1) :=
    Models.Ingredient.remove_ingredient e current_user_id ingredient d in
  if id_truthy removed then
    (Ok (mkResp 200 (BMessage "Ingredient removed successfully")), d1)
  else (Ok (mkResp 404 (BError "Ingredient not found")), d1).

Definition remove_ingredient (e : env) (current_user_id : Z)
           (ingredient : string) (d : database) : response * database :=
  except_exception "Failed to remove ingredient: "
                   (remove_ingredient_try e current_user_id ingredient d).

Definition add_favorite_recipe_try (e : env) (current_user_id : Z)
           (data : option favorite_body) (d : database)
  : result response * database :=
  match data with
  | None => (Raise AttributeError, d)
  | Some data =>
      let recipe_data :=
        get (fb_recipe data) (mkRecipeData None None None None None None) in
      if (negb (recipe_data_truthy recipe_data)
          || negb (field_truthy (rd_name recipe_data)))%bool then
        (Ok (mkResp 400 (BError "Recipe data is required")), d)
      else
        let name := get (rd_name recipe_data) "" in
        let '(existing_recipe, d1) :=
          Models.Recipe.get_recipe_by_name e name d in
        let '(recipe_id, d2) :=
          match existing_recipe with
          | Some recipe_id => (Some recipe_id, d1)
          | None =>
              Models.Recipe.create_recipe e
                (JStr name)
                (JStr (get (rd_description recipe_data) ""))
                (JStr (Py.join ", " (get (rd_ingredients recipe_data) [])))
                (JStr (Py.join (String "010" EmptyString)
                         (get (rd_instructions recipe_data) [])))
                (JStr (get (rd_cook_time recipe_data) ""))
                (JStr (get (rd_difficulty recipe_data) "Medium"))
                d1
          end in
        if negb (id_truthy recipe_id) then
          (Ok (mkResp 500 (BError "Failed to create recipe")), d2)
        else
          let recipe_id := get recipe_id 0 in
          let '(favorited, d3) :=
            Models.Favorite.is_favorite e current_user_id recipe_id d2 in
          if favorited then
            (Ok (mkResp 409 (BError "Recipe already in favorites")), d3)
          else
            let '(added, d4) :=
              Models.Favorite.add_favorite e current_user_id recipe_id d3 in
            if id_truthy added then
              (Ok (mkResp 201 (BMessage "Recipe added to favorites")), d4)
            else (Ok (mkResp 500 (BError "Failed to add to favorites")), d4)
  end.

Definition add_favorite_recipe (e : env) (current_user_id : Z)
           (data : option favorite_body) (d : database)
  : response * database :=
  except_exception "Failed to add favorite: "
                   (add_favorite_recipe_try e current_user_id data d).

Definition get_history (e : env) (current_user_id : Z) (d : database)
  : response * database :=
  let '(history_data, d1) :=
    Models.SearchHistory.get_user_history e current_user_id 20 d in
  let history :=
    match history_data with
    | Some rows => map entry_of_row rows
    | None => []
    end in
  (mkResp 200 (BHistory history), d1).

(** The bodies of the four handlers below raise nothing, so their
    [except Exception] branches are not taken. *)
Definition get_ingredients (e : env) (current_user_id : Z) (d : database)
  : reply * database :=
  let '(ingredients, d1) :=
    Models.Ingredient.get_user_ingredients e current_user_id d in
  (mkReply 200 (VIngredients ingredients), d1).

Definition get_favorites (e : env) (current_user_id : Z) (d : database)
  : reply * database :=
  let '(favorites_data, d1) :=
    Models.Favorite.get_user_favorites e current_user_id d in
  let favorites :=
    match favorites_data with
    | Some rows => map favorite_of_row rows
    | None => []
    end in
  (mkReply 200 (VFavorites favorites), d1).

Definition get_profile (e : env) (current_user_id : Z) (d : database)
  : reply * database :=
  let '(user_data, d1) := Models.User.get_user_by_id e current_user_id d in
  match user_data with
  | None => (mkReply 404 (VError "User not found"), d1)
  | Some user =>
      (mkReply 200
         (VProfile (u_id user) (u_name user) (u_email user)
                   (u_created_at user)), d1)
  end.

Definition get_user_stats (e : env) (current_user_id : Z) (d : database)
  : reply * database :=
  let '(ingredients, d1) :=
    Models.Ingredient.get_user_ingredients e current_user_id d in
  let '(favorites, d2) :=
    Models.Favorite.get_user_favorites e current_user_id d1 in
  let '(history, d3) :=
    Models.SearchHistory.get_user_history e current_user_id 5 d2 in
  (mkReply 200
     (VStats (Z.of_nat (length ingredients))
             (len_or_zero favorites)
             (len_or_zero history)
             (firstn 5 ingredients)
             (match history with
              | Some (row :: _) => Some row
              | _ => None
              end)), d3).

End WithRuntime.

End AppImproved.

(* ===================================================================== *)
(** ** Runs of the service *)
(* ===================================================================== *)

(** One handler call, past authentication where the route is protected. *)
Inductive call : Type :=
| AppRegister (data : option register_body)
| AppLogin (data : option login_body)
| AppSearch (uid : Z) (data : option search_body)
| AppAddIngredient (uid : Z) (data : option ingredient_body)
| AppRemoveIngredient (uid : Z) (ingredient : string)
| AppAddFavorite (uid : Z) (data : option favorite_body)
| AppHistory (uid : Z)
| ImprovedRegister (data : option register_body)
| ImprovedLogin (data : option login_body)
| ImprovedSearch (uid : Z) (data : option search_body)
| ImprovedAddIngredient (uid : Z) (data : option ingredient_body)
| ImprovedRemoveIngredient (uid : Z) (ingredient : string)
| ImprovedAddFavorite (uid : Z) (data : option favorite_body)
| ImprovedHistory (uid : Z).

Section Runs.
Variable R : runtime.
Variable os : Config.environ.

Definition handle (e : env) (c : call) (d : database) : response * database :=
  match c with
  | AppRegister data => App.register R e data d
  | AppLogin data => App.login R e data d
  | AppSearch uid data => App.search_recipes e uid data d
  | AppAddIngredient uid data => App.add_ingredient e uid data d
  | AppRemoveIngredient uid ingredient =>
      App.remove_ingredient e uid ingredient d
  | AppAddFavorite uid data => App.add_favorite e uid data d
  | AppHistory uid => App.get_search_history e uid d
  | ImprovedRegister data => AppImproved.register R os e data d
  | ImprovedLogin data => AppImproved.login R os e data d
  | ImprovedSearch uid data => AppImproved.search_recipes R e uid data d
  | ImprovedAddIngredient uid data => AppImproved.add_ingredient e uid data d
  | ImprovedRemoveIngredient uid ingredient =>
      AppImproved.remove_ingredient e uid ingredient d
  | ImprovedAddFavorite uid data =>
      AppImproved.add_favorite_recipe e uid data d
  | ImprovedHistory uid => AppImproved.get_history e uid d
  end.

(** The database after a sequence of calls. *)
Fixpoint run (trace : list (env * call)) (d : database) : database :=
  match trace with
  | [] => d
  | (e, c) :: rest => run rest (snd (handle e c d))
  end.

(** The states the two applications can bring a fresh schema to. *)
Definition reachable (d : database) : Prop :=
  exists trace, run trace empty_db = d.

End Runs.

(* ===================================================================== *)
(** ** Views of the database used to state the properties *)
(* ===================================================================== *)

(** The names in a user's pantry: the column read by
    [SELECT ingredient FROM user_ingredients WHERE user_id = %s]. *)
Definition pantry (uid : Z) (d : database) : list string :=
  map i_ingredient (filter (fun i => i_user_id i =? uid) (user_ingredients d)).

(** The names of a user's favorite recipes: the [r.name] column of
    [recipes r JOIN user_favorites uf ON r.id = uf.recipe_id
     WHERE uf.user_id = %s]. *)
Definition favorite_names (uid : Z) (d : database) : list string :=
  flat_map
    (fun f =>
       map r_name (filter (fun r => r_id r =? f_recipe_id f) (recipes d)))
    (filter (fun f => f_user_id f =? uid) (user_favorites d)).

(** A user's rows of the search history, in insertion order. *)
Definition history_of_user (uid : Z) (d : database) : list history_row :=
  filter (fun h => h_user_id h =? uid) (search_history d).

(** The entries a history response carries (none for an error body). *)
Definition entries (resp : response) : list history_entry :=
  match payload resp with
  | BHistory l => l
  | _ => []
  end.

(** "Most recent first", on rows. *)
Definition newer_row (a b : history_row) : Prop :=
  h_search_time b <= h_search_time a.

(** "Most recent first". *)
Definition newer_or_same (a b : history_entry) : Prop :=
  he_search_time b <= he_search_time a.

(** A recipe dict that carries the six required fields. *)
Definition has_required_fields (recipe : json) : Prop :=
  match recipe with
  | JObj fields =>
      forall k, In k RecipeService.required_fields ->
                PyJson.assoc k fields <> None
  | _ => False
  end.

(** The completion call failed, or its text does not parse, or parses to
    something that is not a list, or to a list with an element that does
    not pass the required-field test. *)
Definition api_failed_or_invalid (R : runtime) (outcome : api_outcome) : Prop :=
  match outcome with
  | ApiRaises _ => True
  | ApiReturns content =>
      match json_loads R (RecipeService.strip_fences (Py.strip content)) with
      | None => True
      | Some (JArr recipes) =>
          exists recipe,
            In recipe recipes /\
            PyJson.all_in RecipeService.required_fields recipe <> Ok true
      | Some _ => True
      end
  end.

(** The database with one more recipe row, one more favorite row. *)
Definition with_recipe (d : database) (row : recipe_row) : database :=
  mkDb (users d) (user_ingredients d) (recipes d ++ [row])
       (user_favorites d) (search_history d)
       (next_user_id d) (next_ingredient_id d) (next_recipe_id d + 1)
       (next_favorite_id d) (next_history_id d).

Definition with_favorite (d : database) (row : favorite_row) : database :=
  mkDb (users d) (user_ingredients d) (recipes d)
       (user_favorites d ++ [row]) (search_history d)
       (next_user_id d) (next_ingredient_id d) (next_recipe_id d)
       (next_favorite_id d + 1) (next_history_id d).

(** The first recipe row of a given name: the one [SELECT id FROM recipes
    WHERE name = %s] followed by [fetchone()] picks. *)
Definition first_named (name : string) (d : database) : option recipe_row :=
  hd_error (filter (fun r => String.eqb (r_name r) name) (recipes d)).

(** The invariant of reachable states. *)
Record db_wf (d : database) : Prop := mkWf {
  wf_emails : NoDup (map u_email (users d));
  wf_recipe_ids :
    Forall (fun r => 1 <= r_id r < next_recipe_id d) (recipes d);
  wf_recipe_nodup : NoDup (map r_id (recipes d));
  wf_favorites :
    Forall (fun f =>
              exists r,
                first_named (r_name r) d = Some r /\ r_id r = f_recipe_id f)
           (user_favorites d);
  wf_lowercase :
    Forall (fun i => Py.lower (i_ingredient i) = i_ingredient i)
           (user_ingredients d);
  wf_counters :
    1 <= next_user_id d /\ 1 <= next_ingredient_id d /\
    1 <= next_recipe_id d /\ 1 <= next_favorite_id d /\
    1 <= next_history_id d
}.

(** One state follows another: the invariant carries over and no user row
    is lost or changed. *)
Definition evolves (d d' : database) : Prop :=
  (db_wf d -> db_wf d') /\ exists more, users d' = (users d ++ more)%list.

(* ===================================================================== *)
(** ** What the email pattern accepts, stated without the matcher *)
(* ===================================================================== *)

(** The language of a regular expression. *)
Inductive matches : Re.regex -> string -> Prop :=
| MEps : matches Re.Eps ""
| MClass (p : ascii -> bool) (c : ascii) :
    p c = true -> matches (Re.Class p) (String c "")
| MSeq (r1 r2 : Re.regex) (s1 s2 : string) :
    matches r1 s1 -> matches r2 s2 -> matches (Re.Seq r1 r2) (s1 ++ s2)
| MAltL (r1 r2 : Re.regex) (s : string) :
    matches r1 s -> matches (Re.Alt r1 r2) s
| MAltR (r1 r2 : Re.regex) (s : string) :
    matches r2 s -> matches (Re.Alt r1 r2) s
| MStarNil (r : Re.regex) : matches (Re.Star r) ""
| MStarCons (r : Re.regex) (s1 s2 : string) :
    matches r s1 -> matches (Re.Star r) s2 -> matches (Re.Star r) (s1 ++ s2).

(** Every character of [s] satisfies [p]. *)
Fixpoint all_chars (p : ascii -> bool) (s : string) : bool :=
  match s with
  | EmptyString => true
  | String c s' => p c && all_chars p s'
  end.

(** [[a-zA-Z0-9._%+-]] and [[a-zA-Z0-9.-]]. *)
Definition local_char (c : ascii) : bool :=
  (Re.alpha c || Re.digit c || Re.one_of "._%+-" c)%bool.
Definition host_char (c : ascii) : bool :=
  (Re.alpha c || Re.digit c || Re.one_of ".-" c)%bool.

(** local part, [@], host, [.], at least two letters, and possibly one
    final newline. *)
Definition email_shape (s : string) : Prop :=
  exists local host tld nl,
    s = local ++ "@" ++ host ++ "." ++ tld ++ nl
    /\ local <> "" /\ all_chars local_char local = true
    /\ host <> "" /\ all_chars host_char host = true
    /\ (2 <= String.length tld)%nat /\ all_chars Re.alpha tld = true
    /\ (nl = "" \/ nl = String "010" "").

(** What holds of the [users] table in every reachable state: ids are
    positive, below the counter and pairwise distinct; every row was
    written by [register] of [app.py], so its email has the accepted shape,
    its name is not empty, and its password column is the hash of a
    password of at least six characters. *)
Definition users_ok (R : runtime) (d : database) : Prop :=
  1 <= next_user_id d
  /\ Forall (fun u => 1 <= u_id u < next_user_id d) (users d)
  /\ NoDup (map u_id (users d))
  /\ Forall (fun u =>
               email_shape (u_email u) /\ u_name u <> ""
               /\ exists password salt,
                   (6 <= String.length password)%nat
                   /\ u_password_hash u
                      = generate_password_hash R password salt)
            (users d).

(** The ingredient names a listing reply carries, and the favorites. *)
Definition listed_ingredients (r : reply) : list string :=
  match reply_body r with
  | VIngredients l => l
  | _ => []
  end.

Definition listed_favorites (r : reply) : list favorite_view :=
  match reply_body r with
  | VFavorites l => l
  | _ => []
  end.

(** A user's rows of two tables, in insertion order. *)
Definition ingredients_of_user (uid : Z) (d : database) : list ingredient_row :=
  filter (fun i => i_user_id i =? uid) (user_ingredients d).

Definition favorites_of_user (uid : Z) (d : database) : list favorite_row :=
  filter (fun f => f_user_id f =? uid) (user_favorites d).

(** [l] without the entries equal to [n]. *)
Definition without (n : string) (l : list string) : list string :=
  filter (fun x => negb (String.eqb x n)) l.

(** The database with one more ingredient row. *)
Definition with_ingredient (d : database) (row : ingredient_row) : database :=
  mkDb (users d) (user_ingredients d ++ [row]) (recipes d)
       (user_favorites d) (search_history d)
       (next_user_id d) (next_ingredient_id d + 1) (next_recipe_id d)
       (next_favorite_id d) (next_history_id d).

(** What holds of the [user_ingredients] table in every reachable state:
    no user has the same name twice, and every stored name is non-empty,
    lowercase and free of surrounding whitespace. *)
Definition ingredients_ok (d : database) : Prop :=
  (forall uid, NoDup (pantry uid d))
  /\ Forall (fun i =>
               i_ingredient i <> ""
               /\ Py.lower (i_ingredient i) = i_ingredient i
               /\ Py.strip (i_ingredient i) = i_ingredient i)
            (user_ingredients d).



(** A recipe passes the validation loop of [generate_recipes]. *)
Definition validated (recipe : json) : Prop :=
  PyJson.all_in RecipeService.required_fields recipe = Ok true.

(** The arguments of [create_recipe] can be built from a recipe: the six
    keys are there and the two lists iterate over strings. *)
Definition storable (recipe : json) : bool :=
  match AppImproved.recipe_arguments recipe with
  | Ok _ => true
  | Raise _ => false
  end.




(* ===================================================================== *)
(** ** A reference runtime

    A small executable instance of [runtime], used to run the handlers on
    concrete requests.  Its token format is a self-delimiting encoding of
    the two claims followed by an algorithm tag and the key. *)
(* ===================================================================== *)

Module Reference.

Fixpoint enc_pos (p : positive) : string :=
  match p with
  | xH => "."
  | xO q => String "0" (enc_pos q)
  | xI q => String "1" (enc_pos q)
  end.

Fixpoint dec_pos (s : string) : option (positive * string) :=
  match s with
  | EmptyString => None
  | String c s' =>
      if Ascii.eqb c "." then Some (xH, s')
      else if Ascii.eqb c "0" then
        match dec_pos s' with
        | Some (q, rest) => Some (xO q, rest)
        | None => None
        end
      else if Ascii.eqb c "1" then
        match dec_pos s' with
        | Some (q, rest) => Some (xI q, rest)
        | None => None
        end
      else None
  end.

Definition enc_Z (z : Z) : string :=
  match z with
  | Z0 => "z"
  | Zpos p => String "p" (enc_pos p)
  | Zneg p => String "m" (enc_pos p)
  end.

Definition dec_Z (s : string) : option (Z * string) :=
  match s with
  | EmptyString => None
  | String c s' =>
      if Ascii.eqb c "z" then Some (0, s')
      else if Ascii.eqb c "p" then
        match dec_pos s' with
        | Some (p, rest) => Some (Zpos p, rest)
        | None => None
        end
      else if Ascii.eqb c "m" then
        match dec_pos s' with
        | Some (p, rest) => Some (Zneg p, rest)
        | None => None
        end
      else None
  end.

Definition enc_claim (o : option Z) : string :=
  match o with
  | None => "n"
  | Some z => String "s" (enc_Z z)
  end.

Definition dec_claim (s : string) : option (option Z * string) :=
  match s with
  | EmptyString => None
  | String c s' =>
      if Ascii.eqb c "n" then Some (None, s')
      else if Ascii.eqb c "s" then
        match dec_Z s' with
        | Some (z, rest) => Some (Some z, rest)
        | None => None
        end
      else None
  end.

Definition alg_tag (a : algorithm) : ascii :=
  match a with
  | HS256 => "a"%char
  | HS384 => "b"%char
  | HS512 => "c"%char
  end.

Definition alg_eqb (a b : algorithm) : bool :=
  Ascii.eqb (alg_tag a) (alg_tag b).

Definition encode (p : jwt_payload) (key : string) (a : algorithm) : string :=
  enc_claim (p_user_id p) ++ enc_claim (p_exp p) ++ String (alg_tag a) key.

Definition decode (token key : string) (algs : list algorithm) (t : Z)
  : jwt_result :=
  match dec_claim token with
  | None => JwtInvalid
  | Some (uid, rest) =>
      match dec_claim rest with
      | None => JwtInvalid
      | Some (exp, rest') =>
          match rest' with
          | EmptyString => JwtInvalid
          | String tag signature =>
              if (existsb (fun a => Ascii.eqb (alg_tag a) tag) algs
                  && String.eqb signature key)%bool then
                match exp with
                | Some x => if x <=? t then JwtExpired
                            else JwtOk (mkPayload uid exp)
                | None => JwtOk (mkPayload uid exp)
                end
              else JwtInvalid
          end
      end
  end.

Definition hash (password salt : string) : string :=
  salt ++ "$" ++ password.

Definition check (pwhash password : string) : bool :=
  String.eqb
    (Py.drop (String.length pwhash - String.length password - 1) pwhash)
    ("$" ++ password).

(** Parses the two texts the examples feed it. *)
Definition loads (s : string) : option json :=
  if String.eqb s "[]" then Some (JArr [])
  else if String.eqb s "[1]" then Some (JArr [JInt 1])
  else None.

Definition rt : runtime := mkRuntime hash check encode decode loads.

Definition os : Config.environ := Config.mkEnviron None None.

End Reference.

(* ===================================================================== *)
(** * Properties *)
(* ===================================================================== *)

(** ** Python strings *)

Lemma lower_char_idem (c : ascii) :
  Py.lower_char (Py.lower_char c) = Py.lower_char c.
Proof. destruct c as [[] [] [] [] [] [] [] []]; reflexivity. Qed.

Lemma is_space_lower_char (c : ascii) :
  Py.is_space (Py.lower_char c) = Py.is_space c.
Proof. destruct c as [[] [] [] [] [] [] [] []]; reflexivity. Qed.

Lemma lower_idem (s : string) : Py.lower (Py.lower s) = Py.lower s.
Proof.
  induction s as [|c s IH]; simpl; [reflexivity|].
  now rewrite lower_char_idem, IH.
Qed.

Lemma lower_lstrip (s : string) :
  Py.lower (Py.lstrip s) = Py.lstrip (Py.lower s).
Proof.
  induction s as [|c s IH]; simpl; [reflexivity|].
  rewrite is_space_lower_char.
  destruct (Py.is_space c); [exact IH | reflexivity].
Qed.

Lemma lower_rstrip (s : string) :
  Py.lower (Py.rstrip s) = Py.rstrip (Py.lower s).
Proof.
  induction s as [|c s IH]; simpl; [reflexivity|].
  rewrite <- IH, is_space_lower_char.
  destruct (Py.rstrip s); simpl; [|reflexivity].
  destruct (Py.is_space c); reflexivity.
Qed.

Lemma lower_strip (s : string) :
  Py.lower (Py.strip s) = Py.strip (Py.lower s).
Proof. unfold Py.strip. now rewrite lower_rstrip, lower_lstrip. Qed.

Lemma truthy_true (s : string) : Py.truthy s = true <-> s <> "".
Proof. destruct s; simpl; split; congruence. Qed.

Lemma truthy_lower (s : string) : Py.truthy (Py.lower s) = Py.truthy s.
Proof. destruct s; reflexivity. Qed.

Lemma startswith_bearer (t : string) :
  Py.startswith "Bearer " ("Bearer " ++ t) = true.
Proof. unfold Py.startswith. simpl. destruct t; reflexivity. Qed.

Lemma drop_bearer (t : string) : Py.drop 7 ("Bearer " ++ t) = t.
Proof. reflexivity. Qed.

(** [split] never returns the empty list, so the [[0]] of
    [get_fallback_recipes] cannot raise. *)
Lemma split_not_nil (sep : ascii) (s : string) : Py.split sep s <> [].
Proof.
  induction s as [|c s IH]; simpl; [discriminate|].
  destruct (Py.split sep s); [discriminate|].
  destruct (Ascii.eqb c sep); discriminate.
Qed.

(** ** The reference runtime honours the library contract *)





(** ** The auth decorator *)

(** C10. For both applications, an Authorization header that holds a
    non-empty token without the "Bearer " prefix is treated exactly like
    the same token with the prefix; when the token decodes to a payload
    with a user id, either form runs the handler with that user id. *)
Theorem bearer_prefix_optional :
  forall (R : runtime) (os : Config.environ) (e : env) (d : database)
         (f : Z -> response * database) (token : string),
    token <> "" ->
    Py.startswith "Bearer " token = false ->
    App.token_required R e (Some ("Bearer " ++ token)) d f
    = App.token_required R e (Some token) d f
    /\ AppImproved.token_required R os e (Some ("Bearer " ++ token)) d f
       = AppImproved.token_required R os e (Some token) d f
    /\ (forall p uid,
           jwt_decode R token App.SECRET_KEY [HS256] (now e) = JwtOk p ->
           p_user_id p = Some uid ->
           App.token_required R e (Some token) d f = f uid)
    /\ (forall p uid,
           jwt_decode R token (Config.SECRET_KEY os) [HS256] (now e)
           = JwtOk p ->
           p_user_id p = Some uid ->
           AppImproved.token_required R os e (Some token) d f = f uid).
Proof.
  intros R os e d f token Hne Hraw.
  assert (Ht : Py.truthy token = true) by (now apply truthy_true).
  unfold App.token_required, AppImproved.token_required.
  rewrite startswith_bearer, drop_bearer, Hraw, Ht. simpl.
  repeat split.
  - intros p uid Hd Hu. now rewrite Hd, Hu.
  - intros p uid Hd Hu. now rewrite Hd, Hu.
Qed.

Lemma bearer_prefix_optional_witness :
  let e := mkEnv 1000 true "salt" (ApiRaises "down") in
  let f := fun uid : Z => (mkResp 200 (BMessage (Py.str_of_int uid)), empty_db) in
  let token := App.issue_token Reference.rt e 7 in
  App.token_required Reference.rt e (Some ("Bearer " ++ token)) empty_db f = f 7
  /\ App.token_required Reference.rt e (Some token) empty_db f = f 7.
Proof.
  intros e f token.
  destruct (bearer_prefix_optional Reference.rt Reference.os e empty_db f token)
    as (Happ & _ & Hrun & _).
  - discriminate.
  - reflexivity.
  - assert (Hraw : App.token_required Reference.rt e (Some token) empty_db f = f 7).
    { apply (Hrun (mkPayload (Some 7) (Some (1000 + 7 * seconds_per_day)))).
      - reflexivity.
      - reflexivity. }
    split; [rewrite Happ|]; exact Hraw.
Defined.

(** ** Listing the search history *)

Lemma insert_desc_perm (r : history_row) (l : list history_row) :
  Permutation (Sql.insert_desc r l) (r :: l).
Proof.
  induction l as [|x l IH]; simpl; [apply Permutation_refl|].
  destruct (h_search_time x <=? h_search_time r).
  - apply Permutation_refl.
  - eapply Permutation_trans; [apply perm_skip, IH | apply perm_swap].
Qed.

Lemma insert_desc_sorted (r : history_row) (l : list history_row) :
  StronglySorted newer_row l -> StronglySorted newer_row (Sql.insert_desc r l).
Proof.
  induction 1 as [|x l Hs IH Hx]; simpl.
  - repeat constructor.
  - destruct (Z.leb_spec (h_search_time x) (h_search_time r)) as [Hle|Hlt].
    + constructor; [constructor; assumption|].
      constructor; [exact Hle|].
      eapply Forall_impl; [|exact Hx].
      unfold newer_row. intros a Ha. lia.
    + constructor; [exact IH|].
      eapply Permutation_Forall;
        [apply Permutation_sym, insert_desc_perm|].
      constructor; [unfold newer_row; lia | exact Hx].
Qed.

Lemma order_by_perm (l : list history_row) :
  Permutation (Sql.order_by_search_time_desc l) l.
Proof.
  induction l as [|x l IH]; simpl; [constructor|].
  eapply Permutation_trans; [apply insert_desc_perm | now apply perm_skip].
Qed.

Lemma order_by_sorted (l : list history_row) :
  StronglySorted newer_row (Sql.order_by_search_time_desc l).
Proof.
  induction l as [|x l IH]; simpl; [constructor|].
  now apply insert_desc_sorted.
Qed.

Lemma in_firstn {A : Type} (n : nat) (l : list A) (x : A) :
  In x (firstn n l) -> In x l.
Proof.
  revert n. induction l as [|y l IH]; intros [|n]; simpl; try tauto.
  intros [H|H]; [now left | right; eauto].
Qed.

Lemma sorted_firstn {A : Type} (rel : A -> A -> Prop) (n : nat) (l : list A) :
  StronglySorted rel l -> StronglySorted rel (firstn n l).
Proof.
  intros Hs. revert n.
  induction Hs as [|x l Hs IH Hx]; intros [|n]; simpl; try constructor.
  - apply IH.
  - rewrite Forall_forall in *. intros y Hy.
    apply Hx. eapply in_firstn; eauto.
Qed.

Lemma sorted_entries (l : list history_row) :
  StronglySorted newer_row l ->
  StronglySorted newer_or_same (map entry_of_row l).
Proof.
  induction 1 as [|x l Hs IH Hx]; simpl; constructor; [exact IH|].
  rewrite Forall_map. exact Hx.
Qed.

(** What both listings return when the database answers. *)
Lemma listing_characterised (uid : Z) (d : database) :
  let listed :=
    map entry_of_row
        (firstn 20 (Sql.order_by_search_time_desc (history_of_user uid d))) in
  (length listed <= 20)%nat
  /\ StronglySorted newer_or_same listed
  /\ length listed = Nat.min 20 (length (history_of_user uid d))
  /\ exists older,
       Permutation (map entry_of_row (history_of_user uid d)) (listed ++ older)
       /\ StronglySorted newer_or_same (listed ++ older).
Proof.
  intros listed. subst listed.
  set (all := Sql.order_by_search_time_desc (history_of_user uid d)).
  assert (Hlen : length all = length (history_of_user uid d))
    by (apply Permutation_length, order_by_perm).
  repeat split.
  - rewrite length_map, length_firstn. lia.
  - apply sorted_entries, sorted_firstn, order_by_sorted.
  - rewrite length_map, length_firstn, Hlen. reflexivity.
  - exists (map entry_of_row (skipn 20 all)).
    rewrite <- map_app, firstn_skipn. split.
    + apply Permutation_map, Permutation_sym, order_by_perm.
    + apply sorted_entries, order_by_sorted.
Qed.

(** C9. For every user and every database, the history listing of either
    application leaves the database alone and returns at most 20 entries,
    most recent first; when the database answers, the reply is a 200 whose
    entries are the user's min(20, n) most recent searches. *)
Theorem history_listing_recent_first :
  forall (e : env) (uid : Z) (d : database),
    let app := App.get_search_history e uid d in
    let imp := AppImproved.get_history e uid d in
    snd app = d /\ snd imp = d
    /\ (length (entries (fst app)) <= 20)%nat
    /\ (length (entries (fst imp)) <= 20)%nat
    /\ StronglySorted newer_or_same (entries (fst app))
    /\ StronglySorted newer_or_same (entries (fst imp))
    /\ (db_up e = true ->
        status (fst app) = 200 /\ status (fst imp) = 200
        /\ entries (fst imp) = entries (fst app)
        /\ length (entries (fst app))
           = Nat.min 20 (length (history_of_user uid d))
        /\ exists older,
            Permutation (map entry_of_row (history_of_user uid d))
                        (entries (fst app) ++ older)
            /\ StronglySorted newer_or_same (entries (fst app) ++ older)).
Proof.
  intros e uid d app imp.
  destruct (listing_characterised uid d) as (Hlen & Hsorted & Hmin & Hold).
  subst app imp.
  unfold App.get_search_history, AppImproved.get_history,
    Models.SearchHistory.get_user_history, Models.Database.execute_query_all,
    Sql.select_history, Sql.selected, fetchall.
  fold (history_of_user uid d).
  destruct (db_up e); cbn [negb fst snd entries payload status rows].
  - change (Z.to_nat 20) with 20%nat.
    repeat split; assumption.
  - repeat split; simpl; try lia; try constructor; discriminate.
Qed.

Lemma history_listing_recent_first_witness :
  let e := mkEnv 50 true "salt" (ApiRaises "down") in
  let d := mkDb [mkUser 1 "Ann" "ann@example.com" "h" 0] [] [] []
                [mkHistory 1 1 "rice" 3 10; mkHistory 2 1 "beans" 3 30;
                 mkHistory 3 2 "corn" 3 40; mkHistory 4 1 "kale" 0 20]
                2 1 1 1 5 in
  entries (fst (App.get_search_history e 1 d))
  = [mkEntry "beans" 3 30; mkEntry "kale" 0 20; mkEntry "rice" 3 10]
  /\ status (fst (AppImproved.get_history e 1 d)) = 200.
Proof.
  intros e d.
  destruct (history_listing_recent_first e 1 d)
    as (_ & _ & _ & _ & _ & _ & Hup).
  destruct (Hup eq_refl) as (_ & Hstatus & _).
  split; [reflexivity | exact Hstatus].
Defined.

(** ** The invariant is kept by every statement the handlers run *)

(** Splits nested conjunctions, and nothing else. *)
Ltac conjs := repeat match goal with |- _ /\ _ => split end.

Lemma empty_db_wf : db_wf empty_db.
Proof.
  constructor; simpl; repeat constructor; lia.
Qed.

Lemma hd_error_app_some {A : Type} (l1 l2 : list A) (x : A) :
  hd_error l1 = Some x -> hd_error (l1 ++ l2) = Some x.
Proof. destruct l1; simpl; [discriminate | trivial]. Qed.

Lemma existsb_false_not_in {A B : Type} (f : A -> B)
      (eqb : B -> B -> bool) (b : B) (l : list A) :
  (forall x y, eqb x y = true <-> x = y) ->
  existsb (fun a => eqb (f a) b) l = false -> ~ In b (map f l).
Proof.
  intros Heq Hex Hin. apply in_map_iff in Hin as (a & Hfa & Ha).
  assert (existsb (fun a0 => eqb (f a0) b) l = true).
  { apply existsb_exists. exists a. split; [exact Ha|]. now apply Heq. }
  congruence.
Qed.

Lemma wf_add_user (d : database) (row : user_row) :
  db_wf d ->
  ~ In (u_email row) (map u_email (users d)) ->
  db_wf (mkDb (users d ++ [row]) (user_ingredients d) (recipes d)
              (user_favorites d) (search_history d)
              (next_user_id d + 1) (next_ingredient_id d) (next_recipe_id d)
              (next_favorite_id d) (next_history_id d)).
Proof.
  intros [He Hr Hn Hf Hl Hc] Hfresh. constructor; simpl; try assumption.
  - rewrite map_app. simpl.
    apply NoDup_app; [exact He | repeat constructor; simpl; tauto |].
    intros x Hx [Hy|[]]. subst. contradiction.
  - lia.
Qed.

Lemma wf_add_ingredient (d : database) (row : ingredient_row) :
  db_wf d ->
  Py.lower (i_ingredient row) = i_ingredient row ->
  db_wf (mkDb (users d) (user_ingredients d ++ [row]) (recipes d)
              (user_favorites d) (search_history d)
              (next_user_id d) (next_ingredient_id d + 1) (next_recipe_id d)
              (next_favorite_id d) (next_history_id d)).
Proof.
  intros [He Hr Hn Hf Hl Hc] Hlow. constructor; simpl; try assumption.
  - apply Forall_app. split; [exact Hl | now constructor].
  - lia.
Qed.

Lemma wf_delete_ingredient (d : database) (keep : ingredient_row -> bool) :
  db_wf d ->
  db_wf (mkDb (users d) (filter keep (user_ingredients d)) (recipes d)
              (user_favorites d) (search_history d)
              (next_user_id d) (next_ingredient_id d) (next_recipe_id d)
              (next_favorite_id d) (next_history_id d)).
Proof.
  intros [He Hr Hn Hf Hl Hc]. constructor; simpl; try assumption.
  rewrite Forall_forall in *. intros x Hx.
  apply filter_In in Hx. now apply Hl.
Qed.

Lemma wf_add_recipe (d : database) (row : recipe_row) :
  db_wf d ->
  r_id row = next_recipe_id d ->
  db_wf (mkDb (users d) (user_ingredients d) (recipes d ++ [row])
              (user_favorites d) (search_history d)
              (next_user_id d) (next_ingredient_id d) (next_recipe_id d + 1)
              (next_favorite_id d) (next_history_id d)).
Proof.
  intros [He Hr Hn Hf Hl Hc] Hid. constructor; simpl; try assumption.
  - apply Forall_app. split.
    + eapply Forall_impl; [|exact Hr]. simpl. intros; lia.
    + constructor; [lia | constructor].
  - rewrite map_app. simpl.
    apply NoDup_app; [exact Hn | repeat constructor; simpl; tauto |].
    intros x Hx [Hy|[]]. subst x.
    apply in_map_iff in Hx as (r & Hrid & Hin).
    rewrite Forall_forall in Hr. specialize (Hr r Hin). lia.
  - eapply Forall_impl; [|exact Hf]. simpl.
    intros f (r & Hhd & Hrid). exists r. split; [|exact Hrid].
    unfold first_named in *. cbn [recipes].
    rewrite filter_app. now apply hd_error_app_some.
  - lia.
Qed.

Lemma wf_add_favorite (d : database) (row : favorite_row) (r : recipe_row) :
  db_wf d ->
  first_named (r_name r) d = Some r ->
  r_id r = f_recipe_id row ->
  db_wf (mkDb (users d) (user_ingredients d) (recipes d)
              (user_favorites d ++ [row]) (search_history d)
              (next_user_id d) (next_ingredient_id d) (next_recipe_id d)
              (next_favorite_id d + 1) (next_history_id d)).
Proof.
  intros [He Hr Hn Hf Hl Hc] Hhd Hid. constructor; simpl; try assumption.
  - apply Forall_app. split; [exact Hf|].
    constructor; [|constructor]. exists r. now split.
  - lia.
Qed.

Lemma wf_add_history (d : database) (row : history_row) :
  db_wf d ->
  db_wf (mkDb (users d) (user_ingredients d) (recipes d)
              (user_favorites d) (search_history d ++ [row])
              (next_user_id d) (next_ingredient_id d) (next_recipe_id d)
              (next_favorite_id d) (next_history_id d + 1)).
Proof.
  intros [He Hr Hn Hf Hl Hc]. constructor; simpl; try assumption. lia.
Qed.

(** What a successful INSERT into [recipes] leaves behind. *)
Lemma insert_recipe_some
      (name description ingredients instructions cook_time difficulty : json)
      (t : Z) (d : database) (cur : cursor unit) (d' : database) :
  Sql.insert_recipe name description ingredients instructions cook_time
                    difficulty t d = Some (cur, d') ->
  exists row,
    r_id row = next_recipe_id d
    /\ Sql.text_param name = Some (Some (r_name row))
    /\ lastrowid cur = next_recipe_id d
    /\ d' = mkDb (users d) (user_ingredients d) (recipes d ++ [row])
                 (user_favorites d) (search_history d)
                 (next_user_id d) (next_ingredient_id d)
                 (next_recipe_id d + 1)
                 (next_favorite_id d) (next_history_id d).
Proof.
  unfold Sql.insert_recipe, Sql.inserted.
  destruct (Sql.text_param name) as [[n|]|]; try discriminate.
  destruct (Sql.text_param description) as [de|]; try discriminate.
  destruct (Sql.text_param ingredients) as [i|]; try discriminate.
  destruct (Sql.text_param instructions) as [ins|]; try discriminate.
  destruct (Sql.text_param cook_time) as [c|]; try discriminate.
  destruct (Sql.text_param difficulty) as [di|]; try discriminate.
  intros H. injection H as <- <-.
  exists (mkRecipe (next_recipe_id d) n de i ins c di t).
  repeat split.
Qed.

(** The tables a call to [Recipe.create_recipe] can touch. *)
Lemma create_recipe_frame (e : env)
      (name description ingredients instructions cook_time difficulty : json)
      (d : database) :
  let d' := snd (Models.Recipe.create_recipe e name description ingredients
                   instructions cook_time difficulty d) in
  (db_wf d -> db_wf d')
  /\ users d' = users d
  /\ user_ingredients d' = user_ingredients d
  /\ user_favorites d' = user_favorites d
  /\ search_history d' = search_history d
  /\ next_history_id d' = next_history_id d
  /\ exists more, recipes d' = (recipes d ++ more)%list.
Proof.
  unfold Models.Recipe.create_recipe, Models.Database.execute_query.
  destruct (db_up e); simpl.
  - destruct (Sql.insert_recipe name description ingredients instructions
                cook_time difficulty (now e) d) as [[cur d1]|] eqn:Hins; simpl.
    + apply insert_recipe_some in Hins as (row & Hid & _ & _ & ->). simpl.
      conjs; trivial.
      * intros Hwf. now apply wf_add_recipe.
      * now exists [row].
    + conjs; trivial. exists []. now rewrite app_nil_r.
  - conjs; trivial. exists []. now rewrite app_nil_r.
Qed.

Lemma store_recipes_frame (e : env) (rs : list json) (d : database) :
  let d' := snd (AppImproved.store_recipes e rs d) in
  (db_wf d -> db_wf d')
  /\ users d' = users d
  /\ user_ingredients d' = user_ingredients d
  /\ user_favorites d' = user_favorites d
  /\ search_history d' = search_history d
  /\ next_history_id d' = next_history_id d
  /\ exists more, recipes d' = (recipes d ++ more)%list.
Proof.
  revert d. induction rs as [|r rs IH]; intros d; simpl.
  - conjs; trivial. exists []. now rewrite app_nil_r.
  - destruct (AppImproved.recipe_arguments r)
      as [[[[[[name description] ingredients] instructions] cook_time]
             difficulty]|ex]; simpl.
    + pose proof (create_recipe_frame e name description ingredients
                    instructions cook_time difficulty d) as Hc.
      destruct (Models.Recipe.create_recipe e name description ingredients
                  instructions cook_time difficulty d) as [o d1].
      simpl in Hc. destruct Hc as (Hw & Hu & Hi & Hf & Hh & Hn & more & Hr).
      destruct (IH d1) as (Hw' & Hu' & Hi' & Hf' & Hh' & Hn' & more' & Hr').
      conjs; try congruence.
      * auto.
      * exists (more ++ more')%list. rewrite Hr', Hr. now rewrite app_assoc.
    + conjs; trivial. exists []. now rewrite app_nil_r.
Qed.

(** ** Recipe search *)

Lemma check_recipes_rejects (recipes : list json) :
  (exists recipe,
      In recipe recipes /\
      PyJson.all_in RecipeService.required_fields recipe <> Ok true) ->
  exists ex, RecipeService.check_recipes recipes = Raise ex.
Proof.
  induction recipes as [|r rs IH]; intros (bad & Hin & Hbad).
  - destruct Hin.
  - cbn [RecipeService.check_recipes bind].
    destruct (PyJson.all_in RecipeService.required_fields r)
      as [[|]|ex] eqn:Hr; cbn [bind].
    + destruct Hin as [<-|Hin]; [congruence|].
      apply IH. now exists bad.
    + eauto.
    + eauto.
Qed.

Lemma generate_recipes_fallback (R : runtime) (e : env) (q : string) :
  api_failed_or_invalid R (completion e) ->
  RecipeService.generate_recipes R e q = RecipeService.get_fallback_recipes q.
Proof.
  unfold api_failed_or_invalid, RecipeService.generate_recipes,
    RecipeService.generate_recipes_try.
  destruct (completion e) as [msg|content]; [reflexivity|].
  destruct (json_loads R _) as [[| | | | |recipes|]|]; try reflexivity.
  intros Hbad. apply check_recipes_rejects in Hbad as [ex ->].
  cbn [bind]. destruct ex; reflexivity.
Qed.

Lemma strings_of_strs (l : list string) :
  PyJson.strings_of (map JStr l) = Ok l.
Proof.
  induction l as [|s l IH]; simpl; [reflexivity|]. now rewrite IH.
Qed.

Lemma first_tokens_strs (n : nat) (q : string) :
  RecipeService.first_tokens n q
  = map JStr (map Py.strip (firstn n (Py.split "," q))).
Proof. unfold RecipeService.first_tokens. now rewrite map_map. Qed.

(** The loop arguments of a dict shaped like the fallback recipes. *)
Lemma recipe_arguments_ok (name description cook_time difficulty : json)
      (ingredients instructions : list string) :
  AppImproved.recipe_arguments
    (JObj [ ("name", name); ("description", description);
            ("ingredients", JArr (map JStr ingredients));
            ("instructions", JArr (map JStr instructions));
            ("cook_time", cook_time); ("difficulty", difficulty) ])
  = Ok (name, description, JStr (Py.join ", " ingredients),
        JStr (Py.join (String "010" EmptyString) instructions),
        cook_time, difficulty).
Proof.
  unfold AppImproved.recipe_arguments. cbn [PyJson.getitem PyJson.assoc
    String.eqb Ascii.eqb Bool.eqb bind PyJson.join].
  now rewrite !strings_of_strs.
Qed.

Lemma store_fallback_recipes (e : env) (q : string) (d : database) :
  fst (AppImproved.store_recipes e (RecipeService.get_fallback_recipes q) d)
  = Ok tt.
Proof.
  unfold RecipeService.get_fallback_recipes.
  rewrite !first_tokens_strs.
  cbn [AppImproved.store_recipes].
  rewrite (recipe_arguments_ok _ _ _ _ _
             ["Prepare all ingredients"; "Heat oil in a pan";
              "Cook main ingredients until done"; "Season to taste";
              "Serve hot"]).
  destruct (Models.Recipe.create_recipe e _ _ _ _ _ _ d) as [o1 d1].
  rewrite (recipe_arguments_ok _ _ _ _ _
             ["Prepare vegetables"; "Cook protein if needed";
              "Arrange in a bowl"; "Add dressing"; "Enjoy fresh"]).
  destruct (Models.Recipe.create_recipe e _ _ _ _ _ _ d1) as [o2 d2].
  rewrite (recipe_arguments_ok _ _ _ _ _
             ["Preheat cooking surface"; "Season ingredients";
              "Cook according to preference"; "Let rest briefly";
              "Serve and enjoy"]).
  destruct (Models.Recipe.create_recipe e _ _ _ _ _ _ d2) as [o3 d3].
  reflexivity.
Qed.

Lemma fallback_recipes_complete (q : string) :
  Forall has_required_fields (RecipeService.get_fallback_recipes q).
Proof.
  unfold RecipeService.get_fallback_recipes, RecipeService.required_fields.
  repeat constructor;
    intros k Hk; simpl in Hk;
    repeat (destruct Hk as [<-|Hk]; [simpl; discriminate|]);
    destruct Hk.
Qed.

(** C1, as amended.  In the modular application, for every ingredient
    string that is non-empty once stripped, a search whose completion call
    fails, or whose text does not parse, or does not pass the validation of
    [generate_recipes], is answered with status 200 and exactly the three
    fallback recipes built from the stripped string, each carrying the six
    required fields. *)
Theorem improved_search_falls_back :
  forall (R : runtime) (e : env) (uid : Z) (ingredients : string)
         (d : database),
    Py.strip ingredients <> "" ->
    api_failed_or_invalid R (completion e) ->
    let q := Py.strip ingredients in
    let served := RecipeService.get_fallback_recipes q in
    fst (AppImproved.search_recipes R e uid
           (Some (mkSearchBody (Some ingredients))) d)
    = mkResp 200 (BRecipes served 3 q)
    /\ length served = 3%nat
    /\ Forall has_required_fields served.
Proof.
  intros R e uid ingredients d Hne Hbad q served.
  split; [|split; [reflexivity | apply fallback_recipes_complete]].
  unfold AppImproved.search_recipes, AppImproved.search_recipes_try.
  cbn [get sb_ingredients]. fold q.
  assert (Hq : Py.truthy q = true) by (now apply truthy_true).
  rewrite Hq. cbn [negb].
  rewrite (generate_recipes_fallback R e q Hbad). fold served.
  destruct (Models.SearchHistory.add_search e uid q
              (Z.of_nat (length served)) d) as [o d1].
  pose proof (store_fallback_recipes e q d1) as Hstore. fold served in Hstore.
  destruct (AppImproved.store_recipes e served d1) as [[[]|ex] d2];
    simpl in Hstore; [reflexivity | discriminate].
Qed.

Lemma improved_search_falls_back_witness :
  let e := mkEnv 1000 true "salt" (ApiReturns "```json[1]```") in
  fst (AppImproved.search_recipes Reference.rt e 1
         (Some (mkSearchBody (Some " rice, beans "))) empty_db)
  = mkResp 200
      (BRecipes (RecipeService.get_fallback_recipes "rice, beans") 3
                "rice, beans").
Proof.
  intros e.
  apply (improved_search_falls_back Reference.rt e 1 " rice, beans " empty_db).
  - vm_compute. discriminate.
  - vm_compute. exists (JInt 1). split; [now left | discriminate].
Defined.

(** C1, as stated, fails: the monolithic application answers 500 when the
    completion call fails, and the modular one answers 400 to a string of
    blanks, which is not empty. *)
Lemma search_always_falls_back_counterexample :
  let e := mkEnv 1000 true "salt" (ApiRaises "timeout") in
  "rice" <> "" /\ " " <> ""
  /\ fst (App.search_recipes e 1 (Some (mkSearchBody (Some "rice"))) empty_db)
     = mkResp 500 (BError "Recipe search failed: timeout")
  /\ fst (AppImproved.search_recipes Reference.rt e 1
            (Some (mkSearchBody (Some " "))) empty_db)
     = mkResp 400 (BError "Ingredients are required").
Proof.
  intros e. repeat split; discriminate.
Qed.




(** ** Registration *)

Lemma hd_error_filter_in {A : Type} (p : A -> bool) (l : list A) (x : A) :
  In x l -> p x = true -> exists y, hd_error (filter p l) = Some y.
Proof.
  intros Hin Hp.
  assert (Hf : In x (filter p l)) by (apply filter_In; now split).
  destruct (filter p l) as [|y l']; [destruct Hf | now exists y].
Qed.

Lemma length_lt_6_nonempty (s : string) :
  6 <= Z.of_nat (String.length s) -> s <> "".
Proof. destruct s; simpl; [lia | discriminate]. Qed.

Lemma email_pattern_nonempty (s : string) :
  Re.match_anchored App.email_pattern s = true -> s <> "".
Proof. destruct s; [discriminate 1 | discriminate]. Qed.

(** The monolithic [register] answers 400 and leaves the database alone
    when the email fails the pattern or the password has fewer than six
    characters. *)
Lemma app_register_validates (R : runtime) (e : env) (data : register_body)
      (d : database) :
  (forall email, rb_email data = Some email ->
                 Re.match_anchored App.email_pattern email = false)
  \/ (forall password, rb_password data = Some password ->
                       Z.of_nat (String.length password) < 6) ->
  exists msg, App.register R e (Some data) d = (mkResp 400 (BError msg), d).
Proof.
  intros Hbad. unfold App.register.
  destruct (negb (field_truthy (rb_name data))
            || negb (field_truthy (rb_email data))
            || negb (field_truthy (rb_password data)))%bool eqn:Hreq;
    [eauto|].
  apply orb_false_iff in Hreq as [Hreq Hpw].
  apply orb_false_iff in Hreq as [_ Hem].
  destruct (rb_email data) as [email|]; [|discriminate].
  destruct (rb_password data) as [password|]; [|discriminate].
  cbn [get].
  destruct (Re.match_anchored App.email_pattern email) eqn:Hm;
    cbn [negb]; [|eauto].
  destruct (Z.ltb_spec (Z.of_nat (String.length password)) 6); [eauto|].
  destruct Hbad as [Hbad|Hbad].
  - specialize (Hbad email eq_refl). congruence.
  - specialize (Hbad password eq_refl). lia.
Qed.

(** The monolithic [register] answers 409 and leaves the database alone
    when a well-formed request names an email that is already taken. *)
Lemma app_register_duplicate_conflict (R : runtime) (e : env)
      (name email password : string) (d : database) :
  name <> "" ->
  Re.match_anchored App.email_pattern email = true ->
  6 <= Z.of_nat (String.length password) ->
  db_up e = true ->
  In email (map u_email (users d)) ->
  App.register R e
    (Some (mkRegisterBody (Some name) (Some email) (Some password))) d
  = (mkResp 409 (BError "Email already registered"), d).
Proof.
  intros Hname Hmatch Hlen Hup Hin.
  unfold App.register. cbn [rb_name rb_email rb_password field_truthy get].
  apply truthy_true in Hname.
  pose proof (proj2 (truthy_true email) (email_pattern_nonempty _ Hmatch)) as He.
  pose proof (proj2 (truthy_true password) (length_lt_6_nonempty _ Hlen)) as Hp.
  rewrite Hname, He, Hp, Hmatch, Hup. cbn [negb orb].
  destruct (Z.ltb_spec (Z.of_nat (String.length password)) 6); [lia|].
  unfold Sql.select_user_by_email, Sql.selected, fetchone. cbn [rows].
  apply in_map_iff in Hin as (u & Hu & Hin).
  destruct (hd_error_filter_in (fun u0 => String.eqb (u_email u0) email)
              (users d) u Hin) as [y ->]; [|reflexivity].
  rewrite Hu. apply String.eqb_refl.
Qed.

(** The modular [register] never gets past its call of [validate_email]. *)
Lemma improved_register_raises (R : runtime) (os : Config.environ) (e : env)
      (name email password : string) (d : database) :
  AppImproved.register R os e
    (Some (mkRegisterBody (Some name) (Some email) (Some password))) d
  = (mkResp 500
       (BError "Registration failed: name 'validate_email' is not defined"),
     d).
Proof. reflexivity. Qed.

(** C6 holds of [app.py] ([app_register_validates]) and fails on
    [app_improved.py]: a request with a malformed email, and one with a
    three-character password, are answered 500 there instead of 400, as
    [register] calls the undefined [validate_email] before any check;
    no user is created either way. *)
Theorem improved_register_answers_500_to_invalid_input :
  let e := mkEnv 1000 true "salt" (ApiRaises "down") in
  let bad_email :=
    Some (mkRegisterBody (Some "Ann") (Some "not-an-email") (Some "secret1")) in
  let short_password :=
    Some (mkRegisterBody (Some "Ann") (Some "ann@example.com") (Some "abc")) in
  let raised :=
    mkResp 500
      (BError "Registration failed: name 'validate_email' is not defined") in
  Re.match_anchored App.email_pattern "not-an-email" = false
  /\ AppImproved.register Reference.rt Reference.os e bad_email empty_db
     = (raised, empty_db)
  /\ AppImproved.register Reference.rt Reference.os e short_password empty_db
     = (raised, empty_db)
  /\ App.register Reference.rt e bad_email empty_db
     = (mkResp 400 (BError "Invalid email format"), empty_db)
  /\ App.register Reference.rt e short_password empty_db
     = (mkResp 400 (BError "Password must be at least 6 characters long"),
        empty_db).
Proof. repeat split. Qed.

(** C2 holds of [app.py] ([app_register_duplicate_conflict]) and fails on
    [app_improved.py]: registering an email that is already taken is
    answered 500 there instead of 409, for the same reason as in C6; no
    user row is added. *)
Theorem improved_register_answers_500_to_duplicate_email :
  let e := mkEnv 1000 true "salt" (ApiRaises "down") in
  let ann :=
    Some (mkRegisterBody (Some "Ann") (Some "ann@example.com")
                         (Some "secret1")) in
  let again :=
    Some (mkRegisterBody (Some "Anna") (Some "ann@example.com")
                         (Some "secret2")) in
  let d := snd (App.register Reference.rt e ann empty_db) in
  map u_email (users d) = ["ann@example.com"]
  /\ AppImproved.register Reference.rt Reference.os e again d
     = (mkResp 500
          (BError "Registration failed: name 'validate_email' is not defined"),
        d)
  /\ App.register Reference.rt e again d
     = (mkResp 409 (BError "Email already registered"), d).
Proof. repeat split. Qed.

(** ** The pantry *)

Lemma ingredient_matches_refl (uid : Z) (name : string) (id t : Z) :
  Sql.ingredient_matches uid name (mkIngredient id uid name t) = true.
Proof.
  unfold Sql.ingredient_matches. simpl.
  now rewrite Z.eqb_refl, String.eqb_refl.
Qed.

Lemma hd_error_map_some {A B : Type} (f : A -> B) (l : list A) (x : A) :
  hd_error l = Some x -> hd_error (map f l) = Some (f x).
Proof. destruct l; simpl; [discriminate | now intros [= ->]]. Qed.

(** A freshly added row is found by the duplicate check. *)
Lemma select_ingredient_after_insert (uid : Z) (name : string) (id t : Z)
      (l : list ingredient_row) :
  exists found,
    hd_error (map i_id (filter (Sql.ingredient_matches uid name)
                               (l ++ [mkIngredient id uid name t])))
    = Some found.
Proof.
  destruct (hd_error_filter_in (Sql.ingredient_matches uid name)
              (l ++ [mkIngredient id uid name t])
              (mkIngredient id uid name t)) as [y Hy].
  - apply in_or_app. right. now left.
  - apply ingredient_matches_refl.
  - exists (i_id y). now apply hd_error_map_some.
Qed.

Lemma case_variation_stored (n1 n2 : string) :
  Py.lower n2 = Py.lower n1 ->
  Py.lower (Py.strip n2) = Py.lower (Py.strip n1).
Proof. intros H. now rewrite !lower_strip, H. Qed.

Lemma app_add_ingredient_created (e : env) (uid : Z) (name : string)
      (d : database) (r : response) (d1 : database) :
  App.add_ingredient e uid (Some (mkIngredientBody (Some name))) d = (r, d1) ->
  status r = 201 ->
  let stored := Py.lower (Py.strip name) in
  Py.truthy stored = true
  /\ d1 = mkDb (users d)
               (user_ingredients d
                  ++ [mkIngredient (next_ingredient_id d) uid stored (now e)])
               (recipes d) (user_favorites d) (search_history d)
               (next_user_id d) (next_ingredient_id d + 1) (next_recipe_id d)
               (next_favorite_id d) (next_history_id d).
Proof.
  intros H Hs stored.
  unfold App.add_ingredient in H. cbn [get ib_ingredient] in H.
  fold stored in H.
  destruct (Py.truthy stored); cbn [negb] in H;
    [|injection H as <- <-; discriminate].
  destruct (db_up e); cbn [negb] in H;
    [|injection H as <- <-; discriminate].
  unfold Sql.select_ingredient_id, Sql.selected in H.
  destruct (fetchone _) in H; [injection H as <- <-; discriminate|].
  unfold Sql.insert_ingredient, Sql.inserted in H.
  destruct (Sql.user_exists uid d);
    injection H as <- <-; [|discriminate].
  now split.
Qed.

Lemma improved_add_ingredient_created (e : env) (uid : Z) (name : string)
      (d : database) (r : response) (d1 : database) :
  AppImproved.add_ingredient e uid (Some (mkIngredientBody (Some name))) d
  = (r, d1) ->
  status r = 201 ->
  let stored := Py.lower (Py.strip name) in
  Py.truthy stored = true
  /\ d1 = mkDb (users d)
               (user_ingredients d
                  ++ [mkIngredient (next_ingredient_id d) uid stored (now e)])
               (recipes d) (user_favorites d) (search_history d)
               (next_user_id d) (next_ingredient_id d + 1) (next_recipe_id d)
               (next_favorite_id d) (next_history_id d).
Proof.
  intros H Hs stored.
  unfold AppImproved.add_ingredient, AppImproved.add_ingredient_try,
    AppImproved.except_exception in H.
  cbn [get ib_ingredient] in H.
  unfold stored. rewrite truthy_lower.
  destruct (Py.truthy (Py.strip name)); cbn [negb] in H;
    [|injection H as <- <-; discriminate].
  unfold Models.Ingredient.ingredient_exists,
    Models.Ingredient.add_ingredient, Models.Database.execute_query_one,
    Models.Database.execute_query, Sql.select_ingredient_id, Sql.selected,
    Sql.insert_ingredient, Sql.inserted in H.
  destruct (db_up e); [|injection H as <- <-; discriminate].
  destruct (fetchone _) in H; [injection H as <- <-; discriminate|].
  destruct (Sql.user_exists uid d);
    [|injection H as <- <-; discriminate].
  cbn [lastrowid id_truthy] in H.
  destruct (negb (next_ingredient_id d =? 0));
    injection H as <- <-; [|discriminate].
  now split.
Qed.

(** C4. For every user and ingredient name: when an add request is
    answered 201, the row it stores holds the stripped, lowercased name,
    and a following add request for any letter-case variation of the name
    is answered 409 and changes nothing (database reachable); in both
    applications. *)
Theorem duplicate_ingredient_rejected :
  forall (e1 e2 : env) (uid : Z) (n1 n2 : string) (d : database),
    Py.lower n2 = Py.lower n1 ->
    db_up e2 = true ->
    let stored := Py.lower (Py.strip n1) in
    let first := Some (mkIngredientBody (Some n1)) in
    let second := Some (mkIngredientBody (Some n2)) in
    (forall r1 d1,
        App.add_ingredient e1 uid first d = (r1, d1) ->
        status r1 = 201 ->
        user_ingredients d1
        = (user_ingredients d
             ++ [mkIngredient (next_ingredient_id d) uid stored (now e1)])%list
        /\ In stored (pantry uid d1)
        /\ App.add_ingredient e2 uid second d1
           = (mkResp 409 (BError "Ingredient already added"), d1))
    /\ (forall r1 d1,
           AppImproved.add_ingredient e1 uid first d = (r1, d1) ->
           status r1 = 201 ->
           user_ingredients d1
           = (user_ingredients d
                ++ [mkIngredient (next_ingredient_id d) uid stored (now e1)])%list
           /\ In stored (pantry uid d1)
           /\ AppImproved.add_ingredient e2 uid second d1
              = (mkResp 409 (BError "Ingredient already added"), d1)).
Proof.
  intros e1 e2 uid n1 n2 d Hcase Hup stored first second.
  pose proof (case_variation_stored n1 n2 Hcase) as Hsame. fold stored in Hsame.
  assert (Hpantry : forall l id t,
             In stored
                (map i_ingredient
                     (filter (fun i => i_user_id i =? uid)
                             (l ++ [mkIngredient id uid stored t])))).
  { intros l id t. apply in_map_iff.
    exists (mkIngredient id uid stored t). split; [reflexivity|].
    apply filter_In. split; [apply in_or_app; right; now left|].
    simpl. apply Z.eqb_refl. }
  split; intros r1 d1 Hadd H201.
  - destruct (app_add_ingredient_created e1 uid n1 d r1 d1 Hadd H201)
      as [Htruthy ->].
    fold stored in Htruthy |- *.
    split; [reflexivity|]. split; [apply Hpantry|].
    unfold App.add_ingredient, second. cbn [get ib_ingredient].
    rewrite Hsame, Htruthy, Hup. cbn [negb].
    unfold Sql.select_ingredient_id, Sql.selected, fetchone.
    cbn [rows user_ingredients].
    destruct (select_ingredient_after_insert uid stored
                (next_ingredient_id d) (now e1) (user_ingredients d))
      as [found ->].
    reflexivity.
  - destruct (improved_add_ingredient_created e1 uid n1 d r1 d1 Hadd H201)
      as [Htruthy ->].
    fold stored in Htruthy |- *.
    split; [reflexivity|]. split; [apply Hpantry|].
    unfold AppImproved.add_ingredient, AppImproved.add_ingredient_try, second.
    cbn [get ib_ingredient].
    assert (Ht2 : Py.truthy (Py.strip n2) = true).
    { rewrite <- truthy_lower, Hsame. exact Htruthy. }
    rewrite Ht2. cbn [negb].
    unfold Models.Ingredient.ingredient_exists,
      Models.Database.execute_query_one, Sql.select_ingredient_id,
      Sql.selected, fetchone.
    rewrite Hup, Hsame. cbn [rows user_ingredients].
    destruct (select_ingredient_after_insert uid stored
                (next_ingredient_id d) (now e1) (user_ingredients d))
      as [found ->].
    reflexivity.
Qed.

Lemma duplicate_ingredient_rejected_witness :
  let e := mkEnv 1000 true "salt" (ApiRaises "down") in
  let d := snd (App.register Reference.rt e
                  (Some (mkRegisterBody (Some "Ann") (Some "ann@example.com")
                                        (Some "secret1"))) empty_db) in
  let d1 := snd (App.add_ingredient e 1
                   (Some (mkIngredientBody (Some " Sea Salt "))) d) in
  let d1' := snd (AppImproved.add_ingredient e 1
                    (Some (mkIngredientBody (Some " Sea Salt "))) d) in
  (pantry 1 d1 = ["sea salt"]
   /\ App.add_ingredient e 1 (Some (mkIngredientBody (Some " SEA SALT "))) d1
      = (mkResp 409 (BError "Ingredient already added"), d1))
  /\ (pantry 1 d1' = ["sea salt"]
      /\ AppImproved.add_ingredient e 1
           (Some (mkIngredientBody (Some " SEA SALT "))) d1'
         = (mkResp 409 (BError "Ingredient already added"), d1')).
Proof.
  intros e d d1 d1'.
  destruct (duplicate_ingredient_rejected e e 1 " Sea Salt " " SEA SALT " d)
    as [Happ Himproved].
  - reflexivity.
  - reflexivity.
  - split.
    + split; [reflexivity|].
      eapply Happ; [reflexivity | reflexivity].
    + split; [reflexivity|].
      eapply Himproved; [reflexivity | reflexivity].
Defined.

Lemma filter_nil_iff {A : Type} (p : A -> bool) (l : list A) :
  filter p l = [] <-> forall x, In x l -> p x = false.
Proof.
  induction l as [|a l IH]; simpl.
  - split; [intros _ x [] | reflexivity].
  - destruct (p a) eqn:Ha; split.
    + discriminate.
    + intros H. specialize (H a (or_introl eq_refl)). congruence.
    + intros H x [<-|Hx]; [exact Ha | now apply IH].
    + intros H. apply IH. intros x Hx. apply H. now right.
Qed.

(** With lowercase names stored, "present up to letter case" is what the
    DELETE statement matches. *)
Lemma present_iff_matched (uid : Z) (name : string) (d : database) :
  db_wf d ->
  (exists x, In x (pantry uid d) /\ Py.lower x = Py.lower name)
  <-> filter (Sql.ingredient_matches uid (Py.lower name)) (user_ingredients d)
      <> [].
Proof.
  intros Hwf. pose proof (wf_lowercase d Hwf) as Hlow.
  rewrite Forall_forall in Hlow. unfold pantry. split.
  - intros (x & Hin & Hx) Hnil.
    apply in_map_iff in Hin as (i & <- & Hi).
    apply filter_In in Hi as [Hi Hu].
    rewrite filter_nil_iff in Hnil. specialize (Hnil i Hi).
    unfold Sql.ingredient_matches in Hnil.
    rewrite Hu, <- Hx, (Hlow i Hi), String.eqb_refl in Hnil. discriminate.
  - intros Hne.
    destruct (filter _ (user_ingredients d)) as [|i rest] eqn:Hf;
      [congruence|].
    assert (Hi : In i (filter (Sql.ingredient_matches uid (Py.lower name))
                               (user_ingredients d)))
      by (rewrite Hf; now left).
    apply filter_In in Hi as [Hi Hm].
    unfold Sql.ingredient_matches in Hm.
    apply andb_true_iff in Hm as [Hu Hn]. apply String.eqb_eq in Hn.
    exists (i_ingredient i). split.
    + apply in_map_iff. exists i. split; [reflexivity|].
      apply filter_In. now split.
    + rewrite Hn. apply lower_idem.
Qed.

(** What [app.py] does on DELETE, in a state that keeps the invariant and
    with the database reachable: 404 exactly when the name is absent up to
    letter case, 200 otherwise, and the name is gone afterwards. *)
Lemma app_remove_ingredient_spec (e : env) (uid : Z) (name : string)
      (d : database) :
  db_wf d ->
  db_up e = true ->
  let out := App.remove_ingredient e uid name d in
  let present :=
    exists x, In x (pantry uid d) /\ Py.lower x = Py.lower name in
  (status (fst out) = 404 <-> ~ present)
  /\ (present -> status (fst out) = 200)
  /\ (forall x, In x (pantry uid (snd out)) -> Py.lower x <> Py.lower name).
Proof.
  intros Hwf Hup out present.
  pose proof (present_iff_matched uid name d Hwf) as Hiff. fold present in Hiff.
  subst out. unfold App.remove_ingredient, Sql.delete_ingredient.
  rewrite Hup. cbn [negb rowcount].
  set (hit := Sql.ingredient_matches uid (Py.lower name)) in *.
  assert (Hgone : forall x,
             In x (map i_ingredient
                       (filter (fun i => i_user_id i =? uid)
                               (filter (fun i => negb (hit i))
                                       (user_ingredients d)))) ->
             Py.lower x <> Py.lower name).
  { intros x Hx Heq.
    apply in_map_iff in Hx as (i & <- & Hi).
    apply filter_In in Hi as [Hi Hu]. apply filter_In in Hi as [Hi Hn].
    pose proof (wf_lowercase d Hwf) as Hlow. rewrite Forall_forall in Hlow.
    rewrite (Hlow i Hi) in Heq.
    unfold hit, Sql.ingredient_matches in Hn.
    rewrite Hu, Heq, String.eqb_refl in Hn. discriminate. }
  destruct (filter hit (user_ingredients d)) as [|i rest] eqn:Hf.
  - cbn [length Z.of_nat Z.eqb fst snd status].
    split; [|split].
    + split; [intros _ Hp; apply Hiff in Hp; congruence | reflexivity].
    + intros Hp. apply Hiff in Hp. congruence.
    + exact Hgone.
  - assert (Hz : (Z.of_nat (length (i :: rest)) =? 0) = false)
      by (apply Z.eqb_neq; simpl; lia).
    rewrite Hz. cbn [fst snd status].
    split; [|split].
    + split; [discriminate|]. intros Hn. exfalso. apply Hn, Hiff. discriminate.
    + reflexivity.
    + exact Hgone.
Qed.

(** The modular [remove_ingredient] tests [cursor.lastrowid], which a
    DELETE leaves at 0: it answers 404 whatever it removed. *)
Lemma improved_remove_always_404 (e : env) (uid : Z) (name : string)
      (d : database) :
  fst (AppImproved.remove_ingredient e uid name d)
  = mkResp 404 (BError "Ingredient not found").
Proof.
  unfold AppImproved.remove_ingredient, AppImproved.remove_ingredient_try,
    Models.Ingredient.remove_ingredient, Models.Database.execute_query,
    Sql.delete_ingredient.
  destruct (db_up e); reflexivity.
Qed.

(** C5 holds of [app.py] ([app_remove_ingredient_spec]) and fails on
    [app_improved.py]: removing an ingredient that is in the pantry deletes
    the row but is answered 404 instead of a success status, as the handler
    tests the [lastrowid] of the DELETE where [app.py] tests [rowcount]. *)
Theorem improved_remove_answers_404_to_present_ingredient :
  let e := mkEnv 1000 true "salt" (ApiRaises "down") in
  let d0 := snd (App.register Reference.rt e
                   (Some (mkRegisterBody (Some "Ann") (Some "ann@example.com")
                                         (Some "secret1"))) empty_db) in
  let d := snd (AppImproved.add_ingredient e 1
                  (Some (mkIngredientBody (Some "Salt"))) d0) in
  let out := AppImproved.remove_ingredient e 1 "salt" d in
  pantry 1 d = ["salt"]
  /\ fst out = mkResp 404 (BError "Ingredient not found")
  /\ pantry 1 (snd out) = []
  /\ fst (App.remove_ingredient e 1 "salt" d)
     = mkResp 200 (BMessage "Ingredient removed successfully").
Proof. repeat split. Qed.

(** ** Favorites *)



Lemma filter_by_id (l : list recipe_row) (r : recipe_row) :
  NoDup (map r_id l) -> In r l ->
  filter (fun x => r_id x =? r_id r) l = [r].
Proof.
  induction l as [|x l IH]; simpl; intros Hnd Hin; [destruct Hin|].
  inversion Hnd as [|? ? Hnotin Hnd']; subst.
  destruct Hin as [<-|Hin].
  - rewrite Z.eqb_refl. f_equal.
    apply filter_nil_iff. intros y Hy. apply Z.eqb_neq. intros Heq.
    apply Hnotin. rewrite <- Heq. now apply in_map.
  - destruct (Z.eqb_spec (r_id x) (r_id r)) as [Heq|_]; [|now apply IH].
    exfalso. apply Hnotin. rewrite Heq. now apply in_map.
Qed.

Lemma first_named_facts (name : string) (d : database) (r : recipe_row) :
  first_named name d = Some r -> In r (recipes d) /\ r_name r = name.
Proof.
  unfold first_named. intros H.
  destruct (filter _ (recipes d)) as [|x rest] eqn:Hf; [discriminate|].
  injection H as ->.
  assert (Hin : In r (filter (fun r0 => String.eqb (r_name r0) name)
                              (recipes d))) by (rewrite Hf; now left).
  apply filter_In in Hin as [Hin Hn]. now apply String.eqb_eq in Hn.
Qed.







Lemma first_named_with_recipe (n : string) (d : database) (row : recipe_row) :
  first_named n d = None -> r_name row = n ->
  first_named n (with_recipe d row) = Some row.
Proof.
  unfold first_named. cbn [with_recipe recipes]. intros Hnone Hn.
  rewrite filter_app. cbn [filter]. rewrite Hn, String.eqb_refl.
  destruct (filter _ (recipes d)); [reflexivity | discriminate].
Qed.

Lemma first_named_selected (n : string) (d : database) :
  hd_error (map r_id (filter (fun r => String.eqb (r_name r) n) (recipes d)))
  = option_map r_id (first_named n d).
Proof. unfold first_named. now destruct (filter _ (recipes d)). Qed.






(** ** Every handler keeps the invariant and the user rows *)

Lemma evolves_refl (d : database) : evolves d d.
Proof. split; [trivial | exists []; now rewrite app_nil_r]. Qed.

Lemma evolves_trans (d1 d2 d3 : database) :
  evolves d1 d2 -> evolves d2 d3 -> evolves d1 d3.
Proof.
  intros [H12 [m12 E12]] [H23 [m23 E23]]. split; [auto|].
  exists (m12 ++ m23)%list. now rewrite E23, E12, app_assoc.
Qed.

Lemma evolves_with_recipe (d : database) (row : recipe_row) :
  r_id row = next_recipe_id d -> evolves d (with_recipe d row).
Proof.
  intros Hid. split.
  - intros Hwf. now apply wf_add_recipe.
  - exists []. simpl. now rewrite app_nil_r.
Qed.

Lemma evolves_with_favorite (d : database) (r : recipe_row) (id uid t : Z) :
  first_named (r_name r) d = Some r ->
  evolves d (with_favorite d (mkFavorite id uid (r_id r) t)).
Proof.
  intros Hfirst. split.
  - intros Hwf. now apply (wf_add_favorite d _ r).
  - exists []. simpl. now rewrite app_nil_r.
Qed.

Lemma app_register_evolves (R : runtime) (e : env)
      (data : option register_body) (d : database) :
  evolves d (snd (App.register R e data d)).
Proof.
  unfold App.register.
  destruct data as [data|]; [|apply evolves_refl].
  destruct (_ || _ || _)%bool; [apply evolves_refl|].
  destruct (negb (Re.match_anchored _ _)); [apply evolves_refl|].
  destruct (_ <? 6); [apply evolves_refl|].
  destruct (negb (db_up e)); [apply evolves_refl|].
  unfold Sql.select_user_by_email, Sql.selected.
  destruct (fetchone _); [apply evolves_refl|].
  unfold Sql.insert_user, Sql.inserted.
  destruct (existsb _ (users d)) eqn:Hfresh; [apply evolves_refl|].
  cbn [fst snd]. split.
  - intros Hwf. apply wf_add_user; [exact Hwf|]. cbn [u_email].
    apply (existsb_false_not_in u_email String.eqb);
      [apply String.eqb_eq | exact Hfresh].
  - eexists. reflexivity.
Qed.

Lemma app_login_same (R : runtime) (e : env) (data : option login_body)
      (d : database) :
  snd (App.login R e data d) = d.
Proof.
  unfold App.login.
  destruct data as [data|]; [|reflexivity].
  destruct (_ || _)%bool; [reflexivity|].
  destruct (negb (db_up e)); [reflexivity|].
  unfold Sql.select_user_by_email, Sql.selected.
  destruct (fetchone _); [|reflexivity].
  destruct (negb _); reflexivity.
Qed.

Lemma app_search_evolves (e : env) (uid : Z) (data : option search_body)
      (d : database) :
  evolves d (snd (App.search_recipes e uid data d)).
Proof.
  unfold App.search_recipes.
  destruct data as [data|]; [|apply evolves_refl].
  destruct (negb (Py.truthy _)); [apply evolves_refl|].
  destruct (completion e); [apply evolves_refl|].
  destruct (negb (db_up e)); [apply evolves_refl|].
  unfold Sql.insert_history, Sql.inserted.
  destruct (Sql.user_exists uid d); [|apply evolves_refl].
  cbn [fst snd]. split.
  - intros Hwf. now apply wf_add_history.
  - exists []. simpl. now rewrite app_nil_r.
Qed.

Lemma app_add_ingredient_evolves (e : env) (uid : Z)
      (data : option ingredient_body) (d : database) :
  evolves d (snd (App.add_ingredient e uid data d)).
Proof.
  unfold App.add_ingredient.
  destruct data as [data|]; [|apply evolves_refl].
  destruct (negb (Py.truthy _)); [apply evolves_refl|].
  destruct (negb (db_up e)); [apply evolves_refl|].
  unfold Sql.select_ingredient_id, Sql.selected.
  destruct (fetchone _); [apply evolves_refl|].
  unfold Sql.insert_ingredient, Sql.inserted.
  destruct (Sql.user_exists uid d); [|apply evolves_refl].
  cbn [fst snd]. split.
  - intros Hwf. apply wf_add_ingredient; [exact Hwf|]. apply lower_idem.
  - exists []. simpl. now rewrite app_nil_r.
Qed.

Lemma app_remove_ingredient_evolves (e : env) (uid : Z) (name : string)
      (d : database) :
  evolves d (snd (App.remove_ingredient e uid name d)).
Proof.
  unfold App.remove_ingredient.
  destruct (negb (db_up e)); [apply evolves_refl|].
  unfold Sql.delete_ingredient. cbn [rowcount].
  assert (Hd : evolves d
                 (mkDb (users d)
                       (filter (fun i => negb (Sql.ingredient_matches uid
                                                 (Py.lower name) i))
                               (user_ingredients d))
                       (recipes d) (user_favorites d) (search_history d)
                       (next_user_id d) (next_ingredient_id d)
                       (next_recipe_id d) (next_favorite_id d)
                       (next_history_id d))).
  { split.
    - intros Hwf. now apply wf_delete_ingredient.
    - exists []. simpl. now rewrite app_nil_r. }
  destruct (_ =? 0); exact Hd.
Qed.

(** Resolving a recipe by name, creating it when absent, then checking and
    inserting the favorite: the part the two favorites handlers share. *)
Lemma favorite_insert_evolves (uid rid t : Z) (d : database) (r : recipe_row) :
  first_named (r_name r) d = Some r -> r_id r = rid ->
  match Sql.insert_favorite uid rid t d with
  | Some (_, d') => evolves d d'
  | None => True
  end.
Proof.
  intros Hfirst <-. unfold Sql.insert_favorite, Sql.inserted.
  destruct (_ && _)%bool; [|trivial].
  now apply (evolves_with_favorite d r).
Qed.

Lemma app_add_favorite_evolves (e : env) (uid : Z)
      (data : option favorite_body) (d : database) :
  evolves d (snd (App.add_favorite e uid data d)).
Proof.
  unfold App.add_favorite.
  destruct data as [data|]; [|apply evolves_refl].
  set (rd := get (fb_recipe data) (mkRecipeData None None None None None None)).
  destruct (negb (recipe_data_truthy _)); [apply evolves_refl|].
  destruct (negb (db_up e)); [apply evolves_refl|].
  destruct (rd_name _) as [n|]; [|apply evolves_refl].
  unfold Sql.select_recipe_id_by_name, Sql.selected, fetchone. cbn [rows].
  rewrite first_named_selected.
  destruct (first_named n d) as [r|] eqn:Hfirst; cbn [option_map].
  - destruct (first_named_facts n d r Hfirst) as [_ <-].
    unfold Sql.select_favorite_id, Sql.selected. cbn [rows].
    destruct (hd_error _); [apply evolves_refl|].
    pose proof (favorite_insert_evolves uid (r_id r) (now e) d r Hfirst eq_refl)
      as Hins.
    destruct (Sql.insert_favorite uid (r_id r) (now e) d) as [[cur d']|];
      [exact Hins | apply evolves_refl].
  - set (row := mkRecipe (next_recipe_id d) n
                  (Some (get (rd_description rd) ""))
                  (Some (Py.join ", " (get (rd_ingredients rd) [])))
                  (Some (Py.join (String "010" EmptyString)
                           (get (rd_instructions rd) [])))
                  (Some (get (rd_cook_time rd) ""))
                  (Some (get (rd_difficulty rd) "Medium")) (now e)).
    change (Sql.insert_recipe _ _ _ _ _ _ (now e) d)
      with (Some (mkCursor (R:=unit) [] (next_recipe_id d) 1,
                  with_recipe d row)).
    cbn [lastrowid].
    unfold Sql.select_favorite_id, Sql.selected. cbn [rows].
    destruct (hd_error _); [apply evolves_refl|].
    pose proof (first_named_with_recipe n d row Hfirst eq_refl) as Hfirst2.
    pose proof (favorite_insert_evolves uid (next_recipe_id d) (now e)
                  (with_recipe d row) row Hfirst2 eq_refl) as Hins.
    destruct (Sql.insert_favorite uid (next_recipe_id d) (now e)
                (with_recipe d row)) as [[cur d']|];
      [|apply evolves_refl].
    cbn [fst snd].
    eapply evolves_trans; [apply (evolves_with_recipe d row eq_refl)|].
    exact Hins.
Qed.

Lemma improved_register_same (R : runtime) (os : Config.environ) (e : env)
      (data : option register_body) (d : database) :
  snd (AppImproved.register R os e data d) = d.
Proof.
  unfold AppImproved.register, AppImproved.register_try.
  destruct data as [[[name|] [email|] [password|]]|]; reflexivity.
Qed.

Lemma improved_login_same (R : runtime) (os : Config.environ) (e : env)
      (data : option login_body) (d : database) :
  snd (AppImproved.login R os e data d) = d.
Proof.
  unfold AppImproved.login, AppImproved.login_try,
    Models.User.get_user_by_email, Models.Database.execute_query_one,
    Sql.select_user_by_email, Sql.selected.
  destruct data as [[[email|] [password|]]|]; try reflexivity.
  cbn [lb_email lb_password].
  destruct (db_up e); [|reflexivity].
  destruct (fetchone _); [|reflexivity].
  destruct (negb _); reflexivity.
Qed.

Lemma improved_search_evolves (R : runtime) (e : env) (uid : Z)
      (data : option search_body) (d : database) :
  evolves d (snd (AppImproved.search_recipes R e uid data d)).
Proof.
  unfold AppImproved.search_recipes, AppImproved.search_recipes_try.
  destruct data as [data|]; [|apply evolves_refl].
  destruct (negb (Py.truthy _)); [apply evolves_refl|].
  set (q := Py.strip _).
  set (found := RecipeService.generate_recipes R e q).
  assert (Hlog : evolves d
                   (snd (Models.SearchHistory.add_search e uid q
                           (Z.of_nat (length found)) d))).
  { unfold Models.SearchHistory.add_search, Models.Database.execute_query,
      Sql.insert_history, Sql.inserted.
    destruct (db_up e); [|apply evolves_refl].
    destruct (Sql.user_exists uid d); [|apply evolves_refl].
    cbn [fst snd]. split.
    - intros Hwf. now apply wf_add_history.
    - exists []. simpl. now rewrite app_nil_r. }
  destruct (Models.SearchHistory.add_search e uid q
              (Z.of_nat (length found)) d) as [o d1].
  cbn [snd] in Hlog.
  assert (Hstore : evolves d1 (snd (AppImproved.store_recipes e found d1))).
  { destruct (store_recipes_frame e found d1) as (Hw & Hu & _).
    split; [exact Hw|]. exists []. now rewrite app_nil_r. }
  destruct (AppImproved.store_recipes e found d1) as [[[]|ex] d2];
    cbn [snd AppImproved.except_exception] in *;
    eapply evolves_trans; eassumption.
Qed.

Lemma improved_add_ingredient_evolves (e : env) (uid : Z)
      (data : option ingredient_body) (d : database) :
  evolves d (snd (AppImproved.add_ingredient e uid data d)).
Proof.
  unfold AppImproved.add_ingredient, AppImproved.add_ingredient_try.
  destruct data as [data|]; [|apply evolves_refl].
  destruct (negb (Py.truthy _)); [apply evolves_refl|].
  unfold Models.Ingredient.ingredient_exists, Models.Ingredient.add_ingredient,
    Models.Database.execute_query_one, Models.Database.execute_query,
    Sql.select_ingredient_id, Sql.selected, Sql.insert_ingredient,
    Sql.inserted.
  destruct (db_up e); [|apply evolves_refl].
  destruct (fetchone _); [apply evolves_refl|].
  destruct (Sql.user_exists uid d); [|apply evolves_refl].
  cbn [lastrowid].
  assert (Hd : evolves d
                 (mkDb (users d)
                       (user_ingredients d
                          ++ [mkIngredient (next_ingredient_id d) uid
                                (Py.lower (Py.strip (get (ib_ingredient data) "")))
                                (now e)])
                       (recipes d) (user_favorites d) (search_history d)
                       (next_user_id d) (next_ingredient_id d + 1)
                       (next_recipe_id d) (next_favorite_id d)
                       (next_history_id d))).
  { split.
    - intros Hwf. apply wf_add_ingredient; [exact Hwf|]. apply lower_idem.
    - exists []. simpl. now rewrite app_nil_r. }
  destruct (id_truthy _); exact Hd.
Qed.

Lemma improved_remove_ingredient_evolves (e : env) (uid : Z) (name : string)
      (d : database) :
  evolves d (snd (AppImproved.remove_ingredient e uid name d)).
Proof.
  unfold AppImproved.remove_ingredient, AppImproved.remove_ingredient_try,
    Models.Ingredient.remove_ingredient, Models.Database.execute_query,
    Sql.delete_ingredient.
  destruct (db_up e); [|apply evolves_refl].
  cbn [lastrowid id_truthy Z.eqb negb snd fst AppImproved.except_exception].
  split.
  - intros Hwf. now apply wf_delete_ingredient.
  - exists []. simpl. now rewrite app_nil_r.
Qed.

Lemma improved_add_favorite_evolves (e : env) (uid : Z)
      (data : option favorite_body) (d : database) :
  evolves d (snd (AppImproved.add_favorite_recipe e uid data d)).
Proof.
  unfold AppImproved.add_favorite_recipe, AppImproved.add_favorite_recipe_try.
  destruct data as [data|]; [|apply evolves_refl].
  set (rd := get (fb_recipe data) (mkRecipeData None None None None None None)).
  destruct (_ || _)%bool; [apply evolves_refl|].
  set (n := get (rd_name rd) "").
  unfold Models.Recipe.get_recipe_by_name, Models.Recipe.create_recipe,
    Models.Favorite.is_favorite, Models.Favorite.add_favorite,
    Models.Database.execute_query_one, Models.Database.execute_query.
  destruct (db_up e); [|apply evolves_refl].
  unfold Sql.select_recipe_id_by_name, Sql.selected, fetchone. cbn [rows].
  rewrite first_named_selected.
  destruct (first_named n d) as [r|] eqn:Hfirst; cbn [option_map].
  - destruct (first_named_facts n d r Hfirst) as [_ Hn].
    rewrite <- Hn in Hfirst.
    destruct (negb (id_truthy _)); [apply evolves_refl|]. cbn [get].
    unfold Sql.select_favorite_id, Sql.selected. cbn [rows].
    destruct (hd_error _); [apply evolves_refl|].
    pose proof (favorite_insert_evolves uid (r_id r) (now e) d r Hfirst eq_refl)
      as Hins.
    destruct (Sql.insert_favorite uid (r_id r) (now e) d) as [[cur d']|].
    + destruct (id_truthy _); exact Hins.
    + apply evolves_refl.
  - set (row := mkRecipe (next_recipe_id d) n
                  (Some (get (rd_description rd) ""))
                  (Some (Py.join ", " (get (rd_ingredients rd) [])))
                  (Some (Py.join (String "010" EmptyString)
                           (get (rd_instructions rd) [])))
                  (Some (get (rd_cook_time rd) ""))
                  (Some (get (rd_difficulty rd) "Medium")) (now e)).
    change (Sql.insert_recipe _ _ _ _ _ _ (now e) d)
      with (Some (mkCursor (R:=unit) [] (next_recipe_id d) 1,
                  with_recipe d row)).
    cbn [lastrowid].
    pose proof (evolves_with_recipe d row eq_refl) as Hrec.
    destruct (negb (id_truthy _)); [exact Hrec|]. cbn [get].
    unfold Sql.select_favorite_id, Sql.selected. cbn [rows].
    destruct (hd_error _); [exact Hrec|].
    pose proof (first_named_with_recipe n d row Hfirst eq_refl) as Hfirst2.
    pose proof (favorite_insert_evolves uid (next_recipe_id d) (now e)
                  (with_recipe d row) row Hfirst2 eq_refl) as Hins.
    destruct (Sql.insert_favorite uid (next_recipe_id d) (now e)
                (with_recipe d row)) as [[cur d']|].
    + destruct (id_truthy _); cbn [snd AppImproved.except_exception];
        eapply evolves_trans; eassumption.
    + exact Hrec.
Qed.

Lemma history_same (e : env) (uid : Z) (d : database) :
  snd (App.get_search_history e uid d) = d
  /\ snd (AppImproved.get_history e uid d) = d.
Proof.
  unfold App.get_search_history, AppImproved.get_history,
    Models.SearchHistory.get_user_history, Models.Database.execute_query_all,
    Sql.select_history, Sql.selected.
  destruct (db_up e); split; reflexivity.
Qed.

Lemma handle_evolves (R : runtime) (os : Config.environ) (e : env) (c : call)
      (d : database) :
  evolves d (snd (handle R os e c d)).
Proof.
  destruct c; cbn [handle].
  - apply app_register_evolves.
  - rewrite app_login_same. apply evolves_refl.
  - apply app_search_evolves.
  - apply app_add_ingredient_evolves.
  - apply app_remove_ingredient_evolves.
  - apply app_add_favorite_evolves.
  - rewrite (proj1 (history_same e uid d)). apply evolves_refl.
  - rewrite improved_register_same. apply evolves_refl.
  - rewrite improved_login_same. apply evolves_refl.
  - apply improved_search_evolves.
  - apply improved_add_ingredient_evolves.
  - apply improved_remove_ingredient_evolves.
  - apply improved_add_favorite_evolves.
  - rewrite (proj2 (history_same e uid d)). apply evolves_refl.
Qed.

Lemma run_evolves (R : runtime) (os : Config.environ)
      (trace : list (env * call)) (d : database) :
  evolves d (run R os trace d).
Proof.
  revert d. induction trace as [|[e c] rest IH]; intros d; cbn [run].
  - apply evolves_refl.
  - eapply evolves_trans; [apply handle_evolves | apply IH].
Qed.

(** Every reachable state keeps the invariant. *)
Lemma reachable_wf (R : runtime) (os : Config.environ) (d : database) :
  reachable R os d -> db_wf d.
Proof.
  intros [trace <-].
  apply (proj1 (run_evolves R os trace empty_db)), empty_db_wf.
Qed.





(** ** Tokens *)


(** A 201 from the monolithic [register] means that the row it describes
    was stored: the returned id, the submitted name and email, the hash of
    the submitted password. *)
Lemma app_register_created (R : runtime) (e : env)
      (name email password : string) (d d1 : database)
      (msg token : string) (uid : Z) (name' email' : string) :
  App.register R e
    (Some (mkRegisterBody (Some name) (Some email) (Some password))) d
  = (mkResp 201 (BAuth msg token uid name' email'), d1) ->
  In (mkUser uid name email (generate_password_hash R password (salt e))
             (now e)) (users d1)
  /\ name' = name /\ email' = email /\ email <> "".
Proof.
  unfold App.register. cbn [rb_name rb_email rb_password get].
  destruct (_ || _ || _)%bool eqn:Hreq; [discriminate|].
  destruct (negb (Re.match_anchored _ _)); [discriminate|].
  destruct (_ <? 6); [discriminate|].
  destruct (negb (db_up e)); [discriminate|].
  unfold Sql.select_user_by_email, Sql.selected.
  destruct (fetchone _); [discriminate|].
  unfold Sql.insert_user, Sql.inserted.
  destruct (existsb _ (users d)); [discriminate|].
  cbn [lastrowid]. intros H. injection H as _ _ <- <- <- <-.
  conjs; trivial.
  - apply in_or_app. right. now left.
  - apply orb_false_iff in Hreq as [Hreq _].
    apply orb_false_iff in Hreq as [_ Hem].
    apply negb_false_iff in Hem. now apply truthy_true.
Qed.






(* ===================================================================== *)
(** * Further properties of the code *)
(* ===================================================================== *)

(** ** The matcher decides the language of its expression *)

Lemma append_nil_r (s : string) : s ++ "" = s.
Proof. induction s as [|c s IH]; simpl; [reflexivity | now rewrite IH]. Qed.

Lemma append_assoc (a b c : string) : (a ++ b) ++ c = a ++ (b ++ c).
Proof. induction a as [|x a IH]; simpl; [reflexivity | now rewrite IH]. Qed.

Lemma append_eq_nil (a b : string) : a ++ b = "" -> a = "" /\ b = "".
Proof. destruct a; simpl; [auto | discriminate]. Qed.

Lemma nullable_matches (r : Re.regex) :
  Re.nullable r = true <-> matches r "".
Proof.
  split.
  - induction r; simpl; intros H; try discriminate.
    + constructor.
    + apply andb_true_iff in H as [H1 H2].
      change "" with ("" ++ ""). constructor; auto.
    + apply orb_true_iff in H as [H|H]; [apply MAltL | apply MAltR]; auto.
    + constructor.
  - intros H. remember "" as s eqn:Hs.
    induction H; simpl; try reflexivity; try discriminate.
    + apply append_eq_nil in Hs as [-> ->].
      now rewrite IHmatches1, IHmatches2.
    + now rewrite IHmatches.
    + rewrite IHmatches by assumption. apply orb_true_r.
Qed.

Lemma deriv_sound (c : ascii) (r : Re.regex) (s : string) :
  matches (Re.deriv c r) s -> matches r (String c s).
Proof.
  revert s. induction r; simpl; intros s H.
  - inversion H.
  - inversion H.
  - destruct (p c) eqn:Hp; inversion H; subst. now constructor.
  - destruct (Re.nullable r1) eqn:Hn.
    + inversion H; subst.
      * match goal with
        | Hseq : matches (Re.Seq _ _) _ |- _ => inversion Hseq; subst
        end.
        change (String c (s1 ++ s2)) with (String c s1 ++ s2).
        constructor; auto.
      * change (String c s) with ("" ++ String c s).
        constructor; [now apply nullable_matches | auto].
    + inversion H; subst.
      change (String c (s1 ++ s2)) with (String c s1 ++ s2).
      constructor; auto.
  - inversion H; subst; [apply MAltL | apply MAltR]; auto.
  - inversion H; subst.
    change (String c (s1 ++ s2)) with (String c s1 ++ s2).
    constructor; auto.
Qed.

Lemma deriv_complete (r : Re.regex) (s0 : string) :
  matches r s0 ->
  forall c s, s0 = String c s -> matches (Re.deriv c r) s.
Proof.
  induction 1 as [|p x Hp|r1 r2 s1 s2 H1 IH1 H2 IH2|r1 r2 s' H IH
                  |r1 r2 s' H IH|r|r s1 s2 H1 IH1 H2 IH2];
    intros c s Hs; simpl.
  - discriminate.
  - injection Hs as -> <-. rewrite Hp. constructor.
  - destruct s1 as [|y s1']; simpl in Hs.
    + assert (Hn : Re.nullable r1 = true) by (now apply nullable_matches).
      rewrite Hn. apply MAltR. now apply IH2.
    + injection Hs as -> <-.
      assert (Hd : matches (Re.Seq (Re.deriv c r1) r2) (s1' ++ s2))
        by (constructor; auto).
      destruct (Re.nullable r1); [now apply MAltL | exact Hd].
  - apply MAltL. now apply IH.
  - apply MAltR. now apply IH.
  - discriminate.
  - destruct s1 as [|y s1']; simpl in Hs.
    + now apply IH2.
    + injection Hs as -> <-. constructor; auto.
Qed.

Lemma fullmatch_matches (r : Re.regex) (s : string) :
  Re.fullmatch r s = true <-> matches r s.
Proof.
  revert r. induction s as [|c s IH]; intros r; simpl.
  - apply nullable_matches.
  - rewrite IH. split.
    + apply deriv_sound.
    + intros H. now apply (deriv_complete r (String c s)).
Qed.

Lemma star_class (p : ascii -> bool) (s : string) :
  matches (Re.Star (Re.Class p)) s <-> all_chars p s = true.
Proof.
  split.
  - intros H. remember (Re.Star (Re.Class p)) as r eqn:Hr.
    induction H; try discriminate; [reflexivity|].
    injection Hr as ->.
    inversion H; subst. simpl.
    match goal with Hp : p _ = true |- _ => rewrite Hp end.
    now apply IHmatches2.
  - induction s as [|c s IH]; simpl; intros H; [constructor|].
    apply andb_true_iff in H as [Hc Hs].
    change (String c s) with (String c "" ++ s).
    constructor; [now constructor | auto].
Qed.

Lemma plus_class (p : ascii -> bool) (s : string) :
  matches (Re.Plus (Re.Class p)) s <-> s <> "" /\ all_chars p s = true.
Proof.
  unfold Re.Plus. split.
  - intros H. inversion H; subst.
    match goal with Hc : matches (Re.Class _) _ |- _ => inversion Hc; subst end.
    simpl. split; [discriminate|].
    match goal with Hp : p _ = true |- _ => rewrite Hp end.
    now apply star_class.
  - intros [Hne H]. destruct s as [|c s]; [congruence|].
    simpl in H. apply andb_true_iff in H as [Hc Hs].
    change (String c s) with (String c "" ++ s).
    constructor; [now constructor | now apply star_class].
Qed.

Lemma chr_matches (c : ascii) (s : string) :
  matches (Re.Chr c) s <-> s = String c "".
Proof.
  unfold Re.Chr. split.
  - intros H. inversion H; subst.
    match goal with Hp : Ascii.eqb _ _ = true |- _ =>
      apply Ascii.eqb_eq in Hp; now subst end.
  - intros ->. constructor. apply Ascii.eqb_refl.
Qed.

Lemma two_letters (s : string) :
  matches (Re.Seq (Re.Class Re.alpha)
             (Re.Seq (Re.Class Re.alpha) (Re.Star (Re.Class Re.alpha)))) s
  <-> (2 <= String.length s)%nat /\ all_chars Re.alpha s = true.
Proof.
  split.
  - intros H. inversion H as [| |? ? a rest Ha Hrest| | | |]; subst.
    inversion Ha; subst.
    inversion Hrest as [| |? ? b rest' Hb Hrest'| | | |]; subst.
    inversion Hb; subst.
    apply star_class in Hrest'. simpl.
    repeat match goal with Hp : Re.alpha _ = true |- _ => rewrite Hp; clear Hp end.
    split; [lia | exact Hrest'].
  - intros [Hlen H]. destruct s as [|a [|b s]]; simpl in Hlen; try lia.
    simpl in H. apply andb_true_iff in H as [Ha H].
    apply andb_true_iff in H as [Hb H].
    change (String a (String b s)) with (String a "" ++ (String b "" ++ s)).
    constructor; [now constructor|].
    constructor; [now constructor | now apply star_class].
Qed.

Lemma email_pattern_spec (s : string) :
  Re.match_anchored App.email_pattern s = true <-> email_shape s.
Proof.
  unfold Re.match_anchored. rewrite fullmatch_matches.
  change App.email_pattern
    with (Re.Seq (Re.Plus (Re.Class local_char))
            (Re.Seq (Re.Chr "@")
               (Re.Seq (Re.Plus (Re.Class host_char))
                  (Re.Seq (Re.Chr ".")
                     (Re.Seq (Re.Class Re.alpha)
                        (Re.Seq (Re.Class Re.alpha)
                                (Re.Star (Re.Class Re.alpha)))))))).
  unfold email_shape. split.
  - intros H.
    inversion H as [| |? ? body nl Hbody Hnl| | | |]; subst.
    inversion Hbody as [| |? ? local r1 Hlocal Hr1| | | |]; subst.
    inversion Hr1 as [| |? ? at_ r2 Hat Hr2| | | |]; subst.
    inversion Hr2 as [| |? ? host r3 Hhost Hr3| | | |]; subst.
    inversion Hr3 as [| |? ? dot tld Hdot Htld| | | |]; subst.
    apply plus_class in Hlocal as [Hl1 Hl2].
    apply plus_class in Hhost as [Hh1 Hh2].
    apply chr_matches in Hat, Hdot. subst at_ dot.
    apply two_letters in Htld as [Ht1 Ht2].
    exists local, host, tld, nl.
    split; [now rewrite !append_assoc|].
    conjs; trivial.
    inversion Hnl as [| | |? ? ? He|? ? ? Hc| |]; subst.
    + inversion He. now left.
    + apply chr_matches in Hc. now right.
  - intros (local & host & tld & nl & -> & Hl1 & Hl2 & Hh1 & Hh2 & Ht1 & Ht2
            & Hnl).
    replace (local ++ "@" ++ host ++ "." ++ tld ++ nl)
      with ((local ++ ("@" ++ (host ++ ("." ++ tld)))) ++ nl)
      by (now rewrite !append_assoc).
    constructor.
    + constructor; [now apply plus_class|].
      constructor; [now apply chr_matches|].
      constructor; [now apply plus_class|].
      constructor; [now apply chr_matches | now apply two_letters].
    + destruct Hnl as [->| ->];
        [apply MAltL; constructor | apply MAltR; now apply chr_matches].
Qed.



(** ** The users table *)

(** Case analysis on every [match] and [if] of a handler body. *)
Ltac split_cases :=
  cbn [fst snd];
  repeat (match goal with
          | |- context [match ?x with _ => _ end] =>
              lazymatch x with
              | context [match _ with _ => _ end] => fail
              | _ => destruct x
              end
          end; cbn [fst snd]).

Lemma store_recipes_users (e : env) (rs : list json) (d : database) :
  let d' := snd (AppImproved.store_recipes e rs d) in
  users d' = users d /\ next_user_id d' = next_user_id d.
Proof.
  revert d. induction rs as [|r rs IH]; intros d; simpl; [now split|].
  destruct (AppImproved.recipe_arguments r)
    as [[[[[[name description] ingredients] instructions] cook_time]
           difficulty]|ex]; simpl; [|now split].
  unfold Models.Recipe.create_recipe, Models.Database.execute_query.
  destruct (db_up e); [|apply IH].
  destruct (Sql.insert_recipe name description ingredients instructions
              cook_time difficulty (now e) d) as [[cur d1]|] eqn:Hins;
    [|apply IH].
  apply insert_recipe_some in Hins as (row & _ & _ & _ & ->).
  destruct (IH (mkDb (users d) (user_ingredients d) (recipes d ++ [row])
                     (user_favorites d) (search_history d)
                     (next_user_id d) (next_ingredient_id d)
                     (next_recipe_id d + 1)
                     (next_favorite_id d) (next_history_id d))) as [Hu Hn].
  split; [exact Hu | exact Hn].
Qed.

(** Only [register] of [app.py] writes to [users]: every other handler
    leaves the table and its counter alone. *)
Lemma handle_users (R : runtime) (os : Config.environ) (e : env) (c : call)
      (d : database) :
  let d' := snd (handle R os e c d) in
  (users d' = users d /\ next_user_id d' = next_user_id d)
  \/ exists name email password,
      c = AppRegister
            (Some (mkRegisterBody (Some name) (Some email) (Some password)))
      /\ Re.match_anchored App.email_pattern email = true
      /\ name <> ""
      /\ (6 <= String.length password)%nat
      /\ ~ In email (map u_email (users d))
      /\ users d'
         = (users d
              ++ [mkUser (next_user_id d) name email
                         (generate_password_hash R password (salt e))
                         (now e)])%list
      /\ next_user_id d' = next_user_id d + 1.
Proof.
  destruct c; cbn [handle].
  - (* app.py register *)
    unfold App.register.
    destruct data as [[name email password]|]; [|left; now split].
    cbn [rb_name rb_email rb_password].
    destruct (_ || _ || _)%bool eqn:Hreq; [left; now split|].
    apply orb_false_iff in Hreq as [Hreq Hpw].
    apply orb_false_iff in Hreq as [Hname Hemail].
    destruct name as [name|]; [|discriminate].
    destruct email as [email|]; [|discriminate].
    destruct password as [password|]; [|discriminate].
    cbn [get field_truthy] in *.
    destruct (Re.match_anchored App.email_pattern email) eqn:Hmatch;
      cbn [negb]; [|left; now split].
    destruct (Z.ltb_spec (Z.of_nat (String.length password)) 6) as [|Hlen];
      [left; now split|].
    destruct (negb (db_up e)); [left; now split|].
    unfold Sql.select_user_by_email, Sql.selected.
    destruct (fetchone _); [left; now split|].
    unfold Sql.insert_user, Sql.inserted.
    destruct (existsb _ (users d)) eqn:Hfresh; [left; now split|].
    right. exists name, email, password. cbn [fst snd users next_user_id].
    conjs; trivial.
    + apply negb_false_iff in Hname. now apply truthy_true.
    + lia.
    + apply (existsb_false_not_in u_email String.eqb);
        [apply String.eqb_eq | exact Hfresh].
  - left. now rewrite app_login_same.
  - left. unfold App.search_recipes, Sql.insert_history, Sql.inserted.
    split_cases; now split.
  - left. unfold App.add_ingredient, Sql.select_ingredient_id, Sql.selected,
      Sql.insert_ingredient, Sql.inserted.
    split_cases; now split.
  - left. unfold App.remove_ingredient, Sql.delete_ingredient.
    split_cases; now split.
  - left. unfold App.add_favorite, Sql.select_recipe_id_by_name,
      Sql.select_favorite_id, Sql.selected, Sql.insert_favorite,
      Sql.insert_recipe, Sql.text_param, Sql.inserted.
    split_cases; now split.
  - left. now rewrite (proj1 (history_same e uid d)).
  - left. now rewrite improved_register_same.
  - left. now rewrite improved_login_same.
  - left. unfold AppImproved.search_recipes, AppImproved.search_recipes_try.
    destruct data as [data|]; [|now split].
    destruct (negb (Py.truthy _)); [now split|].
    set (q := Py.strip _).
    set (found := RecipeService.generate_recipes R e q).
    assert (Hlog : let d1 := snd (Models.SearchHistory.add_search e uid q
                                    (Z.of_nat (length found)) d) in
                   users d1 = users d /\ next_user_id d1 = next_user_id d).
    { unfold Models.SearchHistory.add_search, Models.Database.execute_query,
        Sql.insert_history, Sql.inserted.
      split_cases; now split. }
    destruct (Models.SearchHistory.add_search e uid q
                (Z.of_nat (length found)) d) as [o d1].
    cbn [snd] in Hlog. destruct Hlog as [Hu Hn].
    destruct (store_recipes_users e found d1) as [Hu' Hn'].
    destruct (AppImproved.store_recipes e found d1) as [[[]|ex] d2];
      cbn [snd AppImproved.except_exception] in *; split; congruence.
  - left. unfold AppImproved.add_ingredient, AppImproved.add_ingredient_try,
      Models.Ingredient.ingredient_exists, Models.Ingredient.add_ingredient,
      Models.Database.execute_query_one, Models.Database.execute_query,
      Sql.select_ingredient_id, Sql.selected, Sql.insert_ingredient,
      Sql.inserted.
    split_cases; now split.
  - left. unfold AppImproved.remove_ingredient,
      AppImproved.remove_ingredient_try, Models.Ingredient.remove_ingredient,
      Models.Database.execute_query, Sql.delete_ingredient.
    split_cases; now split.
  - left. unfold AppImproved.add_favorite_recipe,
      AppImproved.add_favorite_recipe_try, Models.Recipe.get_recipe_by_name,
      Models.Recipe.create_recipe, Models.Favorite.is_favorite,
      Models.Favorite.add_favorite, Models.Database.execute_query_one,
      Models.Database.execute_query, Sql.select_recipe_id_by_name,
      Sql.select_favorite_id, Sql.selected, Sql.insert_favorite,
      Sql.insert_recipe, Sql.text_param, Sql.inserted.
    split_cases; now split.
  - left. now rewrite (proj2 (history_same e uid d)).
Qed.

Lemma users_ok_step (R : runtime) (os : Config.environ) (e : env) (c : call)
      (d : database) :
  users_ok R d -> users_ok R (snd (handle R os e c d)).
Proof.
  intros (Hone & Hids & Hnd & Hrows).
  destruct (handle_users R os e c d)
    as [[Hu Hn]|(name & email & password & _ & Hm & Hname & Hlen & _ & Hu & Hn)];
    unfold users_ok; rewrite Hu, Hn.
  - now conjs.
  - conjs.
    + lia.
    + apply Forall_app. split.
      * eapply Forall_impl; [|exact Hids]. simpl. intros; lia.
      * constructor; [|constructor]. simpl. lia.
    + rewrite map_app. simpl.
      apply NoDup_app; [exact Hnd | repeat constructor; simpl; tauto |].
      intros x Hx [Hy|[]]. subst x.
      apply in_map_iff in Hx as (u & Hid & Hin).
      rewrite Forall_forall in Hids. specialize (Hids u Hin). lia.
    + apply Forall_app. split; [exact Hrows|].
      constructor; [|constructor]. simpl. conjs.
      * now apply email_pattern_spec.
      * exact Hname.
      * now exists password, (salt e).
Qed.

Lemma run_users_ok (R : runtime) (os : Config.environ)
      (trace : list (env * call)) (d : database) :
  users_ok R d -> users_ok R (run R os trace d).
Proof.
  revert d. induction trace as [|[e c] rest IH]; intros d Hok; cbn [run].
  - exact Hok.
  - apply IH. now apply users_ok_step.
Qed.

Lemma empty_users_ok (R : runtime) : users_ok R empty_db.
Proof. unfold users_ok. simpl. conjs; try constructor; lia. Qed.

(** X2. In every state the two applications can reach, user ids are
    positive, pairwise distinct and below the AUTO_INCREMENT counter, and
    every user row has an email of the accepted shape, a non-empty name,
    and a password column that is the werkzeug hash of a password of at
    least six characters. *)
Theorem reachable_users_are_well_formed :
  forall (R : runtime) (os : Config.environ) (d : database),
    reachable R os d -> users_ok R d.
Proof.
  intros R os d [trace <-]. apply run_users_ok, empty_users_ok.
Qed.

Lemma reachable_users_are_well_formed_witness :
  let e := mkEnv 1000 true "salt" (ApiRaises "down") in
  let ann := Some (mkRegisterBody (Some "Ann") (Some "ann@example.com")
                                  (Some "secret1")) in
  let bob := Some (mkRegisterBody (Some "Bob") (Some "bob@example.com")
                                  (Some "hunter22")) in
  users_ok Reference.rt
    (run Reference.rt Reference.os
         [(e, AppRegister ann); (e, ImprovedRegister bob);
          (e, AppRegister bob)] empty_db).
Proof.
  intros e ann bob.
  apply (reachable_users_are_well_formed Reference.rt Reference.os).
  exists [(e, AppRegister ann); (e, ImprovedRegister bob);
          (e, AppRegister bob)].
  reflexivity.
Defined.


(** ** ORDER BY ... DESC *)

Lemma insert_by_desc_perm {A : Type} (key : A -> Z) (r : A) (l : list A) :
  Permutation (Sql.insert_by_desc key r l) (r :: l).
Proof.
  induction l as [|x l IH]; simpl; [apply Permutation_refl|].
  destruct (key x <=? key r).
  - apply Permutation_refl.
  - eapply Permutation_trans; [apply perm_skip, IH | apply perm_swap].
Qed.

Lemma order_by_desc_perm {A : Type} (key : A -> Z) (l : list A) :
  Permutation (Sql.order_by_desc key l) l.
Proof.
  induction l as [|x l IH]; simpl; [constructor|].
  eapply Permutation_trans; [apply insert_by_desc_perm | now apply perm_skip].
Qed.

Lemma insert_by_desc_sorted {A : Type} (key : A -> Z) (r : A) (l : list A) :
  StronglySorted (fun a b => key b <= key a) l ->
  StronglySorted (fun a b => key b <= key a) (Sql.insert_by_desc key r l).
Proof.
  induction 1 as [|x l Hs IH Hx]; simpl.
  - repeat constructor.
  - destruct (Z.leb_spec (key x) (key r)) as [Hle|Hlt].
    + constructor; [constructor; assumption|].
      constructor; [exact Hle|].
      eapply Forall_impl; [|exact Hx]. simpl. intros a Ha. lia.
    + constructor; [exact IH|].
      eapply Permutation_Forall;
        [apply Permutation_sym, insert_by_desc_perm|].
      constructor; [lia | exact Hx].
Qed.

Lemma order_by_desc_sorted {A : Type} (key : A -> Z) (l : list A) :
  StronglySorted (fun a b => key b <= key a) (Sql.order_by_desc key l).
Proof.
  induction l as [|x l IH]; simpl; [constructor|].
  now apply insert_by_desc_sorted.
Qed.

(** ** Listing the pantry *)

Lemma some_cons_or_nil {A : Type} (l : list A) :
  match l with x :: l' => x :: l' | [] => [] end = l.
Proof. now destruct l. Qed.

(** X3. Listing the pantry (GET /api/ingredients) never changes the
    database.  When the database answers, both applications reply 200 with
    the same list: the names of the user's ingredient rows, newest first,
    nothing added and nothing left out.  When it does not, [app.py]
    replies 500 and [app_improved.py] replies 200 with an empty list. *)
Theorem ingredient_listing_is_the_pantry_newest_first :
  forall (e : env) (uid : Z) (d : database),
    let app := App.get_user_ingredients e uid d in
    let imp := AppImproved.get_ingredients e uid d in
    snd app = d /\ snd imp = d
    /\ (db_up e = true ->
        reply_status (fst app) = 200 /\ fst imp = fst app
        /\ exists rows,
            listed_ingredients (fst app) = map i_ingredient rows
            /\ Permutation rows (ingredients_of_user uid d)
            /\ StronglySorted (fun a b => i_added_at b <= i_added_at a) rows)
    /\ (db_up e = false ->
        reply_status (fst app) = 500
        /\ fst imp = mkReply 200 (VIngredients [])).
Proof.
  intros e uid d app imp. subst app imp.
  unfold App.get_user_ingredients, AppImproved.get_ingredients,
    Models.Ingredient.get_user_ingredients, Models.Database.execute_query_all,
    Sql.select_ingredients, Sql.selected, fetchall.
  fold (ingredients_of_user uid d).
  destruct (db_up e); cbn [negb fst snd rows].
  - rewrite some_cons_or_nil.
    conjs; trivial; try discriminate. intros _. conjs; trivial.
    exists (Sql.order_by_desc i_added_at (ingredients_of_user uid d)).
    conjs; [reflexivity | apply order_by_desc_perm | apply order_by_desc_sorted].
  - conjs; trivial; try discriminate. intros _. now split.
Qed.

Lemma ingredient_listing_is_the_pantry_newest_first_witness :
  let e := mkEnv 1000 true "salt" (ApiRaises "down") in
  let later := mkEnv 2000 true "salt" (ApiRaises "down") in
  let ann := Some (mkRegisterBody (Some "Ann") (Some "ann@example.com")
                                  (Some "secret1")) in
  let d := run Reference.rt Reference.os
               [(e, AppRegister ann);
                (e, AppAddIngredient 1 (Some (mkIngredientBody (Some "rice"))));
                (later, AppAddIngredient 1
                          (Some (mkIngredientBody (Some "salt"))))]
               empty_db in
  reply_status (fst (App.get_user_ingredients e 1 d)) = 200
  /\ fst (AppImproved.get_ingredients e 1 d)
     = fst (App.get_user_ingredients e 1 d)
  /\ listed_ingredients (fst (App.get_user_ingredients e 1 d))
     = ["salt"; "rice"].
Proof.
  intros e later ann d.
  destruct (ingredient_listing_is_the_pantry_newest_first e 1 d)
    as (_ & _ & Hup & _).
  destruct (Hup eq_refl) as (Hs & Hsame & _).
  split; [exact Hs | split; [exact Hsame | reflexivity]].
Defined.


(** ** Effect of adding and removing on the pantry *)

Lemma pantry_after_delete (uid other : Z) (n : string)
      (l : list ingredient_row) :
  map i_ingredient
      (filter (fun i => i_user_id i =? other)
              (filter (fun i => negb (Sql.ingredient_matches uid n i)) l))
  = if other =? uid
    then without n (map i_ingredient (filter (fun i => i_user_id i =? other) l))
    else map i_ingredient (filter (fun i => i_user_id i =? other) l).
Proof.
  unfold without, Sql.ingredient_matches.
  induction l as [|i l IH]; simpl; [now destruct (other =? uid)|].
  destruct (Z.eqb_spec other uid) as [->|Hne].
  - destruct (Z.eqb_spec (i_user_id i) uid) as [Hu|Hu]; simpl.
    + destruct (String.eqb (i_ingredient i) n); simpl.
      * exact IH.
      * rewrite Hu, Z.eqb_refl. simpl. now rewrite IH.
    + destruct (Z.eqb_spec (i_user_id i) uid); [contradiction|]. exact IH.
  - destruct (Z.eqb_spec (i_user_id i) uid) as [Hu|Hu]; simpl.
    + assert (Ho : (i_user_id i =? other) = false)
        by (apply Z.eqb_neq; congruence).
      rewrite Ho.
      destruct (String.eqb (i_ingredient i) n); simpl;
        [exact IH | rewrite Ho; exact IH].
    + destruct (i_user_id i =? other); simpl; now rewrite IH.
Qed.




Lemma rstrip_idem (s : string) : Py.rstrip (Py.rstrip s) = Py.rstrip s.
Proof.
  induction s as [|c s IH]; simpl; [reflexivity|].
  destruct (Py.rstrip s) as [|a r] eqn:Hr.
  - destruct (Py.is_space c) eqn:Hc; simpl; [reflexivity|]. now rewrite Hc.
  - simpl in IH |- *. now rewrite IH.
Qed.

Lemma lstrip_head (s : string) :
  Py.lstrip s = ""
  \/ exists c r, Py.lstrip s = String c r /\ Py.is_space c = false.
Proof.
  induction s as [|c s IH]; simpl; [now left|].
  destruct (Py.is_space c) eqn:Hc; [exact IH|].
  right. now exists c, s.
Qed.

Lemma lstrip_strip (s : string) : Py.lstrip (Py.strip s) = Py.strip s.
Proof.
  unfold Py.strip.
  destruct (lstrip_head s) as [->|(c & r & -> & Hc)]; [reflexivity|].
  simpl. rewrite Hc. destruct (Py.rstrip r); simpl; now rewrite Hc.
Qed.

Lemma strip_idem (s : string) : Py.strip (Py.strip s) = Py.strip s.
Proof.
  unfold Py.strip at 1. rewrite lstrip_strip.
  unfold Py.strip. apply rstrip_idem.
Qed.

(** The name a POST /api/ingredients stores is in normal form. *)
Lemma stored_name_normal (name : string) :
  let stored := Py.lower (Py.strip name) in
  Py.lower stored = stored /\ Py.strip stored = stored.
Proof.
  simpl. split; [apply lower_idem|].
  now rewrite <- lower_strip, strip_idem.
Qed.

Lemma no_match_not_in_pantry (uid : Z) (n : string) (d : database) :
  fetchone
    (mkCursor
       (map i_id (filter (Sql.ingredient_matches uid n) (user_ingredients d)))
       0
       (Z.of_nat
          (length
             (map i_id (filter (Sql.ingredient_matches uid n)
                               (user_ingredients d))))))
  = None ->
  ~ In n (pantry uid d).
Proof.
  unfold fetchone. cbn [rows]. intros Hnone Hin.
  apply in_map_iff in Hin as (i & Hname & Hi).
  apply filter_In in Hi as [Hi Hu].
  destruct (hd_error_filter_in (Sql.ingredient_matches uid n)
              (user_ingredients d) i Hi) as [y Hy].
  - unfold Sql.ingredient_matches. rewrite Hu, Hname. simpl.
    apply String.eqb_refl.
  - apply (hd_error_map_some i_id) in Hy. congruence.
Qed.

(** The two outcomes of POST /api/ingredients in [app.py]. *)
Lemma app_add_ingredient_cases (e : env) (uid : Z) (data : ingredient_body)
      (d : database) :
  let stored := Py.lower (Py.strip (get (ib_ingredient data) "")) in
  let out := App.add_ingredient e uid (Some data) d in
  (status (fst out) = 201
   /\ snd out = with_ingredient d
                  (mkIngredient (next_ingredient_id d) uid stored (now e))
   /\ stored <> "" /\ ~ In stored (pantry uid d))
  \/ (status (fst out) <> 201 /\ snd out = d).
Proof.
  intros stored out. subst out. unfold App.add_ingredient. fold stored.
  destruct (Py.truthy stored) eqn:Ht; cbn [negb];
    [|right; split; [discriminate | reflexivity]].
  destruct (db_up e); cbn [negb];
    [|right; split; [discriminate | reflexivity]].
  unfold Sql.select_ingredient_id, Sql.selected.
  destruct (fetchone _) eqn:Hsel;
    [right; split; [discriminate | reflexivity]|].
  unfold Sql.insert_ingredient, Sql.inserted.
  destruct (Sql.user_exists uid d);
    [|right; split; [discriminate | reflexivity]].
  left. conjs; trivial.
  - now apply truthy_true.
  - now apply no_match_not_in_pantry.
Qed.

(** The two outcomes of POST /api/ingredients in [app_improved.py]. *)
Lemma improved_add_ingredient_cases (e : env) (uid : Z)
      (data : ingredient_body) (d : database) :
  let stored := Py.lower (Py.strip (get (ib_ingredient data) "")) in
  let out := AppImproved.add_ingredient e uid (Some data) d in
  (status (fst out) = 201
   /\ snd out = with_ingredient d
                  (mkIngredient (next_ingredient_id d) uid stored (now e))
   /\ stored <> "" /\ ~ In stored (pantry uid d))
  \/ (status (fst out) <> 201 /\ snd out = d)
  \/ (next_ingredient_id d = 0
      /\ snd out = with_ingredient d
                     (mkIngredient (next_ingredient_id d) uid stored (now e))
      /\ stored <> "" /\ ~ In stored (pantry uid d)).
Proof.
  intros stored out. subst out.
  unfold AppImproved.add_ingredient, AppImproved.add_ingredient_try.
  destruct (Py.truthy (Py.strip (get (ib_ingredient data) ""))) eqn:Ht;
    cbn [negb];
    [|right; left; split; [discriminate | reflexivity]].
  assert (Hne : stored <> "").
  { apply truthy_true. unfold stored. now rewrite truthy_lower. }
  unfold Models.Ingredient.ingredient_exists, Models.Ingredient.add_ingredient,
    Models.Database.execute_query_one, Models.Database.execute_query,
    Sql.select_ingredient_id, Sql.selected, Sql.insert_ingredient,
    Sql.inserted.
  fold stored.
  destruct (db_up e);
    [|right; left; split; [discriminate | reflexivity]].
  destruct (fetchone _) eqn:Hsel;
    [right; left; split; [discriminate | reflexivity]|].
  apply no_match_not_in_pantry in Hsel.
  destruct (Sql.user_exists uid d);
    [|right; left; split; [discriminate | reflexivity]].
  cbn [lastrowid id_truthy].
  destruct (Z.eqb_spec (next_ingredient_id d) 0) as [Hz|Hz]; cbn [negb].
  - right. right. now conjs.
  - left. now conjs.
Qed.

Lemma pantry_with_ingredient (uid other : Z) (n : string) (id t : Z)
      (d : database) :
  pantry other (with_ingredient d (mkIngredient id uid n t))
  = (pantry other d ++ if other =? uid then [n] else [])%list.
Proof.
  unfold pantry. cbn [with_ingredient user_ingredients].
  rewrite filter_app, map_app. cbn [filter i_user_id].
  rewrite (Z.eqb_sym uid other). now destruct (other =? uid).
Qed.

(** ** The pantry table over whole runs *)

(** What each handler does to [user_ingredients]: nothing, a DELETE of one
    user's name, or an INSERT of a normal-form name the user did not have. *)
Lemma handle_ingredients (R : runtime) (os : Config.environ) (e : env)
      (c : call) (d : database) :
  let d' := snd (handle R os e c d) in
  user_ingredients d' = user_ingredients d
  \/ (exists uid n,
         user_ingredients d'
         = filter (fun i => negb (Sql.ingredient_matches uid n i))
                  (user_ingredients d))
  \/ (exists uid name,
         let stored := Py.lower (Py.strip name) in
         user_ingredients d'
         = (user_ingredients d
              ++ [mkIngredient (next_ingredient_id d) uid stored (now e)])%list
         /\ stored <> "" /\ ~ In stored (pantry uid d)).
Proof.
  destruct c; cbn [handle].
  - left. unfold App.register, Sql.select_user_by_email, Sql.selected,
      Sql.insert_user, Sql.inserted.
    split_cases; reflexivity.
  - left. now rewrite app_login_same.
  - left. unfold App.search_recipes, Sql.insert_history, Sql.inserted.
    split_cases; reflexivity.
  - destruct data as [data|]; [|now left].
    destruct (app_add_ingredient_cases e uid data d)
      as [(_ & -> & Hne & Hfresh)|[_ ->]]; [|now left].
    right. right. exists uid, (get (ib_ingredient data) ""). now conjs.
  - unfold App.remove_ingredient, Sql.delete_ingredient.
    destruct (negb (db_up e)); [now left|].
    right. left. exists uid, (Py.lower ingredient).
    split_cases; reflexivity.
  - left. unfold App.add_favorite, Sql.select_recipe_id_by_name,
      Sql.select_favorite_id, Sql.selected, Sql.insert_favorite,
      Sql.insert_recipe, Sql.text_param, Sql.inserted.
    split_cases; reflexivity.
  - left. now rewrite (proj1 (history_same e uid d)).
  - left. now rewrite improved_register_same.
  - left. now rewrite improved_login_same.
  - left. unfold AppImproved.search_recipes, AppImproved.search_recipes_try.
    destruct data as [data|]; [|reflexivity].
    destruct (negb (Py.truthy _)); [reflexivity|].
    set (q := Py.strip _).
    set (found := RecipeService.generate_recipes R e q).
    assert (Hlog : user_ingredients
                     (snd (Models.SearchHistory.add_search e uid q
                             (Z.of_nat (length found)) d))
                   = user_ingredients d).
    { unfold Models.SearchHistory.add_search, Models.Database.execute_query,
        Sql.insert_history, Sql.inserted.
      split_cases; reflexivity. }
    destruct (Models.SearchHistory.add_search e uid q
                (Z.of_nat (length found)) d) as [o d1].
    cbn [snd] in Hlog.
    destruct (store_recipes_frame e found d1) as (_ & _ & Hi & _).
    destruct (AppImproved.store_recipes e found d1) as [[[]|ex] d2];
      cbn [snd AppImproved.except_exception] in *; congruence.
  - destruct data as [data|]; [|now left].
    destruct (improved_add_ingredient_cases e uid data d)
      as [(_ & -> & Hne & Hfresh)|[[_ ->]|(_ & -> & Hne & Hfresh)]];
      [|now left|];
      right; right; exists uid, (get (ib_ingredient data) ""); now conjs.
  - unfold AppImproved.remove_ingredient,
      AppImproved.remove_ingredient_try, Models.Ingredient.remove_ingredient,
      Models.Database.execute_query, Sql.delete_ingredient.
    destruct (db_up e) eqn:Hup; [|now left].
    right. left. exists uid, (Py.lower ingredient).
    split_cases; reflexivity.
  - left. unfold AppImproved.add_favorite_recipe,
      AppImproved.add_favorite_recipe_try, Models.Recipe.get_recipe_by_name,
      Models.Recipe.create_recipe, Models.Favorite.is_favorite,
      Models.Favorite.add_favorite, Models.Database.execute_query_one,
      Models.Database.execute_query, Sql.select_recipe_id_by_name,
      Sql.select_favorite_id, Sql.selected, Sql.insert_favorite,
      Sql.insert_recipe, Sql.text_param, Sql.inserted.
    split_cases; reflexivity.
  - left. now rewrite (proj2 (history_same e uid d)).
Qed.

Lemma ingredients_ok_step (R : runtime) (os : Config.environ) (e : env)
      (c : call) (d : database) :
  ingredients_ok d -> ingredients_ok (snd (handle R os e c d)).
Proof.
  intros [Hnd Hrows].
  destruct (handle_ingredients R os e c d)
    as [Hi|[(uid & n & Hi)|(uid & name & Hi & Hne & Hfresh)]];
    unfold ingredients_ok, pantry in *; rewrite Hi.
  - now split.
  - split.
    + intros other. rewrite pantry_after_delete.
      destruct (other =? uid); [apply NoDup_filter|]; apply Hnd.
    + rewrite Forall_forall in *. intros i Hin.
      apply filter_In in Hin as [Hin _]. now apply Hrows.
  - split.
    + intros other. rewrite filter_app, map_app. cbn [filter i_user_id].
      destruct (Z.eqb_spec uid other) as [<-|Hother]; simpl;
        [|rewrite app_nil_r; apply Hnd].
      apply NoDup_app; [apply Hnd | repeat constructor; simpl; tauto |].
      intros x Hx [<-|[]]. now apply Hfresh.
    + apply Forall_app. split; [exact Hrows|].
      constructor; [|constructor]. cbn [i_ingredient].
      destruct (stored_name_normal name) as [Hl Hs]. now conjs.
Qed.

Lemma run_ingredients_ok (R : runtime) (os : Config.environ)
      (trace : list (env * call)) (d : database) :
  ingredients_ok d -> ingredients_ok (run R os trace d).
Proof.
  revert d. induction trace as [|[e c] rest IH]; intros d Hok; cbn [run].
  - exact Hok.
  - apply IH. now apply ingredients_ok_step.
Qed.

(** X5. In every state the two applications can reach, no pantry holds the
    same name twice, and every stored ingredient name is non-empty, in lower
    case and without surrounding whitespace. *)
Theorem reachable_pantries_are_normalised :
  forall (R : runtime) (os : Config.environ) (d : database),
    reachable R os d -> ingredients_ok d.
Proof.
  intros R os d [trace <-]. apply run_ingredients_ok.
  split; [intros uid; constructor | constructor].
Qed.

Lemma reachable_pantries_are_normalised_witness :
  let e := mkEnv 1000 true "salt" (ApiRaises "down") in
  let ann := Some (mkRegisterBody (Some "Ann") (Some "ann@example.com")
                                  (Some "secret1")) in
  ingredients_ok
    (run Reference.rt Reference.os
         [(e, AppRegister ann);
          (e, AppAddIngredient 1 (Some (mkIngredientBody (Some "  Salt "))));
          (e, ImprovedAddIngredient 1
                (Some (mkIngredientBody (Some "SALT"))));
          (e, ImprovedAddIngredient 1
                (Some (mkIngredientBody (Some "Rice"))))] empty_db).
Proof.
  intros e ann.
  apply (reachable_pantries_are_normalised Reference.rt Reference.os).
  eexists. reflexivity.
Defined.

(** X6. POST /api/ingredients, in both applications: an answer 201 means
    that the stripped, lowercased name is non-empty, was not in the caller's
    pantry, and is now its last entry, after the unchanged earlier ones; any
    other answer leaves the database as it was; and no answer changes
    another user's pantry. *)
Theorem add_ingredient_appends_the_normal_form :
  forall (e : env) (uid other : Z) (data : ingredient_body) (d : database),
    1 <= next_ingredient_id d ->
    let stored := Py.lower (Py.strip (get (ib_ingredient data) "")) in
    let app := App.add_ingredient e uid (Some data) d in
    let imp := AppImproved.add_ingredient e uid (Some data) d in
    (status (fst app) = 201 ->
     stored <> "" /\ ~ In stored (pantry uid d)
     /\ pantry uid (snd app) = (pantry uid d ++ [stored])%list)
    /\ (status (fst imp) = 201 ->
        stored <> "" /\ ~ In stored (pantry uid d)
        /\ pantry uid (snd imp) = (pantry uid d ++ [stored])%list)
    /\ (status (fst app) <> 201 -> snd app = d)
    /\ (status (fst imp) <> 201 -> snd imp = d)
    /\ (other <> uid ->
        pantry other (snd app) = pantry other d
        /\ pantry other (snd imp) = pantry other d).
Proof.
  intros e uid other data d Hctr stored app imp.
  assert (Hsame : pantry uid (with_ingredient d
                    (mkIngredient (next_ingredient_id d) uid stored (now e)))
                  = (pantry uid d ++ [stored])%list).
  { rewrite pantry_with_ingredient. now rewrite Z.eqb_refl. }
  assert (Hother : other <> uid ->
                   pantry other (with_ingredient d
                     (mkIngredient (next_ingredient_id d) uid stored (now e)))
                   = pantry other d).
  { intros Hne. rewrite pantry_with_ingredient.
    destruct (Z.eqb_spec other uid); [contradiction|apply app_nil_r]. }
  destruct (app_add_ingredient_cases e uid data d)
    as [(Hs & Hd & Hne & Hfresh)|[Hs Hd]];
    destruct (improved_add_ingredient_cases e uid data d)
      as [(Hs' & Hd' & Hne' & Hfresh')|[[Hs' Hd']|(Hz & _)]];
    try lia; fold stored in Hd, Hd'; fold app in Hs, Hd; fold imp in Hs', Hd';
    rewrite Hd, Hd'; conjs; intros; try contradiction; try congruence;
    try (now conjs); try (split; auto).
Qed.

Lemma add_ingredient_appends_the_normal_form_witness :
  let e := mkEnv 1000 true "salt" (ApiRaises "down") in
  let ann := Some (mkRegisterBody (Some "Ann") (Some "ann@example.com")
                                  (Some "secret1")) in
  let d := run Reference.rt Reference.os [(e, AppRegister ann)] empty_db in
  let data := mkIngredientBody (Some "  Salt ") in
  status (fst (App.add_ingredient e 1 (Some data) d)) = 201
  /\ pantry 1 (snd (App.add_ingredient e 1 (Some data) d)) = ["salt"]
  /\ pantry 1 (snd (AppImproved.add_ingredient e 1 (Some data) d)) = ["salt"].
Proof.
  intros e ann d data.
  assert (Hctr : 1 <= next_ingredient_id d) by (vm_compute; discriminate).
  pose proof (add_ingredient_appends_the_normal_form e 1 2 data d Hctr)
    as (Happ & Himp & _).
  split; [reflexivity|].
  split; [apply (Happ eq_refl) | apply (Himp eq_refl)].
Defined.

Lemma fresh_name_filters (uid : Z) (n : string) (l : list ingredient_row) :
  ~ In n (map i_ingredient (filter (fun i => i_user_id i =? uid) l)) ->
  filter (Sql.ingredient_matches uid n) l = []
  /\ filter (fun i => negb (Sql.ingredient_matches uid n i)) l = l.
Proof.
  unfold Sql.ingredient_matches.
  induction l as [|i l IH]; simpl; [now split|].
  destruct (i_user_id i =? uid); simpl; intros Hfresh.
  - destruct (String.eqb_spec (i_ingredient i) n) as [Heq|Hneq]; simpl.
    + exfalso. apply Hfresh. now left.
    + destruct IH as [H1 H2]; [tauto|]. split; [exact H1 | now rewrite H2].
  - destruct (IH Hfresh) as [H1 H2]. split; [exact H1 | now rewrite H2].
Qed.

Lemma delete_just_added (uid : Z) (n : string) (id t : Z) (d : database) :
  ~ In n (pantry uid d) ->
  let l := (user_ingredients d ++ [mkIngredient id uid n t])%list in
  filter (Sql.ingredient_matches uid n) l = [mkIngredient id uid n t]
  /\ filter (fun i => negb (Sql.ingredient_matches uid n i)) l
     = user_ingredients d.
Proof.
  intros Hfresh l. subst l.
  destruct (fresh_name_filters uid n (user_ingredients d) Hfresh) as [H1 H2].
  rewrite !filter_app, H1, H2. cbn [filter].
  unfold Sql.ingredient_matches. cbn [i_user_id i_ingredient].
  rewrite Z.eqb_refl, String.eqb_refl. simpl. split; [reflexivity|].
  apply app_nil_r.
Qed.

(** X7. Adding an ingredient (201) and then deleting it under any spelling
    with the same lowercase form gives back the [user_ingredients] table
    as it was before the two requests.  [app.py] answers the DELETE with 200;
    [app_improved.py] deletes the row all the same but answers 404. *)
Theorem add_then_remove_restores_the_table :
  forall (e e' : env) (uid : Z) (data : ingredient_body) (name : string)
         (d : database),
    db_up e' = true ->
    Py.lower name = Py.lower (Py.strip (get (ib_ingredient data) "")) ->
    let added := App.add_ingredient e uid (Some data) d in
    let removed := App.remove_ingredient e' uid name (snd added) in
    let added' := AppImproved.add_ingredient e uid (Some data) d in
    let removed' := AppImproved.remove_ingredient e' uid name (snd added') in
    (status (fst added) = 201 ->
     status (fst removed) = 200
     /\ user_ingredients (snd removed) = user_ingredients d)
    /\ (status (fst added') = 201 ->
        status (fst removed') = 404
        /\ user_ingredients (snd removed') = user_ingredients d).
Proof.
  intros e e' uid data name d Hup Hname added removed added' removed'.
  split; intros H201.
  - subst removed.
    destruct (app_add_ingredient_cases e uid data d)
      as [(_ & Hd & _ & Hfresh)|[Hs _]]; [|contradiction].
    fold added in Hd. rewrite Hd.
    unfold App.remove_ingredient, Sql.delete_ingredient.
    rewrite Hup, Hname. cbn [negb rowcount with_ingredient user_ingredients].
    destruct (delete_just_added uid _ (next_ingredient_id d) (now e) d Hfresh)
      as [H1 H2].
    rewrite H1. cbn [length Z.of_nat Z.eqb fst snd status user_ingredients].
    now split.
  - subst removed'. split.
    + now rewrite improved_remove_always_404.
    + destruct (improved_add_ingredient_cases e uid data d)
        as [(_ & Hd & _ & Hfresh)|[[Hs _]|(_ & Hd & _ & Hfresh)]];
        [|contradiction|];
        fold added' in Hd; rewrite Hd;
        unfold AppImproved.remove_ingredient,
          AppImproved.remove_ingredient_try,
          Models.Ingredient.remove_ingredient,
          Models.Database.execute_query, Sql.delete_ingredient;
        rewrite Hup, Hname;
        cbn [with_ingredient user_ingredients lastrowid id_truthy Z.eqb negb
             fst snd AppImproved.except_exception];
        apply (delete_just_added uid _ (next_ingredient_id d) (now e) d Hfresh).
Qed.

Lemma add_then_remove_restores_the_table_witness :
  let e := mkEnv 1000 true "salt" (ApiRaises "down") in
  let ann := Some (mkRegisterBody (Some "Ann") (Some "ann@example.com")
                                  (Some "secret1")) in
  let d := run Reference.rt Reference.os
               [(e, AppRegister ann);
                (e, AppAddIngredient 1 (Some (mkIngredientBody (Some "rice"))))]
               empty_db in
  let data := mkIngredientBody (Some "  Salt ") in
  let added := App.add_ingredient e 1 (Some data) d in
  let added' := AppImproved.add_ingredient e 1 (Some data) d in
  (status (fst (App.remove_ingredient e 1 "SALT" (snd added))) = 200
   /\ user_ingredients (snd (App.remove_ingredient e 1 "SALT" (snd added)))
      = user_ingredients d)
  /\ (status (fst (AppImproved.remove_ingredient e 1 "SALT" (snd added')))
      = 404
      /\ user_ingredients
           (snd (AppImproved.remove_ingredient e 1 "SALT" (snd added')))
         = user_ingredients d).
Proof.
  intros e ann d data added added'.
  pose proof (add_then_remove_restores_the_table e e 1 data "SALT" d
                eq_refl eq_refl) as [Happ Himp].
  split; [apply (Happ eq_refl) | apply (Himp eq_refl)].
Defined.

(** ** The favorites table over whole runs *)










Lemma map_flat_map {A B C : Type} (f : B -> C) (g : A -> list B)
      (l : list A) :
  map f (flat_map g l) = flat_map (fun x => map f (g x)) l.
Proof.
  induction l as [|x l IH]; simpl; [reflexivity|].
  now rewrite map_app, IH.
Qed.

Lemma favorites_listing_spec :
  forall (e : env) (uid : Z) (d : database),
    let app := App.get_favorites e uid d in
    let imp := AppImproved.get_favorites e uid d in
    snd app = d /\ snd imp = d
    /\ (db_up e = true ->
        reply_status (fst app) = 200 /\ fst imp = fst app
        /\ Permutation (map fv_name (listed_favorites (fst app)))
                       (favorite_names uid d)
        /\ (db_wf d ->
            exists rows,
              map fv_id (listed_favorites (fst app)) = map f_recipe_id rows
              /\ Permutation rows (favorites_of_user uid d)
              /\ StronglySorted (fun a b => f_created_at b <= f_created_at a)
                                rows))
    /\ (db_up e = false ->
        reply_status (fst app) = 500
        /\ fst imp = mkReply 200 (VFavorites [])).
Proof.
  intros e uid d app imp. subst app imp.
  unfold App.get_favorites, AppImproved.get_favorites,
    Models.Favorite.get_user_favorites, Models.Database.execute_query_all,
    Models.Database.execute_query, Sql.select_favorites, Sql.selected, fetchall.
  destruct (db_up e); cbn [negb fst snd rows reply_status];
    (split; [reflexivity|]); (split; [reflexivity|]);
    (split; [|intros Hx; try discriminate; now split]);
    intros Hx; [clear Hx | discriminate].
  split; [reflexivity|]. split; [reflexivity|].
  fold (favorites_of_user uid d).
  set (ordered := Sql.order_by_desc f_created_at (favorites_of_user uid d)).
  assert (Hperm : Permutation ordered (favorites_of_user uid d))
    by apply order_by_desc_perm.
  cbn [listed_favorites reply_body]. split.
  - rewrite map_map. cbn [favorite_of_row fv_name].
    rewrite map_flat_map. unfold favorite_names.
    fold (favorites_of_user uid d).
    now apply Permutation_flat_map.
  - intros Hwf. exists ordered.
    split; [|split; [exact Hperm | apply order_by_desc_sorted]].
    rewrite map_map. cbn [favorite_of_row fv_id]. rewrite map_flat_map.
    assert (Hsub : forall f, In f ordered -> In f (user_favorites d)).
    { intros f Hf. apply (Permutation_in _ Hperm) in Hf.
      now apply filter_In in Hf as [Hf _]. }
    clear Hperm. clearbody ordered.
    induction ordered as [|f l IH]; simpl; [reflexivity|].
    pose proof (wf_favorites d Hwf) as Hfav. rewrite Forall_forall in Hfav.
    destruct (Hfav f (Hsub f (or_introl eq_refl))) as (r & Hfirst & Hid).
    destruct (first_named_facts _ _ _ Hfirst) as [Hr _].
    rewrite <- Hid.
    rewrite (filter_by_id (recipes d) r (wf_recipe_nodup d Hwf) Hr).
    simpl. f_equal. apply IH.
    intros g Hg. apply Hsub. now right.
Qed.

(** X9. Listing the favorites (GET /api/favorites) never changes the
    database.  With the database answering, both applications send the same
    200 reply, whose names are the user's favorite names in some order; in a
    state that keeps the invariant the reply has one entry for each of the
    user's favorite rows, carrying that row's recipe id, newest row first.
    With the database down [app.py] answers 500 and [app_improved.py]
    answers 200 with an empty list. *)
Theorem favorites_listing_is_the_join_newest_first :
  forall (e : env) (uid : Z) (d : database),
    let app := App.get_favorites e uid d in
    let imp := AppImproved.get_favorites e uid d in
    snd app = d /\ snd imp = d
    /\ (db_up e = true ->
        reply_status (fst app) = 200 /\ fst imp = fst app
        /\ Permutation (map fv_name (listed_favorites (fst app)))
                       (favorite_names uid d)
        /\ (db_wf d ->
            exists rows,
              map fv_id (listed_favorites (fst app)) = map f_recipe_id rows
              /\ Permutation rows (favorites_of_user uid d)
              /\ StronglySorted (fun a b => f_created_at b <= f_created_at a)
                                rows))
    /\ (db_up e = false ->
        reply_status (fst app) = 500
        /\ fst imp = mkReply 200 (VFavorites [])).
Proof. exact favorites_listing_spec. Qed.


Lemma favorites_listing_is_the_join_newest_first_witness :
  let e := mkEnv 1000 true "salt" (ApiRaises "down") in
  let ann := Some (mkRegisterBody (Some "Ann") (Some "ann@example.com")
                                  (Some "secret1")) in
  let soup := Some (mkFavoriteBody
                      (Some (mkRecipeData (Some "Soup") None None None None
                                          None))) in
  let d := run Reference.rt Reference.os
               [(e, AppRegister ann); (e, AppAddFavorite 1 soup)] empty_db in
  map fv_name (listed_favorites (fst (App.get_favorites e 1 d))) = ["Soup"]
  /\ exists rows,
      map fv_id (listed_favorites (fst (App.get_favorites e 1 d)))
      = map f_recipe_id rows
      /\ Permutation rows (favorites_of_user 1 d)
      /\ StronglySorted (fun a b => f_created_at b <= f_created_at a) rows.
Proof.
  intros e ann soup d.
  destruct (favorites_listing_is_the_join_newest_first e 1 d)
    as (_ & _ & Hup & _).
  destruct (Hup eq_refl) as (_ & _ & _ & Hrows).
  split; [reflexivity|].
  apply Hrows, (reachable_wf Reference.rt Reference.os).
  eexists. reflexivity.
Defined.

Lemma run_app (R : runtime) (os : Config.environ)
      (t1 t2 : list (env * call)) (d : database) :
  run R os (t1 ++ t2) d = run R os t2 (run R os t1 d).
Proof.
  revert d. induction t1 as [|[e c] t1 IH]; intros d; simpl;
    [reflexivity | apply IH].
Qed.





(** ** The profile *)

Lemma filter_by_user_id (l : list user_row) (row : user_row) :
  NoDup (map u_id l) -> In row l ->
  filter (fun u => u_id u =? u_id row) l = [row].
Proof.
  induction l as [|x l IH]; simpl; intros Hnd Hin; [destruct Hin|].
  inversion Hnd as [|? ? Hnotin Hnd']; subst.
  destruct Hin as [<-|Hin].
  - rewrite Z.eqb_refl. f_equal.
    apply filter_nil_iff. intros y Hy. apply Z.eqb_neq. intros Heq.
    apply Hnotin. rewrite <- Heq. now apply in_map.
  - destruct (Z.eqb_spec (u_id x) (u_id row)) as [Heq|_];
      [|now apply IH].
    exfalso. apply Hnotin. rewrite Heq. now apply in_map.
Qed.

Lemma reachable_users_ok (R : runtime) (os : Config.environ) (d : database) :
  reachable R os d -> users_ok R d.
Proof. intros [trace <-]. apply run_users_ok, empty_users_ok. Qed.

Lemma profile_spec (R : runtime) (os : Config.environ) (e : env) (uid : Z)
      (d : database) :
  reachable R os d ->
  let app := App.get_profile e uid d in
  let imp := AppImproved.get_profile e uid d in
  snd app = d /\ snd imp = d
  /\ (db_up e = true ->
      fst imp = fst app
      /\ (forall u, In u (users d) -> u_id u = uid ->
                    fst app = mkReply 200
                                (VProfile uid (u_name u) (u_email u)
                                          (u_created_at u)))
      /\ ((forall u, In u (users d) -> u_id u <> uid) ->
          fst app = mkReply 404 (VError "User not found"))
      /\ (uid <= 0 \/ next_user_id d <= uid ->
          fst app = mkReply 404 (VError "User not found")))
  /\ (db_up e = false ->
      fst app = mkReply 500 (VError "Database connection failed")
      /\ fst imp = mkReply 404 (VError "User not found")).
Proof.
  intros Hreach app imp. subst app imp.
  destruct (reachable_users_ok R os d Hreach) as (_ & Hids & Hnd & _).
  unfold App.get_profile, AppImproved.get_profile,
    Models.User.get_user_by_id, Models.Database.execute_query_one,
    Sql.select_user_by_id, Sql.selected, fetchone.
  assert (Hmissing : (forall u, In u (users d) -> u_id u <> uid) ->
                     filter (fun u => u_id u =? uid) (users d) = []).
  { intros Hnone. apply filter_nil_iff. intros u Hu.
    apply Z.eqb_neq. now apply Hnone. }
  destruct (db_up e); cbn [negb rows].
  - split; [now destruct (hd_error _)|]. split; [now destruct (hd_error _)|].
    split; [|intros Hx; discriminate]. intros _.
    split; [now destruct (hd_error _)|]. conjs.
    + intros u Hu <-. now rewrite (filter_by_user_id (users d) u Hnd Hu).
    + intros Hnone. now rewrite (Hmissing Hnone).
    + intros Hout. rewrite Hmissing; [reflexivity|].
      intros u Hu. rewrite Forall_forall in Hids. specialize (Hids u Hu). lia.
  - split; [reflexivity|]. split; [reflexivity|].
    split; [intros Hx; discriminate | intros _; now split].
Qed.

(** X11. GET /api/profile never changes the database.  In a reachable
    state with the database answering, both applications give the same
    reply: 200 with the id, name, email and creation time of the one user
    row that has the caller's id, and 404 when no row has it, in particular
    for an id below 1 or not yet handed out.  With the database down
    [app.py] answers 500 and [app_improved.py] answers 404. *)
Theorem profile_is_the_row_with_the_id :
  forall (R : runtime) (os : Config.environ) (e : env) (uid : Z)
         (d : database),
    reachable R os d ->
    let app := App.get_profile e uid d in
    let imp := AppImproved.get_profile e uid d in
    snd app = d /\ snd imp = d
    /\ (db_up e = true ->
        fst imp = fst app
        /\ (forall u, In u (users d) -> u_id u = uid ->
                      fst app = mkReply 200
                                  (VProfile uid (u_name u) (u_email u)
                                            (u_created_at u)))
        /\ ((forall u, In u (users d) -> u_id u <> uid) ->
            fst app = mkReply 404 (VError "User not found"))
        /\ (uid <= 0 \/ next_user_id d <= uid ->
            fst app = mkReply 404 (VError "User not found")))
    /\ (db_up e = false ->
        fst app = mkReply 500 (VError "Database connection failed")
        /\ fst imp = mkReply 404 (VError "User not found")).
Proof. exact profile_spec. Qed.

Lemma profile_is_the_row_with_the_id_witness :
  let e := mkEnv 1000 true "salt" (ApiRaises "down") in
  let ann := Some (mkRegisterBody (Some "Ann") (Some "ann@example.com")
                                  (Some "secret1")) in
  let d := run Reference.rt Reference.os [(e, AppRegister ann)] empty_db in
  fst (App.get_profile e 1 d)
  = mkReply 200 (VProfile 1 "Ann" "ann@example.com" 1000)
  /\ fst (App.get_profile e 2 d) = mkReply 404 (VError "User not found").
Proof.
  intros e ann d.
  assert (Hreach : reachable Reference.rt Reference.os d)
    by (eexists; reflexivity).
  destruct (profile_is_the_row_with_the_id Reference.rt Reference.os e 1 d
              Hreach) as (_ & _ & Hup & _).
  destruct (Hup eq_refl) as (_ & Hrow & _).
  destruct (profile_is_the_row_with_the_id Reference.rt Reference.os e 2 d
              Hreach) as (_ & _ & Hup2 & _).
  destruct (Hup2 eq_refl) as (_ & _ & _ & Hout).
  split.
  - apply (Hrow (mkUser 1 "Ann" "ann@example.com"
                        (generate_password_hash Reference.rt "secret1" "salt")
                        1000)); [now left | reflexivity].
  - apply Hout. right. vm_compute. discriminate.
Defined.

(** X12. Registration round trip: once [register] of [app.py] has
    answered 201 with a user id, then after any further calls to either
    application GET /api/profile for that id (database answering) returns
    200 with that id, the submitted name and email, and the time of the
    registration; in both applications. *)
Theorem profile_after_register :
  forall (R : runtime) (os : Config.environ)
         (before after : list (env * call)) (e0 e : env)
         (name email password : string)
         (msg0 token0 : string) (uid : Z) (name0 email0 : string)
         (d1 : database),
    App.register R e0
      (Some (mkRegisterBody (Some name) (Some email) (Some password)))
      (run R os before empty_db)
    = (mkResp 201 (BAuth msg0 token0 uid name0 email0), d1) ->
    db_up e = true ->
    let d := run R os after d1 in
    let expected := mkReply 200 (VProfile uid name email (now e0)) in
    App.get_profile e uid d = (expected, d)
    /\ AppImproved.get_profile e uid d = (expected, d).
Proof.
  intros R os before after e0 e name email password msg0 token0 uid name0
         email0 d1 Hreg Hup d expected.
  destruct (app_register_created R e0 name email password _ d1 _ _ _ _ _ Hreg)
    as (Hin1 & _).
  set (body := Some (mkRegisterBody (Some name) (Some email) (Some password)))
    in *.
  assert (Hd1 : d1 = snd (handle R os e0 (AppRegister body)
                            (run R os before empty_db)))
    by (cbn [handle]; now rewrite Hreg).
  assert (Hreach : reachable R os d).
  { exists (before ++ (e0, AppRegister body) :: after)%list.
    rewrite run_app. cbn [run]. now rewrite <- Hd1. }
  destruct (run_evolves R os after d1) as [_ [more Hmore]].
  fold d in Hmore.
  set (row := mkUser uid name email
                     (generate_password_hash R password (salt e0)) (now e0))
    in *.
  assert (Hin : In row (users d))
    by (rewrite Hmore; apply in_or_app; now left).
  destruct (profile_spec R os e uid d Hreach) as (Hd & Hd' & Hok & _).
  destruct (Hok Hup) as (Hsame & Hrow & _).
  specialize (Hrow row Hin eq_refl). cbn [row u_name u_email u_created_at] in Hrow.
  subst expected.
  split; apply injective_projections; cbn [fst snd]; trivial; congruence.
Qed.

Lemma profile_after_register_witness :
  let e := mkEnv 1000 true "salt" (ApiRaises "down") in
  let later := mkEnv 2000 true "pepper" (ApiRaises "down") in
  let ann := Some (mkRegisterBody (Some "Ann") (Some "ann@example.com")
                                  (Some "secret1")) in
  let bob := Some (mkRegisterBody (Some "Bob") (Some "bob@example.com")
                                  (Some "hunter22")) in
  let d := run Reference.rt Reference.os
               [(later, AppRegister ann);
                (later, AppAddIngredient 2
                          (Some (mkIngredientBody (Some "rice"))))]
               (snd (App.register Reference.rt e bob
                       (run Reference.rt Reference.os [(e, AppRegister ann)]
                            empty_db))) in
  fst (App.get_profile later 2 d)
  = mkReply 200 (VProfile 2 "Bob" "bob@example.com" 1000)
  /\ fst (AppImproved.get_profile later 2 d)
     = mkReply 200 (VProfile 2 "Bob" "bob@example.com" 1000).
Proof.
  intros e later ann bob d.
  destruct (profile_after_register Reference.rt Reference.os
              [(e, AppRegister ann)]
              [(later, AppRegister ann);
               (later, AppAddIngredient 2
                         (Some (mkIngredientBody (Some "rice"))))]
              e later "Bob" "bob@example.com" "hunter22"
              "User registered successfully"
              (App.issue_token Reference.rt e 2) 2 "Bob" "bob@example.com"
              _ eq_refl eq_refl) as [Happ Himp].
  split; [exact (f_equal fst Happ) | exact (f_equal fst Himp)].
Defined.

(** ** The statistics route of [app_improved.py] *)

Lemma len_or_zero_some {A : Type} (l : list A) :
  len_or_zero (Some l) = Z.of_nat (length l).
Proof. now destruct l. Qed.

Lemma firstn_nil_inv {A : Type} (n : nat) (l : list A) :
  firstn (S n) l = [] -> l = [].
Proof. now destruct l. Qed.

(** X13. GET /api/stats of [app_improved.py] never changes the database and
    always answers 200.  With the database answering it reports the size of
    the caller's pantry, the number of rows of the favorites join, and as
    [total_searches] the number of the caller's searches capped at 5 (the
    LIMIT of the query it reuses); [recent_ingredients] holds min(5, n)
    names of the pantry, and [last_search] is a search of the caller that
    no other search of theirs is newer than, or None when they have none.
    With the database down every count is 0. *)
Theorem stats_count_the_callers_rows :
  forall (e : env) (uid : Z) (d : database),
    let out := AppImproved.get_user_stats e uid d in
    snd out = d /\ reply_status (fst out) = 200
    /\ exists ti tf ts recent last,
        reply_body (fst out) = VStats ti tf ts recent last
        /\ (db_up e = true ->
            ti = Z.of_nat (length (pantry uid d))
            /\ tf = Z.of_nat (length (favorite_names uid d))
            /\ ts = Z.of_nat (Nat.min 5 (length (history_of_user uid d)))
            /\ length recent = Nat.min 5 (length (pantry uid d))
            /\ (forall x, In x recent -> In x (pantry uid d))
            /\ match last with
               | None => history_of_user uid d = []
               | Some h =>
                   In h (history_of_user uid d)
                   /\ forall h', In h' (history_of_user uid d) ->
                                 h_search_time h' <= h_search_time h
               end)
        /\ (db_up e = false ->
            ti = 0 /\ tf = 0 /\ ts = 0 /\ recent = [] /\ last = None).
Proof.
  intros e uid d out. subst out.
  unfold AppImproved.get_user_stats, Models.Ingredient.get_user_ingredients,
    Models.Favorite.get_user_favorites, Models.SearchHistory.get_user_history,
    Models.Database.execute_query_all, Sql.select_ingredients,
    Sql.select_favorites, Sql.select_history, Sql.selected, fetchall.
  destruct (db_up e); cbn [fst snd rows reply_status reply_body];
    (split; [reflexivity|]); (split; [reflexivity|]);
    do 5 eexists; (split; [reflexivity|]);
    (split; [|intros Hx; try discriminate; now conjs]);
    intros Hx; [clear Hx | discriminate].
  rewrite some_cons_or_nil, !len_or_zero_some.
  fold (ingredients_of_user uid d) (favorites_of_user uid d)
       (history_of_user uid d).
  change (Z.to_nat 5) with 5%nat.
  set (listing := map i_ingredient
                      (Sql.order_by_desc i_added_at (ingredients_of_user uid d))).
  assert (Hlisting : Permutation listing (pantry uid d))
    by (apply Permutation_map, order_by_desc_perm).
  set (ordered := Sql.order_by_search_time_desc (history_of_user uid d)).
  pose proof (order_by_perm (history_of_user uid d)) as Hperm.
  pose proof (order_by_sorted (history_of_user uid d)) as Hsorted.
  fold ordered in Hperm, Hsorted.
  conjs.
  - now rewrite (Permutation_length Hlisting).
  - f_equal. rewrite <- (length_map r_name), map_flat_map.
    apply Permutation_length, Permutation_flat_map, order_by_desc_perm.
  - now rewrite length_firstn, (Permutation_length Hperm).
  - now rewrite length_firstn, (Permutation_length Hlisting).
  - intros x Hin. apply (Permutation_in _ Hlisting).
    now apply in_firstn in Hin.
  - destruct (firstn 5 ordered) as [|h rest] eqn:Hfirst.
    + apply firstn_nil_inv in Hfirst. rewrite Hfirst in Hperm.
      now apply Permutation_nil.
    + destruct ordered as [|h0 tail]; [discriminate|].
      injection Hfirst as -> _.
      split; [apply (Permutation_in _ Hperm); now left|].
      intros h' Hin'.
      apply (Permutation_in _ (Permutation_sym Hperm)) in Hin'.
      destruct Hin' as [<-|Hin']; [lia|].
      inversion Hsorted as [|? ? _ Hall]; subst.
      rewrite Forall_forall in Hall. apply (Hall h' Hin').
Qed.

Lemma stats_count_the_callers_rows_witness :
  let e := mkEnv 1000 true "salt" (ApiRaises "down") in
  let ann := Some (mkRegisterBody (Some "Ann") (Some "ann@example.com")
                                  (Some "secret1")) in
  let d := run Reference.rt Reference.os
               [(e, AppRegister ann);
                (e, AppAddIngredient 1 (Some (mkIngredientBody (Some "rice"))));
                (e, AppAddIngredient 1 (Some (mkIngredientBody (Some "salt"))))]
               empty_db in
  exists ti tf ts recent last,
    reply_body (fst (AppImproved.get_user_stats e 1 d))
    = VStats ti tf ts recent last
    /\ ti = Z.of_nat (length (pantry 1 d))
    /\ ts = Z.of_nat (Nat.min 5 (length (history_of_user 1 d))).
Proof.
  intros e ann d.
  destruct (stats_count_the_callers_rows e 1 d)
    as (_ & _ & ti & tf & ts & recent & last & Hbody & Hup & _).
  destruct (Hup eq_refl) as (Hti & _ & Hts & _).
  exists ti, tf, ts, recent, last.
  split; [exact Hbody | split; [exact Hti | exact Hts]].
Defined.

(** ** Login *)




(** ** The recipe generator and the search built on it *)

Lemma check_recipes_ok (recipes : list json) :
  RecipeService.check_recipes recipes = Ok tt <-> Forall validated recipes.
Proof.
  unfold validated. induction recipes as [|r rs IH].
  - split; [constructor | reflexivity].
  - cbn [RecipeService.check_recipes bind].
    destruct (PyJson.all_in RecipeService.required_fields r)
      as [[|]|ex] eqn:Hr; cbn [bind].
    + rewrite IH. split; [now constructor|].
      intros H. now inversion H.
    + split; [discriminate|]. intros H. inversion H. congruence.
    + split; [discriminate|]. intros H. inversion H. congruence.
Qed.

Lemma fallback_recipes_validated (q : string) :
  Forall validated (RecipeService.get_fallback_recipes q).
Proof.
  unfold RecipeService.get_fallback_recipes, validated.
  repeat constructor.
Qed.

(** X15. [generate_recipes] never raises and whatever it returns has
    passed its own validation: every recipe returned answers True to
    [field in recipe] for the six required fields.  A completion whose
    text parses to a list of such recipes is returned as it is, whatever
    its length, the empty list included; in every other case the result
    is the three fallback recipes. *)
Theorem generated_recipes_are_validated :
  forall (R : runtime) (e : env) (q : string),
    let found := RecipeService.generate_recipes R e q in
    Forall validated found
    /\ (forall content l,
           completion e = ApiReturns content ->
           json_loads R (RecipeService.strip_fences (Py.strip content))
           = Some (JArr l) ->
           Forall validated l ->
           found = l)
    /\ (found = RecipeService.get_fallback_recipes q
        \/ exists content,
            completion e = ApiReturns content
            /\ json_loads R (RecipeService.strip_fences (Py.strip content))
               = Some (JArr found)).
Proof.
  intros R e q found. subst found.
  unfold RecipeService.generate_recipes, RecipeService.generate_recipes_try.
  pose proof (fallback_recipes_validated q) as Hfb.
  destruct (completion e) as [msg|content].
  - conjs; [exact Hfb | discriminate | now left].
  - destruct (json_loads R _) as [[| | | | |recipes|]|] eqn:Hparse;
      try (conjs; [exact Hfb | intros c l [= <-]; congruence | now left]).
    destruct (RecipeService.check_recipes recipes) as [[]|ex] eqn:Hcheck;
      cbn [bind].
    + apply check_recipes_ok in Hcheck. conjs.
      * exact Hcheck.
      * intros c l [= <-] Hl _. congruence.
      * right. now exists content.
    + assert (Hbad : ~ Forall validated recipes).
      { intros Hall. apply check_recipes_ok in Hall. congruence. }
      conjs.
      * destruct ex; exact Hfb.
      * intros c l [= <-] Hl Hall. exfalso. apply Hbad.
        rewrite Hparse in Hl. now injection Hl as ->.
      * left. now destruct ex.
Qed.

Lemma generated_recipes_are_validated_witness :
  let e := mkEnv 1000 true "salt" (ApiReturns " [] ") in
  RecipeService.generate_recipes Reference.rt e "rice" = [].
Proof.
  intros e.
  destruct (generated_recipes_are_validated Reference.rt e "rice")
    as (_ & Hpass & _).
  apply (Hpass " [] " []); [reflexivity | reflexivity | constructor].
Defined.

Lemma store_recipes_outcome (e e' : env) (rs : list json) (d d' : database) :
  fst (AppImproved.store_recipes e rs d)
  = fst (AppImproved.store_recipes e' rs d')
  /\ (fst (AppImproved.store_recipes e rs d) = Ok tt
      <-> forallb storable rs = true).
Proof.
  revert d d'. induction rs as [|r rs IH]; intros d d'; simpl.
  - split; [reflexivity | now split].
  - unfold storable at 1.
    destruct (AppImproved.recipe_arguments r)
      as [[[[[[name description] ingredients] instructions] cook_time]
             difficulty]|ex]; simpl.
    + destruct (Models.Recipe.create_recipe e name description ingredients
                  instructions cook_time difficulty d) as [o d1].
      destruct (Models.Recipe.create_recipe e' name description ingredients
                  instructions cook_time difficulty d') as [o' d1'].
      apply IH.
    + split; [reflexivity | split; discriminate].
Qed.

(** X16. The reply of the search of [app_improved.py] does not depend on
    the database, on whether it can be reached, or on the caller: two
    searches with the same body and the same completion outcome get the
    same reply.  For an ingredient string that is non-empty once stripped
    the reply is 200 exactly when the six arguments of [create_recipe] can
    be built from every generated recipe, and 500 otherwise. *)
Theorem improved_search_reply_ignores_the_database :
  forall (R : runtime) (e e' : env) (uid uid' : Z)
         (data : option search_body) (d d' : database),
    completion e' = completion e ->
    let out := AppImproved.search_recipes R e uid data d in
    fst (AppImproved.search_recipes R e' uid' data d') = fst out
    /\ forall ingredients,
        data = Some (mkSearchBody (Some ingredients)) ->
        Py.strip ingredients <> "" ->
        let found :=
          RecipeService.generate_recipes R e (Py.strip ingredients) in
        (status (fst out) = 200 <-> forallb storable found = true)
        /\ (status (fst out) = 200 \/ status (fst out) = 500).
Proof.
  intros R e e' uid uid' data d d' Hcompl out. subst out.
  unfold AppImproved.search_recipes, AppImproved.search_recipes_try.
  destruct data as [data|]; [|split; [reflexivity | discriminate]].
  destruct (negb (Py.truthy (Py.strip (get (sb_ingredients data) ""))))
    eqn:Hblank.
  - split; [reflexivity|]. intros ingredients [= ->] Hne.
    cbn [get sb_ingredients] in Hblank.
    apply truthy_true in Hne. now rewrite Hne in Hblank.
  - set (q := Py.strip (get (sb_ingredients data) "")).
    assert (Hfound : RecipeService.generate_recipes R e' q
                     = RecipeService.generate_recipes R e q)
      by (unfold RecipeService.generate_recipes; now rewrite Hcompl).
    rewrite Hfound.
    set (found := RecipeService.generate_recipes R e q).
    destruct (Models.SearchHistory.add_search e uid q
                (Z.of_nat (length found)) d) as [o d1].
    destruct (Models.SearchHistory.add_search e' uid' q
                (Z.of_nat (length found)) d') as [o' d1'].
    destruct (store_recipes_outcome e e' found d1 d1') as [Hsame Hok].
    destruct (AppImproved.store_recipes e found d1) as [[[]|ex] d2];
      destruct (AppImproved.store_recipes e' found d1') as [[[]|ex'] d2'];
      cbn [fst] in Hsame, Hok; try discriminate;
      cbn [AppImproved.except_exception fst status].
    + split; [reflexivity|]. intros ingredients [= ->] _.
      cbn [get sb_ingredients]. fold q found.
      split; [|now left]. split; [intros _; now apply Hok | reflexivity].
    + injection Hsame as ->.
      split; [reflexivity|]. intros ingredients [= ->] _.
      cbn [get sb_ingredients]. fold q found.
      split; [|now right]. split; [discriminate|].
      intros Hall. apply Hok in Hall. discriminate.
Qed.

Lemma improved_search_reply_ignores_the_database_witness :
  let e := mkEnv 1000 true "salt" (ApiRaises "down") in
  let e' := mkEnv 2000 false "pepper" (ApiRaises "down") in
  let ann := Some (mkRegisterBody (Some "Ann") (Some "ann@example.com")
                                  (Some "secret1")) in
  let d := run Reference.rt Reference.os [(e, AppRegister ann)] empty_db in
  let data := Some (mkSearchBody (Some " rice, beans ")) in
  fst (AppImproved.search_recipes Reference.rt e' 7 data empty_db)
  = fst (AppImproved.search_recipes Reference.rt e 1 data d).
Proof.
  intros e e' ann d data.
  apply (improved_search_reply_ignores_the_database Reference.rt e e' 1 7 data
           d empty_db eq_refl).
Defined.

(** ** Markdown fences around the completion text *)










(** ** [app.py] commits only on success *)





(** ** A search and the history that follows it *)






(** ** Registration in [app.py] *)




(** ** From a search to a favorite *)



